(** * Image buffer marshaling of the nvcv Python module (mod_nvcv/Image.cpp)

    A shallow embedding of the image construction and export code of
    [src/python/mod_nvcv/Image.cpp]: the cache key of an image, the
    normalisation of DLPack tensors into plane descriptors
    ([ExtractBufferImageInfo]), the repacking of element types
    ([MakePackedType]), the inference of an image format
    ([InferImageFormat]), the assembly of the strided image
    ([FillNVCVImageBufferStrided]), the export back to buffer descriptors
    ([ToPyBufferInfo]) and the retargeting of a wrapper image
    ([Image::setWrapData]); then the Python objects of an export
    ([ToPython], [Image::cuda]) and the wrapping of external buffers
    ([Image::WrapExternalBufferVector], [Image::WrapExternalBufferMany]),
    with the answers of the cache as arguments.

    C++ control flow is embedded in the [outcome] monad: a call returns, throws
    a C++ exception, or stops on a failed [NVCV_ASSERT] / an access outside an
    array. *)

From Stdlib Require Import ZArith Lia List Bool String Ascii.
From stdpp Require Import base tactics decidable option list numbers strings.

Open Scope Z_scope.

(* ===================================================================== *)
(** ** Outcomes of a C++ call *)
(* ===================================================================== *)

(** The two exception classes thrown by the file. *)
Inductive exn : Type :=
| invalid_argument   (* std::invalid_argument *)
| runtime_error.     (* std::runtime_error *)

#[global] Instance exn_eq_dec : EqDecision exn.
Proof. solve_decision. Defined.

(** [Ok a]: normal return; [Throw e]: an exception leaves the function;
    [Abort]: a failed [NVCV_ASSERT], or a read or write outside an array
    (behaviour the C++ standard leaves undefined). *)
Inductive outcome (A : Type) : Type :=
| Ok (a : A)
| Throw (e : exn)
| Abort.
Arguments Ok {A} a.
Arguments Throw {A} e.
Arguments Abort {A}.

#[global] Instance outcome_ret : MRet outcome := fun _ a => Ok a.
#[global] Instance outcome_bind : MBind outcome := fun _ _ k m =>
  match m with
  | Ok a => k a
  | Throw e => Throw e
  | Abort => Abort
  end.

Definition NVCV_ASSERT (cond : bool) : outcome unit :=
  if cond then Ok tt else Abort.

(** [if (cond) throw e;] *)
Definition throw_when (cond : bool) (e : exn) : outcome unit :=
  if cond then Throw e else Ok tt.

Definition returns {A} (m : outcome A) : Prop := ∃ a, m = Ok a.

(** Two's complement narrowing to [w] bits: what a store into an [int]
    ([w = 32]) or the arithmetic on [ssize_t]/[int64_t] ([w = 64]) keeps. *)
Definition wrap (width : Z) (x : Z) : Z :=
  (x + 2 ^ (width - 1)) mod 2 ^ width - 2 ^ (width - 1).
Definition s32 : Z → Z := wrap 32.
Definition s64 : Z → Z := wrap 64.

(** [a[i]] on a C array held as a list; [None] outside the array. *)
Definition at_index {A} (l : list A) (i : Z) : option A :=
  if decide (0 ≤ i) then l !! Z.to_nat i else None.

(** [a[i]] where the array is known to be large enough; reads 0 otherwise. *)
Definition zat (l : list Z) (i : Z) : Z := default 0 (at_index l i).

(* ===================================================================== *)
(** ** The nvcv value types used by Image.cpp *)
(* ===================================================================== *)

Inductive DataKind : Type := UNSPECIFIED | UNSIGNED | SIGNED | FLOAT | COMPLEX.
Inductive ByteOrder : Type := LSB | MSB.
Inductive Channel : Type := CH_NONE | CH_X | CH_Y | CH_Z | CH_W | CH_MAX.

#[global] Instance DataKind_eq_dec : EqDecision DataKind.
Proof. solve_decision. Defined.
#[global] Instance ByteOrder_eq_dec : EqDecision ByteOrder.
Proof. solve_decision. Defined.
#[global] Instance Channel_eq_dec : EqDecision Channel.
Proof. solve_decision. Defined.

(** nvcv::Swizzle: which channel sits in each of the four slots. *)
Record Swizzle : Type := MakeSwizzle { sw_x : Channel; sw_y : Channel; sw_z : Channel; sw_w : Channel }.

#[global] Instance Swizzle_eq_dec : EqDecision Swizzle.
Proof. solve_decision. Defined.

Definition S_0000 := MakeSwizzle CH_NONE CH_NONE CH_NONE CH_NONE.
Definition S_X000 := MakeSwizzle CH_X CH_NONE CH_NONE CH_NONE.
Definition S_XY00 := MakeSwizzle CH_X CH_Y CH_NONE CH_NONE.
Definition S_XYZ0 := MakeSwizzle CH_X CH_Y CH_Z CH_NONE.
Definition S_XYZW := MakeSwizzle CH_X CH_Y CH_Z CH_W.
Definition S_XYZ1 := MakeSwizzle CH_X CH_Y CH_Z CH_MAX.
Definition S_XYXZ := MakeSwizzle CH_X CH_Y CH_X CH_Z.
Definition S_YXZX := MakeSwizzle CH_Y CH_X CH_Z CH_X.

(** nvcv::PackingParams, with the three fields Image.cpp reads and writes:
    [pp.byteOrder], [pp.swizzle] and [pp.bits[0..3]]. *)
Record PackingParams : Type := mkPackingParams {
  byteOrder : ByteOrder;
  swizzle : Swizzle;
  bits : list Z
}.

#[global] Instance PackingParams_eq_dec : EqDecision PackingParams.
Proof. solve_decision. Defined.

(** Modelled from the spec: nvcv::Packing with [GetParams] and [MakePacking]
    (DataLayout.hpp is not among the sources). The spec's element type is
    "{dataKind, bitsPerChannel, numChannels, channelOrder/swizzle, byteOrder}";
    a packing is identified with the parameters that describe it, so both
    conversions are the identity. *)
Definition Packing : Type := PackingParams.
Definition GetParams (p : Packing) : PackingParams := p.
Definition MakePacking (pp : PackingParams) : Packing := pp.

(** Modelled from the spec: the packing constants Image.cpp names.
    [PACKING_0] is the packing of an absent plane ([NVCV_PACKING_0 == 0]). *)
Definition PACKING_0 : Packing := mkPackingParams MSB S_0000 [0; 0; 0; 0].
Definition X8 : Packing := mkPackingParams MSB S_X000 [8; 0; 0; 0].
Definition X8_Y8 : Packing := mkPackingParams MSB S_XY00 [8; 8; 0; 0].
Definition X8_Y8_Z8 : Packing := mkPackingParams MSB S_XYZ0 [8; 8; 8; 0].
Definition X8_Y8_Z8_W8 : Packing := mkPackingParams MSB S_XYZW [8; 8; 8; 8].
Definition X32_Y32 : Packing := mkPackingParams MSB S_XY00 [32; 32; 0; 0].
Definition X8_Y8__X8_Z8 : Packing := mkPackingParams MSB S_XYXZ [8; 8; 8; 0].
Definition Y8_X8__Z8_X8 : Packing := mkPackingParams MSB S_YXZX [8; 8; 8; 0].

(** Modelled from the spec: the number of channels of a packing, "if a
    channel doesn't exist, its bits are 0". *)
Definition packNumChannels (p : Packing) : Z :=
  Z.of_nat (length (filter (λ b, b ≠ 0) (take 4 (bits p)))).

(** Modelled from the spec: bits of one element of the packing. *)
Definition packBitsPerPixel (p : Packing) : Z :=
  foldr Z.add 0 (take 4 (bits p)).

(** nvcv::DataType: a data kind and a packing. *)
Record DataType : Type := mkDataType {
  dt_dataKind : DataKind;
  dt_packing : Packing
}.

#[global] Instance DataType_eq_dec : EqDecision DataType.
Proof. solve_decision. Defined.

Definition dt_numChannels (d : DataType) : Z := packNumChannels (dt_packing d).

(** Modelled from the spec: DataType::strideBytes, bytes of one element. *)
Definition dt_strideBytes (d : DataType) : Z :=
  (packBitsPerPixel (dt_packing d) + 7) `quot` 8.

(** Modelled from the spec: DataType::channelType(ch), the one-channel type
    of channel [ch]: same kind and byte order, the bits of that channel. *)
Definition dt_channelType (d : DataType) (ch : Z) : DataType :=
  mkDataType (dt_dataKind d)
    (MakePacking (mkPackingParams (byteOrder (GetParams (dt_packing d))) S_X000
                    [zat (bits (GetParams (dt_packing d))) ch; 0; 0; 0])).

Inductive ColorModel : Type :=
| CM_UNDEFINED | CM_YCbCr | CM_RGB | CM_RAW | CM_XYZ | CM_HSV | CM_CMYK | CM_YCCK.
Inductive ChromaSubsampling : Type :=
| CSS_NONE | CSS_444 | CSS_422 | CSS_422R | CSS_411 | CSS_411R | CSS_420.
Inductive MemLayout : Type := PITCH_LINEAR | BLOCK_LINEAR (log2height : Z).
Inductive ColorSpec : Type := CSPEC_UNDEFINED | CSPEC_BT601 | CSPEC_BT601_ER | CSPEC_BT709 | CSPEC_OTHER (code : Z).
Inductive RawPattern : Type := RAW_NONE | RAW_BAYER (code : Z).

#[global] Instance ColorModel_eq_dec : EqDecision ColorModel.
Proof. solve_decision. Defined.
#[global] Instance ChromaSubsampling_eq_dec : EqDecision ChromaSubsampling.
Proof. solve_decision. Defined.
#[global] Instance MemLayout_eq_dec : EqDecision MemLayout.
Proof. solve_decision. Defined.
#[global] Instance ColorSpec_eq_dec : EqDecision ColorSpec.
Proof. solve_decision. Defined.
#[global] Instance RawPattern_eq_dec : EqDecision RawPattern.
Proof. solve_decision. Defined.

(** Modelled from the spec: nvcv::ImageFormat (ImageFormat.hpp is not among the
    sources), "{colorModel, channelSwizzle, perPlanePacking[<=4], dataKind}"
    together with the other arguments of the constructors Image.cpp calls. *)
Record ImageFormat : Type := mkImageFormat {
  colorModel : ColorModel;
  colorSpec : ColorSpec;
  chromaSubsampling : ChromaSubsampling;
  rawPattern : RawPattern;
  memLayout : MemLayout;
  dataKind : DataKind;
  fmt_swizzle : Swizzle;
  packing0 : Packing;
  packing1 : Packing;
  packing2 : Packing;
  packing3 : Packing
}.

#[global] Instance ImageFormat_eq_dec : EqDecision ImageFormat.
Proof. solve_decision. Defined.

(** The four constructors of nvcv::ImageFormat that [InferImageFormat] calls. *)
Definition ImageFormat_YCbCr (cspec : ColorSpec) (css : ChromaSubsampling) (ml : MemLayout)
    (dk : DataKind) (sw : Swizzle) (p0 p1 p2 p3 : Packing) : ImageFormat :=
  mkImageFormat CM_YCbCr cspec css RAW_NONE ml dk sw p0 p1 p2 p3.
Definition ImageFormat_NonColor (ml : MemLayout) (dk : DataKind) (sw : Swizzle)
    (p0 p1 p2 p3 : Packing) : ImageFormat :=
  mkImageFormat CM_UNDEFINED CSPEC_UNDEFINED CSS_NONE RAW_NONE ml dk sw p0 p1 p2 p3.
Definition ImageFormat_Raw (raw : RawPattern) (ml : MemLayout) (dk : DataKind) (sw : Swizzle)
    (p0 p1 p2 p3 : Packing) : ImageFormat :=
  mkImageFormat CM_RAW CSPEC_UNDEFINED CSS_NONE raw ml dk sw p0 p1 p2 p3.
Definition ImageFormat_Color (model : ColorModel) (cspec : ColorSpec) (ml : MemLayout)
    (dk : DataKind) (sw : Swizzle) (p0 p1 p2 p3 : Packing) : ImageFormat :=
  mkImageFormat model cspec CSS_NONE RAW_NONE ml dk sw p0 p1 p2 p3.

(** [fmt.dataKind(k)] and [fmt.swizzleAndPacking(sw, p0, p1, p2, p3)]. *)
Definition with_dataKind (f : ImageFormat) (dk : DataKind) : ImageFormat :=
  mkImageFormat (colorModel f) (colorSpec f) (chromaSubsampling f) (rawPattern f)
    (memLayout f) dk (fmt_swizzle f) (packing0 f) (packing1 f) (packing2 f) (packing3 f).
Definition swizzleAndPacking (f : ImageFormat) (sw : Swizzle) (p0 p1 p2 p3 : Packing) : ImageFormat :=
  mkImageFormat (colorModel f) (colorSpec f) (chromaSubsampling f) (rawPattern f)
    (memLayout f) (dataKind f) sw p0 p1 p2 p3.

(** Modelled from the spec: the format constants Image.cpp names. [FMT_NONE]
    is the format with nothing in it; the base formats are "single-channel
    gray", "two-channel", "three-channel color", "four-channel color+alpha",
    and the "2-plane, 3-channel semi-planar luma/chroma pair". *)
Definition FMT_NONE : ImageFormat :=
  mkImageFormat CM_UNDEFINED CSPEC_UNDEFINED CSS_NONE RAW_NONE PITCH_LINEAR UNSPECIFIED S_0000
    PACKING_0 PACKING_0 PACKING_0 PACKING_0.
Definition FMT_U8 : ImageFormat :=
  ImageFormat_NonColor PITCH_LINEAR UNSIGNED S_X000 X8 PACKING_0 PACKING_0 PACKING_0.
Definition FMT_2F32 : ImageFormat :=
  ImageFormat_NonColor PITCH_LINEAR FLOAT S_XY00 X32_Y32 PACKING_0 PACKING_0 PACKING_0.
Definition FMT_RGB8 : ImageFormat :=
  ImageFormat_Color CM_RGB CSPEC_UNDEFINED PITCH_LINEAR UNSIGNED S_XYZ1 X8_Y8_Z8 PACKING_0 PACKING_0 PACKING_0.
Definition FMT_RGBA8 : ImageFormat :=
  ImageFormat_Color CM_RGB CSPEC_UNDEFINED PITCH_LINEAR UNSIGNED S_XYZW X8_Y8_Z8_W8 PACKING_0 PACKING_0 PACKING_0.
Definition FMT_NV12_ER : ImageFormat :=
  ImageFormat_YCbCr CSPEC_BT601_ER CSS_420 PITCH_LINEAR UNSIGNED S_XYZ0 X8 X8_Y8 PACKING_0 PACKING_0.

(** The packings of the planes as an array of four. *)
Definition planePackings (f : ImageFormat) : list Packing :=
  [packing0 f; packing1 f; packing2 f; packing3 f].

(** Modelled from the spec: [fmt.planePacking(p)]; a plane the format does not
    have has the empty packing. *)
Definition planePacking (f : ImageFormat) (p : Z) : Packing :=
  default PACKING_0 (at_index (planePackings f) p).

(** Modelled from the spec: [fmt.planeNumChannels(p)], [fmt.planeDataType(p)]
    and [fmt.numChannels()], "total channel count across planes". *)
Definition planeNumChannels (f : ImageFormat) (p : Z) : Z :=
  packNumChannels (planePacking f p).
Definition planeDataType (f : ImageFormat) (p : Z) : DataType :=
  mkDataType (dataKind f) (planePacking f p).
Definition fmt_numChannels (f : ImageFormat) : Z :=
  planeNumChannels f 0 + planeNumChannels f 1 + planeNumChannels f 2 + planeNumChannels f 3.

(** nvcv::Size2D, a width and a height. *)
Record Size2D : Type := mkSize2D { sz_w : Z; sz_h : Z }.

#[global] Instance Size2D_eq_dec : EqDecision Size2D.
Proof. solve_decision. Defined.

(* ===================================================================== *)
(** ** Image::Key *)
(* ===================================================================== *)

Module Key.

(** [Image::Key]: [Key{}] is the key of a wrapper, [Key{size, fmt}] the key
    of an allocated image. [m_size] is the Python-side
    [std::tuple<int, int>]. *)
Record t : Type := mk {
  m_isWrapper : bool;
  m_size : Z * Z;
  m_format : ImageFormat
}.

Definition Wrapper : t := mk true (0, 0) FMT_NONE.
Definition Sized (size : Z * Z) (fmt : ImageFormat) : t := mk false size fmt.

Definition doIsCompatible (this that : t) : bool :=
  if m_isWrapper this && m_isWrapper that then true
  else if m_isWrapper this || m_isWrapper that then false
  else bool_decide ((m_size this, m_format this) = (m_size that, m_format that)).

(** [ComputeHash] is not among the sources; it is a parameter. *)
Definition doGetHash (ComputeHash : Z * Z → ImageFormat → Z) (this : t) : Z :=
  if m_isWrapper this then 0 else ComputeHash (m_size this) (m_format this).

End Key.

(* ===================================================================== *)
(** ** DLPack tensors and the helpers that are not among the sources *)
(* ===================================================================== *)

Inductive DLDataTypeCode : Type := kDLInt | kDLUInt | kDLFloat | kDLBfloat | kDLComplex | kDLBool.

#[global] Instance DLDataTypeCode_eq_dec : EqDecision DLDataTypeCode.
Proof. solve_decision. Defined.

(** dlpack.h: [DLDataType], [DLDevice], [DLTensor]. Strides count elements. *)
Record DLDataType : Type := mkDLDataType {
  dl_code : DLDataTypeCode;
  dl_bits : Z;       (* uint8_t *)
  dl_lanes : Z       (* uint16_t *)
}.

Record DLDevice : Type := mkDLDevice {
  device_type : Z;
  device_id : Z
}.

Record DLTensor : Type := mkDLTensor {
  dl_data : Z;                (* void *data, as an address *)
  dl_device : DLDevice;
  dl_ndim : Z;                (* int32_t *)
  dl_dtype : DLDataType;
  dl_shape : list Z;          (* int64_t[ndim] *)
  dl_strides : list Z         (* int64_t[ndim] *)
}.

#[global] Instance DLDataType_eq_dec : EqDecision DLDataType.
Proof. solve_decision. Defined.
#[global] Instance DLDevice_eq_dec : EqDecision DLDevice.
Proof. solve_decision. Defined.
#[global] Instance DLTensor_eq_dec : EqDecision DLTensor.
Proof. solve_decision. Defined.

(** nvcv::TensorLayout: the labels of the axes, outermost first. *)
Abbreviation TensorLayout := (list ascii) (only parsing).

(** [layout.find(label)]: position of the first axis with that label, or -1. *)
Fixpoint layout_find (l : TensorLayout) (c : ascii) : Z :=
  match l with
  | [] => -1
  | x :: rest =>
      if decide (x = c) then 0
      else let r := layout_find rest c in if decide (r < 0) then -1 else r + 1
  end.

Definition layout_rank (l : TensorLayout) : Z := Z.of_nat (length l).

Definition layout_HW : TensorLayout := ["H"; "W"]%char.
Definition layout_HWC : TensorLayout := ["H"; "W"; "C"]%char.
Definition layout_CHW : TensorLayout := ["C"; "H"; "W"]%char.

(** Functions of the repository that Image.cpp calls and that are not among
    the sources. Every definition below takes them as parameters. *)
Class External : Type := {
  (** [ToNVCVDataType(tensor.dtype)] (DataType.hpp) *)
  ToNVCVDataType : DLDataType → DataType;
  (** [HasSameDataLayout(a, b)] (ImageFormat.hpp) *)
  HasSameDataLayout : ImageFormat → ImageFormat → bool;
  (** [fmt.planeSize(imgSize, plane)] (ImageFormat.hpp) *)
  planeSize : ImageFormat → Size2D → Z → Size2D;
  (** whether [TensorLayoutInfoImage::Create(layout)] yields a value *)
  isImageLayout : TensorLayout → bool
}.

(* ===================================================================== *)
(** ** ExtractBufferImageInfo *)
(* ===================================================================== *)

Record BufferImageInfo : Type := mkBufferImageInfo {
  numPlanes : Z;            (* int *)
  size : Size2D;
  numChannels : Z;          (* int *)
  isChannelLast : bool;
  planeStride : Z;          (* int64_t *)
  rowStride : Z;            (* int64_t *)
  dtype : DataType;
  data : Z                  (* void * *)
}.

(** The two rank-4 layouts the function assigns. *)
Inductive Layout4 : Type := TENSOR_NCHW | TENSOR_NHWC.

#[global] Instance Layout4_eq_dec : EqDecision Layout4.
Proof. solve_decision. Defined.

(** [ssize_t shape[4]] and [ssize_t strides[4]]. *)
Record Extent4 : Type := mkExtent4 { e0 : Z; e1 : Z; e2 : Z; e3 : Z }.

Definition ext (e : Extent4) (i : Z) : Z :=
  if decide (i = 0) then e0 e
  else if decide (i = 1) then e1 e
  else if decide (i = 2) then e2 e
  else e3 e.

(** Modelled from the spec: nvcv::TensorShapeInfoImagePlanar over a rank-4
    shape (TensorShapeInfo.hpp is not among the sources). The axes of NCHW
    and NHWC are what their labels say; the counts are [int]. Output per
    buffer: "{numPlanes, size:(w,h), numChannels, isChannelLast, ...}". *)
Definition idxSample (l : Layout4) : Z := 0.
Definition idxChannel (l : Layout4) : Z := match l with TENSOR_NCHW => 1 | TENSOR_NHWC => 3 end.
Definition idxHeight (l : Layout4) : Z := match l with TENSOR_NCHW => 2 | TENSOR_NHWC => 1 end.
Definition idxWidth (l : Layout4) : Z := match l with TENSOR_NCHW => 3 | TENSOR_NHWC => 2 end.
Definition layoutIsChannelLast (l : Layout4) : bool :=
  match l with TENSOR_NCHW => false | TENSOR_NHWC => true end.
Definition shapeNumSamples (l : Layout4) (shape : Extent4) : Z := s32 (ext shape (idxSample l)).
Definition shapeNumChannels (l : Layout4) (shape : Extent4) : Z := s32 (ext shape (idxChannel l)).
Definition shapeNumRows (l : Layout4) (shape : Extent4) : Z := s32 (ext shape (idxHeight l)).
Definition shapeNumCols (l : Layout4) (shape : Extent4) : Z := s32 (ext shape (idxWidth l)).
Definition shapeSize (l : Layout4) (shape : Extent4) : Size2D :=
  mkSize2D (shapeNumCols l shape) (shapeNumRows l shape).

(** [int elemStrideBytes = (tensor.dtype.bits * tensor.dtype.lanes + 7) / 8] *)
Definition elemStrideBytes (tensor : DLTensor) : Z :=
  (dl_bits (dl_dtype tensor) * dl_lanes (dl_dtype tensor) + 7) `quot` 8.

(** The [switch (tensor.ndim)]: the 4-d shape, strides and layout of buffer
    number [p], whatever its rank. *)
Definition shapeStridesLayout (fmt : ImageFormat) (p : Z) (tensor : DLTensor)
    : outcome (Extent4 * Extent4 * Layout4) :=
  let esb := elemStrideBytes tensor in
  let tshape := zat (dl_shape tensor) in
  let tstrides := zat (dl_strides tensor) in
  let ndim := dl_ndim tensor in
  if decide (ndim = 1) then
    let st0 := s64 (tstrides 0 * esb) in
    Ok (mkExtent4 1 1 1 (tshape 0), mkExtent4 st0 st0 st0 st0, TENSOR_NCHW)
  else if decide (ndim = 2) then
    let st0 := s64 (s64 (tshape 0 * tstrides 0) * esb) in
    Ok (mkExtent4 1 1 (tshape 0) (tshape 1),
        mkExtent4 st0 st0 (s64 (tstrides 0 * esb)) (s64 (tstrides 1 * esb)),
        TENSOR_NCHW)
  else if decide (ndim = 3 ∨ ndim = 4) then
    let sh0 := if decide (ndim = 3) then 1 else tshape (ndim - 4) in
    let sh1 := tshape (ndim - 3) in
    let sh2 := tshape (ndim - 2) in
    let sh3 := tshape (ndim - 1) in
    let layout :=
      (* User has specified a format? *)
      if decide (fmt ≠ FMT_NONE) then
        (* Use it to disambiguate *)
        if decide (planeNumChannels fmt p = sh3) then TENSOR_NHWC else TENSOR_NCHW
      else
        if decide (sh3 ≤ 4) then TENSOR_NHWC else TENSOR_NCHW in
    let st1 := s64 (tstrides (ndim - 3) * esb) in
    let st2 := s64 (tstrides (ndim - 2) * esb) in
    let st3 := s64 (tstrides (ndim - 1) * esb) in
    let st0 := if decide (ndim = 3) then s64 (sh1 * st1) else tstrides (ndim - 4) in
    Ok (mkExtent4 sh0 sh1 sh2 sh3, mkExtent4 st0 st1 st2 st3, layout)
  else
    Throw invalid_argument.

Section Ingest.
Context `{External}.

(** One turn of the loop over the buffers: buffer [p], with [curChannel]
    channels seen so far. Returns the buffer's info and the new count.
    [NVCV_ASSERT(layout.rank() == 4)] and [NVCV_ASSERT(infoShape)] have no
    counterpart here: [Layout4] has only the two 4-d layouts, and both are
    image layouts. *)
Definition extractBuffer (fmt : ImageFormat) (p : Z) (tensor : DLTensor) (curChannel : Z)
    : outcome (BufferImageInfo * Z) :=
  let esb := elemStrideBytes tensor in
  '(shape, strides, layout) ← shapeStridesLayout fmt p tensor;
  (* Validate strides *)
  _ ← throw_when (bool_decide (e0 strides ≤ 0 ∨ e1 strides ≤ 0 ∨ e2 strides ≤ 0)) invalid_argument;
  _ ← throw_when (bool_decide (e3 strides ≠ esb)) invalid_argument;
  let packedRowStride := s64 (esb * shapeNumCols layout shape) in
  let rowStride := ext strides (idxHeight layout) in
  _ ← throw_when (negb (layoutIsChannelLast layout) && bool_decide (rowStride ≠ packedRowStride))
        invalid_argument;
  let chLast := layoutIsChannelLast layout in
  let bufInfo :=
    mkBufferImageInfo
      (if chLast then shapeNumSamples layout shape else shapeNumChannels layout shape)
      (shapeSize layout shape)
      (shapeNumChannels layout shape)
      chLast
      (ext strides (if chLast then idxSample layout else idxChannel layout))
      (ext strides (idxHeight layout))
      (ToNVCVDataType (dl_dtype tensor))
      (dl_data tensor) in
  let curChannel := s32 (curChannel + s32 (numPlanes bufInfo * numChannels bufInfo)) in
  _ ← throw_when (bool_decide (curChannel > 4)) invalid_argument;
  _ ← NVCV_ASSERT (bool_decide (numPlanes bufInfo ≤ 4));
  _ ← NVCV_ASSERT (bool_decide (numChannels bufInfo ≤ 4));
  Ok (bufInfo, curChannel).

Fixpoint extractLoop (fmt : ImageFormat) (tensors : list DLTensor) (p : Z) (curChannel : Z)
    : outcome (list BufferImageInfo) :=
  match tensors with
  | [] => Ok []
  | tensor :: rest =>
      '(bufInfo, curChannel) ← extractBuffer fmt p tensor curChannel;
      infos ← extractLoop fmt rest (p + 1) curChannel;
      Ok (bufInfo :: infos)
  end.

Definition ExtractBufferImageInfo (tensorList : list DLTensor) (fmt : ImageFormat)
    : outcome (list BufferImageInfo) :=
  extractLoop fmt tensorList 0 0.

End Ingest.

(* ===================================================================== *)
(** ** MakePackedType *)
(* ===================================================================== *)

(** [for (i = 1; i < numChannels; ++i) pp.bits[i] = pp.bits[0];] *)
Definition replicateBits (numChannels : Z) (bs : list Z) : list Z :=
  foldl (λ acc i, <[Z.to_nat i := zat acc 0]> acc) bs (seqZ 1 (numChannels - 1)).

Definition MakePackedType (dtype : DataType) (numChannels : Z) : outcome DataType :=
  if decide (dt_numChannels dtype = numChannels) then Ok dtype
  else
    _ ← NVCV_ASSERT (bool_decide (2 ≤ numChannels ∧ numChannels ≤ 4));
    let pp := GetParams (dt_packing dtype) in
    let sw :=
      if decide (numChannels = 2) then S_XY00
      else if decide (numChannels = 3) then S_XYZ0
      else if decide (numChannels = 4) then S_XYZW
      else swizzle pp in
    let pp := mkPackingParams MSB sw (replicateBits numChannels (bits pp)) in
    let newPacking := MakePacking pp in
    Ok (mkDataType (dt_dataKind dtype) newPacking).

(* ===================================================================== *)
(** ** InferImageFormat *)
(* ===================================================================== *)

(** Loops with early exit, left to right. *)
Fixpoint foldM {A S : Type} (f : S → A → outcome S) (s : S) (l : list A) : outcome S :=
  match l with
  | [] => Ok s
  | a :: rest => s' ← f s a; foldM f s' rest
  end.

Definition baseFormatList : list ImageFormat := [FMT_U8; FMT_2F32; FMT_RGB8; FMT_RGBA8].

(** One turn of the loop over the planes: [st] holds [packing[4]] and
    [numChannels]; [kind0] is [planePixTypes[0].dataKind()]. *)
Definition inferPlane (kind0 : DataKind) (st : list Packing * Z) (pt : Z * DataType)
    : outcome (list Packing * Z) :=
  let '(packing, numChannels) := st in
  let '(p, planeType) := pt in
  let packing := <[Z.to_nat p := dt_packing planeType]> packing in
  let numChannels := s32 (numChannels + dt_numChannels planeType) in
  _ ← throw_when (bool_decide (dt_dataKind planeType ≠ kind0)) invalid_argument;
  Ok (packing, numChannels).

(** The planes with their index [p]. *)
Definition indexed {A} (l : list A) : list (Z * A) :=
  zip (seqZ 0 (Z.of_nat (length l))) l.

(** The choice after the loop ("Planar or packed?"), from the data kind of
    plane 0, the number of planes, [packing[4]] and [numChannels]. *)
Definition selectFormat (dataKind : DataKind) (numPlanes : Z) (packing : list Packing)
    (numChannels : Z) : outcome ImageFormat :=
  let pk := λ i : nat, default PACKING_0 (packing !! i) in
  (* Planar or packed? *)
  if decide (numPlanes = 1 ∨ numChannels = numPlanes) then
    _ ← NVCV_ASSERT (bool_decide (numChannels ≤ 4));
    match at_index baseFormatList (numChannels - 1) with
    | None => Abort
    | Some baseFormat =>
        let model := colorModel baseFormat in
        Ok match model with
           | CM_YCbCr =>
               ImageFormat_YCbCr (colorSpec baseFormat) (chromaSubsampling baseFormat)
                 (memLayout baseFormat) dataKind (fmt_swizzle baseFormat)
                 (pk 0%nat) (pk 1%nat) (pk 2%nat) (pk 3%nat)
           | CM_UNDEFINED =>
               ImageFormat_NonColor (memLayout baseFormat) dataKind (fmt_swizzle baseFormat)
                 (pk 0%nat) (pk 1%nat) (pk 2%nat) (pk 3%nat)
           | CM_RAW =>
               ImageFormat_Raw (rawPattern baseFormat) (memLayout baseFormat) dataKind
                 (fmt_swizzle baseFormat) (pk 0%nat) (pk 1%nat) (pk 2%nat) (pk 3%nat)
           | _ =>
               ImageFormat_Color model (colorSpec baseFormat) (memLayout baseFormat) dataKind
                 (fmt_swizzle baseFormat) (pk 0%nat) (pk 1%nat) (pk 2%nat) (pk 3%nat)
           end
    end
  (* semi-planar, NV12-like? *)
  else if decide (numPlanes = 2 ∧ numChannels = 3) then
    Ok (swizzleAndPacking (with_dataKind FMT_NV12_ER dataKind) S_XYZ0
          (pk 0%nat) (pk 1%nat) (pk 2%nat) (pk 3%nat))
  (* Or else, we'll consider it as representing a non-color format *)
  else
    let sw := MakeSwizzle (if decide (1 ≤ numChannels) then CH_X else CH_NONE)
                          (if decide (2 ≤ numChannels) then CH_Y else CH_NONE)
                          (if decide (3 ≤ numChannels) then CH_Z else CH_NONE)
                          (if decide (4 ≤ numChannels) then CH_W else CH_NONE) in
    Ok (swizzleAndPacking (with_dataKind FMT_U8 dataKind) sw
          (pk 0%nat) (pk 1%nat) (pk 2%nat) (pk 3%nat)).

Definition InferImageFormat (planePixTypes : list DataType) : outcome ImageFormat :=
  match planePixTypes with
  | [] => Ok FMT_NONE
  | first :: _ =>
      _ ← NVCV_ASSERT (bool_decide (length planePixTypes ≤ 4)%nat);
      '(packing, numChannels) ←
        foldM (inferPlane (dt_dataKind first)) (replicate 4 PACKING_0, 0) (indexed planePixTypes);
      selectFormat (dt_dataKind first) (Z.of_nat (length planePixTypes)) packing numChannels
  end.

(* ===================================================================== *)
(** ** FillNVCVImageBufferStrided *)
(* ===================================================================== *)

(** NVCVImagePlaneStrided: [int32_t width, height, rowStride] and the base
    address. *)
Record ImagePlaneStrided : Type := mkPlane {
  width : Z;
  height : Z;
  pl_rowStride : Z;
  basePtr : Z
}.

#[global] Instance ImagePlaneStrided_eq_dec : EqDecision ImagePlaneStrided.
Proof. solve_decision. Defined.

(** NVCVImageData with a strided buffer; [numPlanes] is the length of
    [img_planes]. *)
Record ImageData : Type := mkImageData {
  img_format : ImageFormat;
  img_planes : list ImagePlaneStrided
}.

Definition img_numPlanes (img : ImageData) : Z := Z.of_nat (length (img_planes img)).

Definition plane (img : ImageData) (p : Z) : ImagePlaneStrided :=
  default (mkPlane 0 0 0 0) (at_index (img_planes img) p).

(** The body of the inner loop: plane [p] of buffer [b]; [curPlane] is the
    number of planes written so far. *)
Definition fillPlane (b : BufferImageInfo) (st : list ImagePlaneStrided * list DataType) (p : Z)
    : outcome (list ImagePlaneStrided * list DataType) :=
  let '(planes, planeDataTypes) := st in
  let curPlane := Z.of_nat (length planes) in
  _ ← NVCV_ASSERT (bool_decide (curPlane ≤ 4));
  let pl := mkPlane (sz_w (size b)) (sz_h (size b)) (s32 (rowStride b))
                    (data b + planeStride b * p) in
  planeType ← MakePackedType (dtype b) (if isChannelLast b then numChannels b else 1);
  Ok (planes ++ [pl], planeDataTypes ++ [planeType]).

Definition fillBuffer (st : list ImagePlaneStrided * list DataType) (b : BufferImageInfo)
    : outcome (list ImagePlaneStrided * list DataType) :=
  foldM (fillPlane b) st (seqZ 0 (numPlanes b)).

(** The final check of plane [p] against the size the format expects. *)
Definition checkPlaneSize `{External} (finalFormat : ImageFormat) (imgSize : Size2D)
    (planes : list ImagePlaneStrided) (_ : unit) (p : Z) : outcome unit :=
  let goldSize := planeSize finalFormat imgSize p in
  let pl := default (mkPlane 0 0 0 0) (at_index planes p) in
  throw_when (bool_decide (width pl ≠ sz_w goldSize ∨ height pl ≠ sz_h goldSize)) invalid_argument.

Definition FillNVCVImageBufferStrided `{External} (infos : list DLTensor) (fmt : ImageFormat)
    : outcome ImageData :=
  bufferInfoList ← ExtractBufferImageInfo infos fmt;
  '(planes, planeDataTypes) ← foldM fillBuffer ([], []) bufferInfoList;
  let numPlanes := Z.of_nat (length planes) in
  _ ← throw_when (bool_decide (numPlanes = 0)) invalid_argument;
  inferredFormat ← InferImageFormat planeDataTypes;
  finalFormat ←
    (* User explicitely specifies the image format? *)
    (if decide (fmt ≠ FMT_NONE) then
       _ ← throw_when (negb (HasSameDataLayout fmt inferredFormat)) invalid_argument;
       Ok fmt
     else Ok inferredFormat);
  let pl0 := default (mkPlane 0 0 0 0) (planes !! 0%nat) in
  let imgSize := mkSize2D (width pl0) (height pl0) in
  _ ← foldM (checkPlaneSize finalFormat imgSize planes) tt (seqZ 0 numPlanes);
  Ok (mkImageData finalFormat planes).

(* ===================================================================== *)
(** ** ToPyBufferInfo *)
(* ===================================================================== *)

(** py::buffer_info as far as the export fills it: the address, the element
    type (the [py::dtype] cast from an nvcv data type keeps that type), the
    extents and the strides in bytes. *)
Record buffer_info : Type := mkBufferInfo {
  bi_ptr : Z;
  bi_dtype : DataType;
  bi_shape : list Z;
  bi_strides : list Z
}.

#[global] Instance buffer_info_eq_dec : EqDecision buffer_info.
Proof. solve_decision. Defined.

Fixpoint mapM {A B : Type} (f : A → outcome B) (l : list A) : outcome (list B) :=
  match l with
  | [] => Ok []
  | a :: rest => b ← f a; bs ← mapM f rest; Ok (b :: bs)
  end.

(** The loop that decides whether one buffer can hold all planes, over the
    plane numbers [ps] still to visit; [false] stands for the [break]. *)
Fixpoint singleBufferLoop (imgData : ImageData) (ps : list Z) : bool :=
  match ps with
  | [] => true
  | p :: rest =>
      let firstPlane := plane imgData 0 in
      let pl := plane imgData p in
      let fmt := img_format imgData in
      if bool_decide (width pl ≠ width firstPlane ∨ height pl ≠ height firstPlane
                      ∨ pl_rowStride pl ≠ pl_rowStride firstPlane
                      ∨ 2 ≤ dt_numChannels (planeDataType fmt 0)
                      ∨ planeDataType fmt 0 ≠ planeDataType fmt p)
      then false
      else
        (* check if using the same plane pitch *)
        if bool_decide (2 ≤ p) &&
           bool_decide (basePtr (plane imgData p) - basePtr (plane imgData (p - 1))
                        ≠ basePtr (plane imgData 1) - basePtr (plane imgData 0))
        then false
        else singleBufferLoop imgData rest
  end.

Definition singleBuffer (imgData : ImageData) : bool :=
  singleBufferLoop imgData (seqZ 1 (img_numPlanes imgData - 1)).

(** If not using a single buffer, we'll forcibly use one buffer per plane. *)
Definition numBuffers (imgData : ImageData) : Z :=
  if singleBuffer imgData then 1 else img_numPlanes imgData.

Record Inferred : Type := mkInferred {
  inferredShape : list Z;
  inferredStrides : list Z;
  inferredLayout : TensorLayout;
  inferredDType : DataType
}.

(** The local [planeNumChannels] of the export loop: these (YUYV, UYVY, ...)
    need some special treatment; although it's 3 channels in the plane, it's
    actually two channels per pixel. *)
Definition exportedNumChannels (fmt : ImageFormat) (p : Z) : Z :=
  if decide (planePacking fmt p = X8_Y8__X8_Z8 ∨ planePacking fmt p = Y8_X8__Z8_X8) then 2
  else planeNumChannels fmt p.

(** Infer the layout and shape of buffer [p]. *)
Definition inferBuffer (imgData : ImageData) (numBuffers : Z) (p : Z) : outcome Inferred :=
  let fmt := img_format imgData in
  let planeWidth := width (plane imgData p) in
  let planeHeight := height (plane imgData p) in
  let planeNumChannels := exportedNumChannels fmt p in
  (* bytes per pixel in the plane *)
  let planeBPP := dt_strideBytes (planeDataType fmt p) in
  if decide (numBuffers = 1) then
    if decide (fmt_numChannels fmt = 1) then
      _ ← NVCV_ASSERT (bool_decide (img_numPlanes imgData = 1));
      Ok (mkInferred [planeHeight; planeWidth]
                     [pl_rowStride (plane imgData p); planeBPP]
                     layout_HW (planeDataType fmt p))
    else if decide (img_numPlanes imgData = 1) then
      _ ← NVCV_ASSERT (bool_decide (2 ≤ planeNumChannels));
      Ok (mkInferred [planeHeight; planeWidth; planeNumChannels]
                     [pl_rowStride (plane imgData p); planeBPP; planeBPP `quot` planeNumChannels]
                     layout_HWC (dt_channelType (planeDataType fmt p) 0))
    else
      _ ← NVCV_ASSERT (bool_decide (planeNumChannels = 1));
      let planeStride := basePtr (plane imgData 1) - basePtr (plane imgData 0) in
      _ ← NVCV_ASSERT (bool_decide (0 < planeStride));
      Ok (mkInferred [img_numPlanes imgData; planeHeight; planeWidth]
                     [planeStride; pl_rowStride (plane imgData p); planeBPP]
                     layout_CHW (planeDataType fmt p))
  else
    _ ← NVCV_ASSERT (bool_decide (2 ≤ img_numPlanes imgData));
    _ ← NVCV_ASSERT (bool_decide (img_numPlanes imgData = numBuffers));
    (* a division by zero is undefined *)
    _ ← NVCV_ASSERT (bool_decide (planeNumChannels ≠ 0));
    Ok (mkInferred [planeHeight; planeWidth; planeNumChannels]
                   [pl_rowStride (plane imgData p); planeBPP; planeBPP `quot` planeNumChannels]
                   layout_HWC (dt_channelType (planeDataType fmt p) 0)).

(** Check if user layout has all required dimensions: one turn, axis [i] of
    the inferred layout. *)
Definition checkRequiredDim (userLayout : TensorLayout) (inf : Inferred) (_ : unit) (i : Z)
    : outcome unit :=
  match at_index (inferredLayout inf) i with
  | None => Abort
  | Some label =>
      throw_when (bool_decide (2 ≤ zat (inferredShape inf) i) &&
                  bool_decide (layout_find userLayout label < 0)) runtime_error
  end.

(** Fill up the final shape and strides according to the user layout: one
    turn, for the axis labelled [label]; [st] holds [idxLastInferDim],
    [shape] and [strides]. *)
Definition fillUserDim (inf : Inferred) (st : Z * list Z * list Z) (label : ascii)
    : outcome (Z * list Z * list Z) :=
  let '(idxLastInferDim, shape, strides) := st in
  let idxInferDim := layout_find (inferredLayout inf) label in
  if decide (idxInferDim < 0) then
    Ok (idxLastInferDim, shape ++ [1], strides ++ [0])
  else
    _ ← throw_when (bool_decide (idxInferDim ≤ idxLastInferDim)) runtime_error;
    Ok (idxInferDim, shape ++ [zat (inferredShape inf) idxInferDim],
        strides ++ [zat (inferredStrides inf) idxInferDim]).

(** The shape, strides and layout handed out for a buffer whose inferred
    description is [inf]. *)
Definition applyLayout (userLayout : option TensorLayout) (inf : Inferred)
    : outcome (list Z * list Z * TensorLayout) :=
  match userLayout with
  | Some userLayout =>
      _ ← foldM (checkRequiredDim userLayout inf) tt (seqZ 0 (layout_rank (inferredLayout inf)));
      '(_, shape, strides) ← foldM (fillUserDim inf) (-1, [], []) userLayout;
      Ok (shape, strides, userLayout)
  | None => Ok (inferredShape inf, inferredStrides inf, inferredLayout inf)
  end.

Definition exportBuffer (imgData : ImageData) (userLayout : option TensorLayout)
    (numBuffers : Z) (p : Z) : outcome (buffer_info * TensorLayout) :=
  inf ← inferBuffer imgData numBuffers p;
  _ ← NVCV_ASSERT (bool_decide (Z.of_nat (length (inferredShape inf)) = layout_rank (inferredLayout inf)));
  _ ← NVCV_ASSERT (bool_decide (Z.of_nat (length (inferredStrides inf)) = layout_rank (inferredLayout inf)));
  '(shape, strides, layout) ← applyLayout userLayout inf;
  Ok (mkBufferInfo (basePtr (plane imgData p)) (inferredDType inf) shape strides, layout).

Definition ToPyBufferInfo `{External} (imgData : ImageData) (userLayout : option TensorLayout)
    : outcome (list (buffer_info * TensorLayout)) :=
  if decide (img_numPlanes imgData < 1) then Ok []
  else
    _ ← match userLayout with
        | Some l => throw_when (negb (isImageLayout l)) runtime_error
        | None => Ok tt
        end;
    mapM (exportBuffer imgData userLayout (numBuffers imgData)) (seqZ 0 (numBuffers imgData)).

(* ===================================================================== *)
(** ** Image::setWrapData *)
(* ===================================================================== *)

(** An external buffer, known by its DLPack tensor. *)
Record ExternalBuffer : Type := mkExternalBuffer { dlTensor : DLTensor }.

#[global] Instance ExternalBuffer_eq_dec : EqDecision ExternalBuffer.
Proof. solve_decision. Defined.

(** The Python objects an image keeps as [m_wrapData->obj]: nothing yet, one
    buffer, or the list of buffers. *)
Inductive PyObject : Type :=
| PyNone
| PyBuffer (buf : ExternalBuffer)
| PyBufferList (bufs : list ExternalBuffer).

#[global] Instance PyObject_eq_dec : EqDecision PyObject.
Proof. solve_decision. Defined.

Record WrapData : Type := mkWrapData {
  devType : Z;
  obj : PyObject
}.

(** The members of [nvcvpy::priv::Image] that [setWrapData] touches. *)
Record Image : Type := mkImage {
  m_wrapData : option WrapData;
  m_impl : option ImageData
}.

(** The buffers from the second on: does one sit on another device than
    [bufs[0]]? *)
Definition onOtherDevice (b0 b : ExternalBuffer) : bool :=
  bool_decide (device_type (dl_device (dlTensor b)) ≠ device_type (dl_device (dlTensor b0))
               ∨ device_id (dl_device (dlTensor b)) ≠ device_id (dl_device (dlTensor b0))).

(** [setWrapData] changes the image in place, also when it throws: the
    result pairs the image afterwards with the outcome of the call. *)
Definition setWrapData (this : Image) (bufs : list ExternalBuffer) (imgData : ImageData)
    : Image * outcome unit :=
  match m_wrapData this, bufs with
  | None, _ => (this, Abort)
  | Some _, [] => (this, Abort)
  | Some wd, b0 :: rest =>
      let wd := mkWrapData (device_type (dl_device (dlTensor b0))) (obj wd) in
      if decide (length bufs = 1%nat) then
        (mkImage (Some (mkWrapData (devType wd) (PyBuffer b0))) (Some imgData), Ok tt)
      else if existsb (onOtherDevice b0) rest then
        (mkImage (Some wd) (m_impl this), Throw runtime_error)
      else
        (mkImage (Some (mkWrapData (devType wd) (PyBufferList bufs))) (Some imgData), Ok tt)
  end.

(* ===================================================================== *)
(** ** A reference instance of the helpers, for running the model *)
(* ===================================================================== *)

Definition swizzleOfLanes (lanes : Z) : Swizzle :=
  if decide (lanes = 1) then S_X000
  else if decide (lanes = 2) then S_XY00
  else if decide (lanes = 3) then S_XYZ0
  else S_XYZW.

Definition kindOfCode (c : DLDataTypeCode) : DataKind :=
  match c with
  | kDLInt => SIGNED
  | kDLUInt | kDLBool => UNSIGNED
  | kDLFloat | kDLBfloat => FLOAT
  | kDLComplex => COMPLEX
  end.

Definition codeOfKind (k : DataKind) : DLDataTypeCode :=
  match k with
  | SIGNED => kDLInt
  | UNSIGNED | UNSPECIFIED => kDLUInt
  | FLOAT => kDLFloat
  | COMPLEX => kDLComplex
  end.

(** Modelled from the spec: the element type of a buffer, "elementType:
    {bits, lanes, kind}", as an nvcv data type: [lanes] channels of [bits]
    bits each. The byte order is MSB, that of every packing Image.cpp names
    and the one [MakePackedType] writes. *)
Definition dataTypeOfDL (d : DLDataType) : DataType :=
  mkDataType (kindOfCode (dl_code d))
    (MakePacking (mkPackingParams MSB (swizzleOfLanes (dl_lanes d))
       (replicate (Z.to_nat (dl_lanes d)) (dl_bits d) ++ replicate (4 - Z.to_nat (dl_lanes d)) 0))).

(** Modelled from the spec: "a structural equality ignoring only
    color-interpretation metadata": the same data kind and the same packing
    in every plane (hence the same channel count). *)
Definition sameDataLayout (a b : ImageFormat) : bool :=
  bool_decide (dataKind a = dataKind b ∧ planePackings a = planePackings b).

(** Modelled from the spec: the size of plane [p] of an image of size [sz];
    plane 0 has the size of the image, the chroma planes of a 4:2:0 format
    are "half-resolution" (240x320 for 480x640), those of a 4:2:2 format are
    halved in width. *)
Definition chromaPlaneSize (f : ImageFormat) (sz : Size2D) (p : Z) : Size2D :=
  if decide (p = 0) then sz
  else match chromaSubsampling f with
       | CSS_420 => mkSize2D ((sz_w sz + 1) `quot` 2) ((sz_h sz + 1) `quot` 2)
       | CSS_422 => mkSize2D ((sz_w sz + 1) `quot` 2) (sz_h sz)
       | _ => sz
       end.

(** Modelled from the spec: a layout describes an image when it has a width
    axis. *)
Definition hasWidthAxis (l : TensorLayout) : bool :=
  bool_decide (0 ≤ layout_find l "W"%char).

Definition reference_helpers : External :=
  {| ToNVCVDataType := dataTypeOfDL;
     HasSameDataLayout := sameDataLayout;
     planeSize := chromaPlaneSize;
     isImageLayout := hasWidthAxis |}.

(** Modelled from the spec: the DLPack tensor made from an exported buffer
    descriptor ("shape/stride/dtype/device", section 6), the constructor
    [DLPackTensor(info, device)] that Image.cpp calls. The element type of
    the descriptor becomes [{bits, lanes, kind}]; DLPack counts strides in
    elements, so each byte stride is divided by the size of an element. *)
Definition DLDataTypeOf (d : DataType) : DLDataType :=
  mkDLDataType (codeOfKind (dt_dataKind d)) (zat (bits (GetParams (dt_packing d))) 0)
               (dt_numChannels d).

Definition DLPackTensorOf (info : buffer_info) (dev : DLDevice) : DLTensor :=
  let itemsize := dt_strideBytes (bi_dtype info) in
  mkDLTensor (bi_ptr info) dev (Z.of_nat (length (bi_shape info)))
             (DLDataTypeOf (bi_dtype info)) (bi_shape info)
             (map (λ s, s `quot` itemsize) (bi_strides info)).

(** Export with no requested layout, then wrap the descriptors again with
    the image's own format as the declared format. *)
Definition exportThenIngest `{External} (img : ImageData) (dev : DLDevice) : outcome ImageData :=
  bufs ← ToPyBufferInfo img None;
  FillNVCVImageBufferStrided (map (λ b, DLPackTensorOf (fst b) dev) bufs) (img_format img).

(* ===================================================================== *)
(** ** ToPython and Image::cuda *)
(* ===================================================================== *)

(** [kDLCPU] and [kDLCUDA] of dlpack.h. *)
Definition kDLCPU : Z := 1.
Definition kDLCUDA : Z := 2.

(** More functions that Image.cpp calls and that are not among the sources. *)
Class ExternalImage : Type := {
  (** [IsCudaAccessible(devType)] (ExternalBuffer.hpp) *)
  IsCudaAccessible : Z → bool;
  (** [m_impl.exportData<nvcv::ImageDataStridedCuda>()] (nvcv/Image.hpp), as
      a function of what [m_impl] holds *)
  exportDataCuda : option ImageData → option ImageData;
  (** [doComputeSizeInBytes(NVCVImageRequirements())]: the checked call of
      [nvcvMemRequirementsCalcTotalSizeBytes] on empty requirements *)
  wrapperSizeInBytes : outcome Z
}.

(** Modelled from the spec: nvcv::ImageData (ImageData.hpp is not among the
    sources), the image data with the kind of buffer that holds it; "only
    packed (pitch-linear) images are exportable". [cast<ImageDataStrided>]
    yields a value for the two strided kinds, [cast<ImageDataStridedCuda>]
    and [cast<ImageDataStridedHost>] for their own. *)
Inductive ImageBufferType : Type :=
| IMAGE_BUFFER_NONE
| IMAGE_BUFFER_STRIDED_CUDA
| IMAGE_BUFFER_STRIDED_HOST
| IMAGE_BUFFER_CUDA_ARRAY.

#[global] Instance ImageBufferType_eq_dec : EqDecision ImageBufferType.
Proof. solve_decision. Defined.

Record AnyImageData : Type := mkAnyImageData {
  bufferType : ImageBufferType;
  strided : ImageData
}.

(** The Python objects the export makes: [ExternalBuffer::Create(tensor,
    owner)] and [py::array(info, owner)]. *)
Inductive PyExported : Type :=
| PyExternalBuffer (buf : ExternalBuffer) (owner : Image)
| PyArray (info : buffer_info) (owner : Image).

(** What [Image::cuda] returns: the wrapped object, one exported object, or
    the list of them. *)
Inductive PyResult : Type :=
| PyWrappedObject (o : PyObject)
| PyOne (e : PyExported)
| PyMany (l : list PyExported).

Definition ToPython `{External} (imgData : AnyImageData) (userLayout : option TensorLayout)
    (owner : Image) : outcome (list PyExported) :=
  match bufferType imgData with
  | IMAGE_BUFFER_STRIDED_CUDA | IMAGE_BUFFER_STRIDED_HOST =>
      let pitchData := strided imgData in
      infos ← ToPyBufferInfo pitchData userLayout;
      mapM (λ b : buffer_info * TensorLayout,
              if decide (bufferType imgData = IMAGE_BUFFER_STRIDED_CUDA) then
                (* TODO: set correct device_type and device_id *)
                Ok (PyExternalBuffer
                      (mkExternalBuffer (DLPackTensorOf b.1 (mkDLDevice kDLCUDA 0))) owner)
              else if decide (bufferType imgData = IMAGE_BUFFER_STRIDED_HOST) then
                Ok (PyArray b.1 owner)
              else Throw runtime_error)
           infos
  | _ => Throw runtime_error
  end.

Definition cuda `{External} `{ExternalImage} (this : Image) (layout : option TensorLayout)
    : outcome PyResult :=
  match layout, m_wrapData this with
  | None, Some wd =>
      (* No layout requested and we're wrapping external data? *)
      _ ← throw_when (negb (IsCudaAccessible (devType wd))) runtime_error;
      (* That's what we'll return, as m_impl is wrapping it. *)
      Ok (PyWrappedObject (obj wd))
  | _, _ =>
      match exportDataCuda (m_impl this) with
      | None => Throw runtime_error
      | Some imgData =>
          out ← ToPython (mkAnyImageData IMAGE_BUFFER_STRIDED_CUDA imgData) layout this;
          match out with
          | [o] => Ok (PyOne o)
          | _ => Ok (PyMany out)
          end
      end
  end.

(* ===================================================================== *)
(** ** Wrapping external buffers *)
(* ===================================================================== *)

(** [nvcvpy::priv::Image] with the members the constructors set besides the
    ones [setWrapData] touches. *)
Record ImageObject : Type := mkImageObject {
  io_image : Image;
  m_key : Key.t;
  m_size_inbytes : Z
}.

Definition CreateNVCVImageDataCuda `{External} (infos : list DLTensor) (fmt : ImageFormat)
    : outcome ImageData :=
  FillNVCVImageBufferStrided infos fmt.

(** [Image::Image(bufs, imgData)]: [m_key{}] (it's a wrap!),
    [m_size_inbytes], [m_wrapData.emplace()], then [setWrapData]. *)
Definition Image_wrap `{ExternalImage} (bufs : list ExternalBuffer) (imgData : ImageData)
    : outcome ImageObject :=
  size_inbytes ← wrapperSizeInBytes;
  let after := setWrapData (mkImage (Some (mkWrapData 0 PyNone)) None) bufs imgData in
  _ ← after.2;
  Ok (mkImageObject after.1 Key.Wrapper size_inbytes).

(** [img->setWrapData(bufs, imgData)] on an image of the cache: the image
    afterwards, and the outcome of the call. *)
Definition rewrap (item : ImageObject) (bufs : list ExternalBuffer) (imgData : ImageData)
    : ImageObject * outcome unit :=
  let after := setWrapData (io_image item) bufs imgData in
  (mkImageObject after.1 (m_key item) (m_size_inbytes item), after.2).

(** The loop over the Python objects: [cast_py_object_as<ExternalBuffer>]
    gives no buffer for an object that is not one. *)
Definition castBuffers (buffers : list (option ExternalBuffer)) : outcome (list ExternalBuffer) :=
  mapM (λ obj, match obj with
               | Some buffer => Ok buffer
               | None => Throw runtime_error
               end) buffers.

(** The cache (Cache.hpp) is not among the sources. [item] is what
    [Cache::Instance().fetchOne(key)] answers for the key of a wrapper; the
    result gives that image of the cache after the call, and with the image
    returned whether [Cache::Instance().add] was called on it. *)
Definition WrapExternalBufferVector `{External} `{ExternalImage}
    (item : option ImageObject) (buffers : list (option ExternalBuffer)) (fmt : ImageFormat)
    : option ImageObject * outcome (ImageObject * bool) :=
  match castBuffers buffers with
  | Ok spBuffers =>
      let bufinfos := dlTensor <$> spBuffers in
      match CreateNVCVImageDataCuda bufinfos fmt with
      | Ok imgData =>
          match item with
          | None =>
              (* None found? *)
              (None, img ← Image_wrap spBuffers imgData; Ok (img, true))
          | Some item =>
              let after := rewrap item spBuffers imgData in
              (Some after.1, _ ← after.2; Ok (after.1, false))
          end
      | Throw e => (item, Throw e)
      | Abort => (item, Abort)
      end
  | Throw e => (item, Throw e)
  | Abort => (item, Abort)
  end.

Definition WrapExternalBuffer `{External} `{ExternalImage}
    (item : option ImageObject) (buffer : ExternalBuffer) (fmt : ImageFormat)
    : option ImageObject * outcome (ImageObject * bool) :=
  WrapExternalBufferVector item [Some buffer] fmt.

(** The state of the loop of [WrapExternalBufferMany]: what is left of
    [items], and [out] with, for each image, whether it was added to the
    cache. *)
Definition ManyState : Type := list ImageObject * list (ImageObject * bool).

(** One turn of that loop: a null [shared_ptr] is [None]. *)
Definition wrapOne `{External} `{ExternalImage} (fmt : ImageFormat) (st : ManyState)
    (buffer : option ExternalBuffer) : outcome ManyState :=
  let '(items, out) := st in
  match buffer with
  | None => Throw runtime_error
  | Some b =>
      let spBuffers := [b] in
      imgData ← CreateNVCVImageDataCuda (dlTensor <$> spBuffers) fmt;
      match last items with
      | None =>
          (* None found? *)
          img ← Image_wrap spBuffers imgData;
          Ok (items, out ++ [(img, true)])
      | Some item =>
          let after := rewrap item spBuffers imgData in
          _ ← after.2;
          Ok (removelast items, out ++ [(after.1, false)])
      end
  end.

(** The loop stops at the first buffer that throws; what it did for the
    buffers before stays done. *)
Fixpoint wrapManyLoop `{External} `{ExternalImage} (fmt : ImageFormat) (st : ManyState)
    (buffers : list (option ExternalBuffer)) : ManyState * outcome unit :=
  match buffers with
  | [] => (st, Ok tt)
  | buffer :: rest =>
      match wrapOne fmt st buffer with
      | Ok st' => wrapManyLoop fmt st' rest
      | Throw e => (st, Throw e)
      | Abort => (st, Abort)
      end
  end.

(** [items] is what [Cache::Instance().fetch(key)] answers for the key of a
    wrapper. The result gives the state the loop has reached, and the
    images returned. *)
Definition WrapExternalBufferMany `{External} `{ExternalImage} (items : list ImageObject)
    (buffers : list (option ExternalBuffer)) (fmt : ImageFormat)
    : ManyState * outcome (list ImageObject) :=
  let r := wrapManyLoop fmt (items, []) buffers in
  (r.1, _ ← r.2; Ok (r.1.2.*1)).

(* ===================================================================== *)
(** ** Notions the statements use *)
(* ===================================================================== *)

(** The total channel count of a list of per-plane element types. *)
Definition totalChannels (planes : list DataType) : Z :=
  foldr (λ t acc, dt_numChannels t + acc) 0 planes.

(** The packing of plane [i] of the list; the empty packing past its end. *)
Definition packingOfPlane (planes : list DataType) (i : nat) : Packing :=
  default PACKING_0 (dt_packing <$> planes !! i).

(** The base format for a total channel count, in the words of the
    specification: 1 is single-channel gray, 2 two-channel, 3 three-channel
    color, 4 four-channel color with alpha. *)
Definition baseFormatFor (totalChannels : Z) : option ImageFormat :=
  if decide (totalChannels = 1) then Some FMT_U8
  else if decide (totalChannels = 2) then Some FMT_2F32
  else if decide (totalChannels = 3) then Some FMT_RGB8
  else if decide (totalChannels = 4) then Some FMT_RGBA8
  else None.

(** Plane [p] has the size the final format expects of it. *)
Definition planeSizeOk `{External} (finalFormat : ImageFormat) (imgSize : Size2D)
    (planes : list ImagePlaneStrided) (p : Z) : Prop :=
  width (default (mkPlane 0 0 0 0) (at_index planes p)) = sz_w (planeSize finalFormat imgSize p) ∧
  height (default (mkPlane 0 0 0 0) (at_index planes p)) = sz_h (planeSize finalFormat imgSize p).

(** The condition under which, in the words of the specification, all
    planes go into one buffer: every plane has the width, height and row
    stride of plane 0, the type of plane 0 has fewer than 2 channels, every
    plane has the type of plane 0, and consecutive planes are equally far
    apart. *)
Definition coalescible (imgData : ImageData) : Prop :=
  let fmt := img_format imgData in
  let np := img_numPlanes imgData in
  (∀ p, 0 ≤ p < np →
     width (plane imgData p) = width (plane imgData 0) ∧
     height (plane imgData p) = height (plane imgData 0) ∧
     pl_rowStride (plane imgData p) = pl_rowStride (plane imgData 0)) ∧
  dt_numChannels (planeDataType fmt 0) < 2 ∧
  (∀ p, 0 ≤ p < np → planeDataType fmt p = planeDataType fmt 0) ∧
  (∀ p, 1 ≤ p < np →
     basePtr (plane imgData p) - basePtr (plane imgData (p - 1)) =
     basePtr (plane imgData 1) - basePtr (plane imgData 0)).

(** The extent and stride a requested axis gets: those of the inferred axis
    with the same label, or extent 1 and stride 0 when there is none. *)
Definition userDim (inf : Inferred) (label : ascii) : Z * Z :=
  let idx := layout_find (inferredLayout inf) label in
  if decide (idx < 0) then (1, 0)
  else (zat (inferredShape inf) idx, zat (inferredStrides inf) idx).

(** The axes of [labels] that the inferred layout has come in the order of
    the inferred layout, all after inferred position [last]. *)
Fixpoint increasingFrom (inf : Inferred) (last : Z) (labels : TensorLayout) : Prop :=
  match labels with
  | [] => True
  | label :: rest =>
      let idx := layout_find (inferredLayout inf) label in
      if decide (idx < 0) then increasingFrom inf last rest
      else last < idx ∧ increasingFrom inf idx rest
  end.

(** The element types of the planes of an image, as its format gives them. *)
Definition planeTypes (img : ImageData) : list DataType :=
  planeDataType (img_format img) <$> seqZ 0 (img_numPlanes img).

(** [elemStrideBytes] of a tensor with element type [d]. *)
Definition dlElemBytes (d : DLDataType) : Z := (dl_bits d * dl_lanes d + 7) `quot` 8.

(** The element type [T] of a plane survives the trip through a buffer
    descriptor of element type [D] holding [c] channels per pixel: the
    descriptor's element size is the one ingestion computes, a pixel of the
    plane is [c] such elements, and repacking the ingested type to [c]
    channels gives [T] back. *)
Record descriptorFaithful `{External} (T D : DataType) (c : Z) : Prop := {
  df_elem : dlElemBytes (DLDataTypeOf D) = dt_strideBytes D;
  df_elem_pos : 1 ≤ dt_strideBytes D;
  df_pixel : dt_strideBytes T = c * dt_strideBytes D;
  df_pixel_small : dt_strideBytes T < 2 ^ 31;
  df_repack : MakePackedType (ToNVCVDataType (DLDataTypeOf D)) c = Ok T
}.

(** A plane of a canonical image of size [imgSize]: positive [int32]
    geometry, and the size the format expects of plane [p]. *)
Record planeReady `{External} (fmt : ImageFormat) (imgSize : Size2D) (p : Z)
    (pl : ImagePlaneStrided) : Prop := {
  pr_width : 1 ≤ width pl < 2 ^ 31;
  pr_height : 1 ≤ height pl < 2 ^ 31;
  pr_rowStride : 1 ≤ pl_rowStride pl < 2 ^ 31;
  pr_channels : 1 ≤ planeNumChannels fmt p;
  pr_size : planeSize fmt imgSize p = mkSize2D (width pl) (height pl)
}.

(** A canonical image: a format, at most 4 channels in all, planes as above,
    and a format that has the data layout of the format inferred from its
    own plane types. *)
Record canonicalImage `{External} (img : ImageData) : Prop := {
  ci_format : img_format img ≠ FMT_NONE;
  ci_channels : totalChannels (planeTypes img) ≤ 4;
  ci_planes : ∀ (p : nat) pl, img_planes img !! p = Some pl →
    planeReady (img_format img)
      (mkSize2D (width (plane img 0)) (height (plane img 0))) (Z.of_nat p) pl;
  ci_layout : ∀ inferred, InferImageFormat (planeTypes img) = Ok inferred →
    HasSameDataLayout (img_format img) inferred = true
}.

(** The export hands out channel-last (HWC) buffers: the image is one plane
    of two or more channels, or its planes are not coalesced; and every
    plane's element type survives the trip through its descriptor, whose
    byte strides are whole numbers of elements. *)
Definition exportsChannelLast `{External} (img : ImageData) : Prop :=
  let fmt := img_format img in
  ((img_numPlanes img = 1 ∧ fmt_numChannels fmt ≠ 1 ∧ 2 ≤ exportedNumChannels fmt 0)
   ∨ numBuffers img ≠ 1) ∧
  ∀ (p : nat) pl, img_planes img !! p = Some pl →
    let T := planeDataType fmt (Z.of_nat p) in
    exportedNumChannels fmt (Z.of_nat p) = planeNumChannels fmt (Z.of_nat p) ∧
    descriptorFaithful T (dt_channelType T 0) (planeNumChannels fmt (Z.of_nat p)) ∧
    pl_rowStride pl `rem` dt_strideBytes (dt_channelType T 0) = 0.

(** The export hands out one HW buffer (one plane, one channel) whose rows
    are not padded. *)
Definition exportsPackedHW `{External} (img : ImageData) : Prop :=
  let fmt := img_format img in
  let T := planeDataType fmt 0 in
  img_numPlanes img = 1 ∧ fmt_numChannels fmt = 1 ∧
  descriptorFaithful T T 1 ∧
  pl_rowStride (plane img 0) = dt_strideBytes T * width (plane img 0).

(** The export hands out one CHW buffer that holds the two planes of the
    image: the planes are coalesced, their rows are not padded, the width
    is not 1 (the channel count of plane 0, for which the buffer would be
    read as channel-last), and the planes lie at least one element and less
    than [2 ^ 62] bytes apart. *)
Definition exportsPlanarPair `{External} (img : ImageData) : Prop :=
  let T := planeDataType (img_format img) 0 in
  let planeStride := basePtr (plane img 1) - basePtr (plane img 0) in
  img_numPlanes img = 2 ∧ numBuffers img = 1 ∧
  width (plane img 0) ≠ 1 ∧
  descriptorFaithful T T 1 ∧
  pl_rowStride (plane img 0) = dt_strideBytes T * width (plane img 0) ∧
  dt_strideBytes T ≤ planeStride < 2 ^ 62.

(** The descriptor, and the ingested buffer info, of a plane exported as an
    HWC buffer. *)
Definition hwcDescriptor (fmt : ImageFormat) (p : Z) (pl : ImagePlaneStrided) : buffer_info :=
  let T := planeDataType fmt p in
  let c := exportedNumChannels fmt p in
  mkBufferInfo (basePtr pl) (dt_channelType T 0) [height pl; width pl; c]
    [pl_rowStride pl; dt_strideBytes T; dt_strideBytes T `quot` c].

Definition hwcInfo `{External} (fmt : ImageFormat) (p : Z) (pl : ImagePlaneStrided)
    : BufferImageInfo :=
  let T := planeDataType fmt p in
  mkBufferImageInfo 1 (mkSize2D (width pl) (height pl)) (planeNumChannels fmt p) true
    (height pl * pl_rowStride pl) (pl_rowStride pl)
    (ToNVCVDataType (DLDataTypeOf (dt_channelType T 0))) (basePtr pl).

(** The elements of a list with their index, counted from [k]. *)
Definition indexedFrom {A} (k : Z) (l : list A) : list (Z * A) :=
  zip (seqZ k (Z.of_nat (length l))) l.

(** What the round trip asks of plane [p] when it is exported as an HWC
    buffer. *)
Definition hwcPlaneOk `{External} (fmt : ImageFormat) (p : Z) (pl : ImagePlaneStrided) : Prop :=
  let T := planeDataType fmt p in
  exportedNumChannels fmt p = planeNumChannels fmt p ∧
  descriptorFaithful T (dt_channelType T 0) (planeNumChannels fmt p) ∧
  pl_rowStride pl `rem` dt_strideBytes (dt_channelType T 0) = 0 ∧
  1 ≤ width pl < 2 ^ 31 ∧ 1 ≤ height pl < 2 ^ 31 ∧ 1 ≤ pl_rowStride pl < 2 ^ 31 ∧
  1 ≤ planeNumChannels fmt p.

(** The channels a list of buffers uses up, as the loop over the buffers
    counts them: planes times channels, buffer by buffer. *)
Definition channelsUsed (infos : list BufferImageInfo) : Z :=
  foldr (λ b acc, numPlanes b * numChannels b + acc) 0 infos.

(** The channels of each plane of a buffer. *)
Definition channelsPerPlane (b : BufferImageInfo) : Z :=
  if isChannelLast b then numChannels b else 1.

(** The planes a buffer gives: they share its size and row stride and lie
    [planeStride] apart. *)
Definition planesOf (b : BufferImageInfo) : list ImagePlaneStrided :=
  (λ p, mkPlane (sz_w (size b)) (sz_h (size b)) (s32 (rowStride b))
                (data b + planeStride b * p)) <$> seqZ 0 (numPlanes b).


(** The buffers among the exported objects. *)
Definition exportedBuffers (out : list PyExported) : list ExternalBuffer :=
  omap (λ o, match o with PyExternalBuffer buf _ => Some buf | PyArray _ _ => None end) out.

(** What [WrapExternalBufferMany] makes of buffer number [i]: an image that
    wraps that one buffer, made from the image of the cache that is [i]
    places from the end of [items], or new when there is none. *)
Definition wrapsBuffer `{External} (fmt : ImageFormat) (items : list ImageObject) (i : nat)
    (b : ExternalBuffer) (entry : ImageObject * bool) : Prop :=
  ∃ imgData,
    CreateNVCVImageDataCuda [dlTensor b] fmt = Ok imgData ∧
    io_image entry.1 =
      mkImage (Some (mkWrapData (device_type (dl_device (dlTensor b))) (PyBuffer b)))
              (Some imgData) ∧
    if decide (i < length items)%nat then
      entry.2 = false ∧
      ∃ item, items !! (length items - 1 - i)%nat = Some item ∧
              m_key entry.1 = m_key item ∧ m_size_inbytes entry.1 = m_size_inbytes item
    else
      entry.2 = true ∧ m_key entry.1 = Key.Wrapper.

(* ===================================================================== *)
(** ** Sample inputs *)
(* ===================================================================== *)

Module Samples.

Definition cuda0 : DLDevice := mkDLDevice 2 0.
Definition cuda1 : DLDevice := mkDLDevice 2 1.
Definition u8 : DLDataType := mkDLDataType kDLUInt 8 1.

(** A packed 480x640 buffer with 4 channels of 8 bits. *)
Definition packed_480x640x4 : DLTensor :=
  mkDLTensor 4096 cuda0 3 u8 [480; 640; 4] [2560; 4; 1].

Definition buf (dev : DLDevice) (addr : Z) : ExternalBuffer :=
  mkExternalBuffer (mkDLTensor addr dev 2 u8 [480; 640] [640; 1]).

Definition wrapper : Image := mkImage (Some (mkWrapData 1 PyNone)) None.

(** A 5x2 image of packed 8-bit RGB, rows 16 bytes apart. *)
Definition rgb_5x2 : ImageData := mkImageData FMT_RGB8 [mkPlane 5 2 16 4096].

(** A 5x2 image of 8-bit gray; its rows of 5 bytes are 8 bytes apart. *)
Definition gray_5x2_padded : ImageData := mkImageData FMT_U8 [mkPlane 5 2 8 4096].

(** A 6x4 NV12 image: a luma plane and a 3x2 plane of chroma pairs. *)
Definition nv12_6x4 : ImageData :=
  mkImageData FMT_NV12_ER [mkPlane 6 4 8 4096; mkPlane 3 2 8 8192].

(** Element types of one plane: 8-bit gray, two and three 8-bit channels,
    and 32-bit float. *)
Definition TYPE_U8 : DataType := mkDataType UNSIGNED X8.
Definition TYPE_2U8 : DataType := mkDataType UNSIGNED X8_Y8.
Definition TYPE_3U8 : DataType := mkDataType UNSIGNED X8_Y8_Z8.


End Samples.

(** More inputs. *)
Module Inputs.


(** Two 6x4 planes of 8-bit samples, 24 bytes apart, with rows of 6 bytes. *)
Definition planar_pair_6x4 : ImageData :=
  mkImageData (ImageFormat_NonColor PITCH_LINEAR UNSIGNED S_XY00 X8 X8 PACKING_0 PACKING_0)
    [mkPlane 6 4 6 4096; mkPlane 6 4 6 4120].

(** Two 4x6 planes of 8-bit samples in one channel-first buffer. *)
Definition planar_2x4x6 : DLTensor :=
  mkDLTensor 4096 Samples.cuda0 3 Samples.u8 [2; 4; 6] [24; 6; 1].

(** A 4x6 buffer of 8-bit samples, and a buffer of one sample. *)
Definition gray_4x6 : DLTensor :=
  mkDLTensor 4096 Samples.cuda0 2 Samples.u8 [4; 6] [6; 1].
Definition one_sample : DLTensor :=
  mkDLTensor 4096 Samples.cuda0 1 Samples.u8 [1] [1].

(** Three 6x4 planes of 8-bit samples, 24 bytes apart, with rows of 6
    bytes. *)
Definition planar_rgb_6x4 : ImageData :=
  mkImageData
    (ImageFormat_Color CM_RGB CSPEC_UNDEFINED PITCH_LINEAR UNSIGNED S_XYZ1 X8 X8 X8 PACKING_0)
    [mkPlane 6 4 6 4096; mkPlane 6 4 6 4120; mkPlane 6 4 6 4144].

(** Every device type counts as accessible but that of the CPU; an image
    exports the data it holds; a wrapper takes no memory. *)
Definition reference_image : ExternalImage :=
  {| IsCudaAccessible := λ devType, bool_decide (devType ≠ kDLCPU);
     exportDataCuda := λ impl, impl;
     wrapperSizeInBytes := Ok 0 |}.

(** A wrapper image of the cache. *)
Definition cached : ImageObject := mkImageObject Samples.wrapper Key.Wrapper 0.

End Inputs.

(* ===================================================================== *)
(** * Properties *)
(* ===================================================================== *)

(** ** Reasoning about outcomes *)

Lemma bind_Ok {A B} (m : outcome A) (k : A → outcome B) b :
  m ≫= k = Ok b ↔ ∃ a, m = Ok a ∧ k a = Ok b.
Proof.
  destruct m as [a| |]; simpl; split.
  - intros Hk. by exists a.
  - by intros (a' & [= <-] & Hk).
  - discriminate.
  - by intros (? & ? & _).
  - discriminate.
  - by intros (? & ? & _).
Qed.

Lemma foldM_cons {A S} (f : S → A → outcome S) (s : S) (a : A) (l : list A) :
  foldM f s (a :: l) = f s a ≫= λ s', foldM f s' l.
Proof. reflexivity. Qed.

Lemma throw_when_Ok cond e : throw_when cond e = Ok tt ↔ cond = false.
Proof. destruct cond; simpl; split; congruence. Qed.

Lemma throw_when_true cond e {B} (k : unit → outcome B) :
  cond = true → throw_when cond e ≫= k = Throw e.
Proof. by intros ->. Qed.

Lemma throw_when_false cond e {B} (k : unit → outcome B) :
  cond = false → throw_when cond e ≫= k = k tt.
Proof. by intros ->. Qed.

Lemma NVCV_ASSERT_Ok cond : NVCV_ASSERT cond = Ok tt ↔ cond = true.
Proof. destruct cond; simpl; split; congruence. Qed.

Lemma NVCV_ASSERT_true cond {B} (k : unit → outcome B) :
  cond = true → NVCV_ASSERT cond ≫= k = k tt.
Proof. by intros ->. Qed.

(** Splits a hypothesis [x ← m; k = Ok r] into its two halves. *)
Ltac inv_bind Hb :=
  let a := fresh "a" in
  let Hm := fresh "Hm" in
  apply bind_Ok in Hb as (a & Hm & Hb).

Lemma s32_id x : - 2 ^ 31 ≤ x < 2 ^ 31 → s32 x = x.
Proof. intros Hx. unfold s32, wrap. rewrite Z.mod_small; lia. Qed.

Lemma s64_id x : - 2 ^ 63 ≤ x < 2 ^ 63 → s64 x = x.
Proof. intros Hx. unfold s64, wrap. rewrite Z.mod_small; lia. Qed.

Lemma at_index_of_nat {A} (l : list A) (i : nat) : at_index l (Z.of_nat i) = l !! i.
Proof. unfold at_index. case_decide; [by rewrite Nat2Z.id | lia]. Qed.

(* --------------------------------------------------------------------- *)
(** ** The cache key *)
(* --------------------------------------------------------------------- *)

(** C4. [Image::Key::doIsCompatible] splits the keys into two classes: two
    wrapper keys are always compatible, a wrapper key and a sized key never
    are, and two sized keys are compatible exactly when their sizes and their
    formats are equal. *)
Theorem doIsCompatible_partition (a b : Key.t) :
  (Key.m_isWrapper a = true → Key.m_isWrapper b = true → Key.doIsCompatible a b = true) ∧
  (Key.m_isWrapper a ≠ Key.m_isWrapper b → Key.doIsCompatible a b = false) ∧
  (Key.m_isWrapper a = false → Key.m_isWrapper b = false →
   (Key.doIsCompatible a b = true ↔
    Key.m_size a = Key.m_size b ∧ Key.m_format a = Key.m_format b)).
Proof.
  unfold Key.doIsCompatible. split; [|split].
  - by intros -> ->.
  - destruct (Key.m_isWrapper a), (Key.m_isWrapper b); simpl; congruence.
  - intros -> ->. simpl. rewrite bool_decide_eq_true. split.
    + by intros [= -> ->].
    + by intros [-> ->].
Qed.

Lemma doIsCompatible_partition_witness :
  Key.doIsCompatible Key.Wrapper Key.Wrapper = true ∧
  Key.doIsCompatible Key.Wrapper (Key.Sized (640, 480) FMT_RGB8) = false ∧
  Key.doIsCompatible (Key.Sized (640, 480) FMT_RGB8) (Key.Sized (640, 480) FMT_RGB8) = true.
Proof.
  split; [|split].
  - destruct (doIsCompatible_partition Key.Wrapper Key.Wrapper) as (Hww & _ & _).
    apply Hww; reflexivity.
  - destruct (doIsCompatible_partition Key.Wrapper (Key.Sized (640, 480) FMT_RGB8))
      as (_ & Hws & _).
    apply Hws. simpl. discriminate.
  - destruct (doIsCompatible_partition (Key.Sized (640, 480) FMT_RGB8)
                (Key.Sized (640, 480) FMT_RGB8)) as (_ & _ & Hss).
    apply Hss; [reflexivity | reflexivity | split; reflexivity].
Defined.

(* --------------------------------------------------------------------- *)
(** ** Layout of a rank-3 or rank-4 buffer *)
(* --------------------------------------------------------------------- *)

Section IngestProperties.
Context `{External}.

Lemma extractBuffer_layout fmt p tensor cur bufInfo cur' :
  extractBuffer fmt p tensor cur = Ok (bufInfo, cur') →
  ∃ shape strides layout,
    shapeStridesLayout fmt p tensor = Ok (shape, strides, layout) ∧
    isChannelLast bufInfo = layoutIsChannelLast layout.
Proof.
  unfold extractBuffer. intros Hx.
  inv_bind Hx. destruct a as [[shape strides] layout].
  exists shape, strides, layout. split; [done|].
  repeat inv_bind Hx. by injection Hx as <- _.
Qed.

(** Buffer number [i] of the list is handled by one turn of the loop, with
    [p = i]. *)
Lemma extractLoop_lookup fmt tensors : ∀ p cur infos (i : nat) tensor,
  extractLoop fmt tensors p cur = Ok infos →
  tensors !! i = Some tensor →
  ∃ bufInfo cur0 cur1,
    infos !! i = Some bufInfo ∧
    extractBuffer fmt (p + Z.of_nat i) tensor cur0 = Ok (bufInfo, cur1).
Proof.
  induction tensors as [|t rest IH]; intros p cur infos i tensor Hloop Hi; [done|].
  simpl in Hloop. inv_bind Hloop. destruct a as [b0 c0].
  inv_bind Hloop. injection Hloop as <-.
  destruct i as [|i]; simpl in Hi.
  - injection Hi as <-. exists b0, cur, c0. split; [done|].
    by replace (p + Z.of_nat 0) with p by lia.
  - destruct (IH _ _ _ _ _ Hm0 Hi) as (b & c1 & c2 & Hb & Hx).
    exists b, c1, c2. split; [done|].
    by replace (p + Z.of_nat (S i)) with (p + 1 + Z.of_nat i) by lia.
Qed.


End IngestProperties.



(* --------------------------------------------------------------------- *)
(** ** Repacking an element type *)
(* --------------------------------------------------------------------- *)

Lemma replicateBits_4 n b0 b1 b2 b3 :
  2 ≤ n ≤ 4 →
  replicateBits n [b0; b1; b2; b3] =
    [b0; b0; if decide (3 ≤ n) then b0 else b2; if decide (4 ≤ n) then b0 else b3].
Proof.
  intros Hn. assert (n = 2 ∨ n = 3 ∨ n = 4) as [->|[->| ->]] by lia; reflexivity.
Qed.





Section PlaneTypes.
Context `{External}.


End PlaneTypes.


(* --------------------------------------------------------------------- *)
(** ** Retargeting a wrapper image *)
(* --------------------------------------------------------------------- *)

Lemma existsb_onOtherDevice b0 (rest : list ExternalBuffer) :
  existsb (onOtherDevice b0) rest = true ↔
  ∃ b, b ∈ rest ∧
       (device_type (dl_device (dlTensor b)) ≠ device_type (dl_device (dlTensor b0))
        ∨ device_id (dl_device (dlTensor b)) ≠ device_id (dl_device (dlTensor b0))).
Proof.
  rewrite existsb_exists. split.
  - intros (b & Hin & Hb). exists b. split; [by apply list_elem_of_In|].
    by apply bool_decide_eq_true in Hb.
  - intros (b & Hin & Hb). exists b. split; [by apply list_elem_of_In|].
    by apply bool_decide_eq_true.
Qed.

(** C10. With two or more buffers, [Image::setWrapData] throws whenever a
    buffer after the first differs from the first in device type or device
    id, and then the wrapped object and the wrapped image data are the ones
    from before the call; with a single buffer the call returns whatever
    the device is, and the image wraps that buffer. *)
Theorem setWrapData_same_device (this : Image) (wd : WrapData) (b0 : ExternalBuffer)
    (rest : list ExternalBuffer) (imgData : ImageData) :
  m_wrapData this = Some wd →
  let after := setWrapData this (b0 :: rest) imgData in
  (rest ≠ [] →
   (∃ b, b ∈ rest ∧
         (device_type (dl_device (dlTensor b)) ≠ device_type (dl_device (dlTensor b0))
          ∨ device_id (dl_device (dlTensor b)) ≠ device_id (dl_device (dlTensor b0)))) →
   after.2 = Throw runtime_error ∧
   obj <$> m_wrapData after.1 = Some (obj wd) ∧
   m_impl after.1 = m_impl this) ∧
  (rest = [] →
   after.2 = Ok tt ∧
   m_wrapData after.1 = Some (mkWrapData (device_type (dl_device (dlTensor b0))) (PyBuffer b0)) ∧
   m_impl after.1 = Some imgData).
Proof.
  intros Hwd after. subst after. unfold setWrapData. rewrite Hwd. split.
  - intros Hrest Hdiff. apply existsb_onOtherDevice in Hdiff.
    destruct rest as [|b1 rest]; [done|].
    destruct (decide (length (b0 :: b1 :: rest) = 1%nat)) as [Hlen|_]; [done|].
    by rewrite Hdiff.
  - by intros ->.
Qed.

Lemma setWrapData_same_device_witness :
  (setWrapData Samples.wrapper [Samples.buf Samples.cuda0 4096; Samples.buf Samples.cuda1 8192]
     (mkImageData FMT_U8 [])).2 = Throw runtime_error ∧
  (setWrapData Samples.wrapper [Samples.buf Samples.cuda1 8192] (mkImageData FMT_U8 [])).2 = Ok tt.
Proof.
  split.
  - destruct (setWrapData_same_device Samples.wrapper (mkWrapData 1 PyNone)
                (Samples.buf Samples.cuda0 4096) [Samples.buf Samples.cuda1 8192]
                (mkImageData FMT_U8 [])) as [Hthrow _]; [reflexivity|].
    apply Hthrow; [discriminate|].
    exists (Samples.buf Samples.cuda1 8192). split; [apply list_elem_of_here|].
    right. simpl. discriminate.
  - destruct (setWrapData_same_device Samples.wrapper (mkWrapData 1 PyNone)
                (Samples.buf Samples.cuda1 8192) [] (mkImageData FMT_U8 [])) as [_ Hone];
      [reflexivity|].
    apply Hone. reflexivity.
Defined.

(* --------------------------------------------------------------------- *)
(** ** Inference of the image format *)
(* --------------------------------------------------------------------- *)

Lemma dt_numChannels_bounds (t : DataType) : 0 ≤ dt_numChannels t ≤ 4.
Proof.
  unfold dt_numChannels, packNumChannels.
  pose proof (length_filter (λ b : Z, b ≠ 0) (take 4 (bits (dt_packing t)))) as Hf.
  pose proof (firstn_le_length 4 (bits (dt_packing t))) as Ht.
  lia.
Qed.

(** The loop over the planes throws [invalid_argument] at the first plane
    whose data kind is not [kind0], never stops on an assertion, and
    otherwise returns. *)
Lemma inferLoop_outcome (kind0 : DataKind) (l : list (Z * DataType)) :
  ∀ st,
    match foldM (inferPlane kind0) st l with
    | Ok _ => Forall (λ pt, dt_dataKind pt.2 = kind0) l
    | Throw e => e = invalid_argument ∧ Exists (λ pt, dt_dataKind pt.2 ≠ kind0) l
    | Abort => False
    end.
Proof.
  induction l as [|[p t] l IH]; intros [packing n]; simpl; [constructor|].
  unfold throw_when. case_bool_decide as Hk; simpl.
  - split; [done|]. by left.
  - specialize (IH (<[Z.to_nat p:=dt_packing t]> packing, s32 (n + dt_numChannels t))).
    destruct (foldM _ _ l) as [st'|e|]; [|destruct IH as [-> IH]|done].
    + by constructor.
    + split; [done|]. by right.
Qed.

(** With at most four planes of one kind the loop leaves the packings of
    the planes, in order, and the total channel count. *)
Lemma inferLoop_result (first : DataType) (planes : list DataType) :
  (length planes ≤ 4)%nat →
  Forall (λ t, dt_dataKind t = dt_dataKind first) planes →
  foldM (inferPlane (dt_dataKind first)) (replicate 4 PACKING_0, 0) (indexed planes) =
    Ok ([packingOfPlane planes 0; packingOfPlane planes 1;
         packingOfPlane planes 2; packingOfPlane planes 3], totalChannels planes).
Proof.
  intros Hlen Hkind.
  destruct planes as [|t0 [|t1 [|t2 [|t3 [|]]]]]; simpl in Hlen; try lia;
    repeat match goal with
           | Hf : Forall _ (_ :: _) |- _ =>
               let Hk := fresh "Hk" in apply Forall_cons in Hf as [Hk Hf]
           end;
    unfold indexed, inferPlane, totalChannels, packingOfPlane; simpl;
    repeat match goal with Hk : dt_dataKind _ = _ |- _ => rewrite Hk; clear Hk end;
    repeat (rewrite (bool_decide_eq_false_2 (dt_dataKind first ≠ dt_dataKind first))
              by (by intros Hc); simpl);
    repeat match goal with
           | t : DataType |- _ =>
               lazymatch goal with
               | _ : 0 ≤ dt_numChannels t ≤ 4 |- _ => fail
               | _ => pose proof (dt_numChannels_bounds t)
               end
           end;
    repeat match goal with
           | |- context [s32 ?x] =>
               lazymatch x with
               | context [s32 _] => fail
               | _ => rewrite (s32_id x) by lia
               end
           end;
    first [reflexivity | f_equal; f_equal; lia].
Qed.

Lemma selectFormat_no_throw kind numPlanes packing n e :
  selectFormat kind numPlanes packing n ≠ Throw e.
Proof.
  unfold selectFormat. repeat case_decide; try done.
  unfold NVCV_ASSERT. case_bool_decide; simpl; [|done].
  by destruct (at_index baseFormatList (n - 1)).
Qed.

Lemma InferImageFormat_select (first : DataType) (rest : list DataType) :
  (length (first :: rest) ≤ 4)%nat →
  Forall (λ t, dt_dataKind t = dt_dataKind first) (first :: rest) →
  InferImageFormat (first :: rest) =
    selectFormat (dt_dataKind first) (Z.of_nat (length (first :: rest)))
      [packingOfPlane (first :: rest) 0; packingOfPlane (first :: rest) 1;
       packingOfPlane (first :: rest) 2; packingOfPlane (first :: rest) 3]
      (totalChannels (first :: rest)).
Proof.
  intros Hlen Hkind. unfold InferImageFormat.
  rewrite NVCV_ASSERT_true by (by apply bool_decide_eq_true).
  by rewrite inferLoop_result.
Qed.

Lemma indexed_snd {A} (l : list A) : (indexed l).*2 = l.
Proof. unfold indexed. apply snd_zip. rewrite length_seqZ. lia. Qed.

Lemma totalChannels_ge_length (planes : list DataType) :
  Forall (λ t, 1 ≤ dt_numChannels t) planes →
  Z.of_nat (length planes) ≤ totalChannels planes.
Proof. induction 1 as [|t l Ht _ IH]; simpl; lia. Qed.

Lemma totalChannels_le (planes : list DataType) :
  totalChannels planes ≤ 4 * Z.of_nat (length planes).
Proof.
  induction planes as [|t l IH]; simpl; [lia|].
  pose proof (dt_numChannels_bounds t). lia.
Qed.

Lemma baseFormatList_at (n : Z) :
  1 ≤ n ≤ 4 → at_index baseFormatList (n - 1) = baseFormatFor n ∧ is_Some (baseFormatFor n).
Proof.
  intros Hn. assert (n = 1 ∨ n = 2 ∨ n = 3 ∨ n = 4) as [->|[->|[->| ->]]] by lia;
    (split; [reflexivity | by eexists]).
Qed.

Lemma selectFormat_returns kind numPlanes packing n :
  1 ≤ n ≤ 4 → returns (selectFormat kind numPlanes packing n).
Proof.
  intros Hn. unfold selectFormat, returns. case_decide.
  - rewrite NVCV_ASSERT_true by (apply bool_decide_eq_true; lia).
    destruct (baseFormatList_at n Hn) as [-> [base ->]]. by eexists.
  - case_decide; by eexists.
Qed.

(** [InferImageFormat] returns on at most four plane types of one kind that
    have between 1 and 4 channels in all. *)
Lemma InferImageFormat_returns (planes : list DataType) (first : DataType) :
  head planes = Some first →
  (length planes ≤ 4)%nat →
  1 ≤ totalChannels planes ≤ 4 →
  Forall (λ t, dt_dataKind t = dt_dataKind first) planes →
  returns (InferImageFormat planes).
Proof.
  intros Hhead Hlen Htotal Hkind.
  destruct planes as [|t0 rest]; [done|]. injection Hhead as ->.
  rewrite InferImageFormat_select by done.
  by apply selectFormat_returns.
Qed.

(** C2. For a non-empty list of per-plane types of one data kind (at most
    four planes, as the function asserts): if there is one plane or as many
    channels as planes, the result is built from the base format indexed by
    the total channel count (1: gray, 2: two-channel, 3: color, 4: color with
    alpha), with the base format's color model and swizzle, the shared data
    kind and the packing of each plane; otherwise, with 2 planes and 3
    channels, the result is the NV12-like template with the data kind and
    the packings of the planes put in. *)
Theorem InferImageFormat_cases (planes : list DataType) (first : DataType) :
  head planes = Some first →
  (length planes ≤ 4)%nat →
  Forall (λ t, dt_dataKind t = dt_dataKind first) planes →
  let n := totalChannels planes in
  let np := Z.of_nat (length planes) in
  let pk := packingOfPlane planes in
  (np = 1 ∨ n = np → 1 ≤ n →
   ∃ base f,
     baseFormatFor n = Some base ∧
     InferImageFormat planes = Ok f ∧
     colorModel f = colorModel base ∧
     fmt_swizzle f = fmt_swizzle base ∧
     dataKind f = dt_dataKind first ∧
     planePackings f = [pk 0; pk 1; pk 2; pk 3]%nat) ∧
  (¬ (np = 1 ∨ n = np) → np = 2 ∧ n = 3 →
   InferImageFormat planes =
     Ok (swizzleAndPacking (with_dataKind FMT_NV12_ER (dt_dataKind first)) S_XYZ0
           (pk 0) (pk 1) (pk 2) (pk 3))%nat).
Proof.
  intros Hhead Hlen Hkind n np pk.
  destruct planes as [|t0 rest]; [done|]. injection Hhead as ->.
  rewrite InferImageFormat_select by done. fold n np.
  unfold selectFormat. split.
  - intros Hplanar Hn.
    assert (n ≤ 4) as Hn4.
    { destruct Hplanar as [Hone| ->]; [|subst np; lia].
      pose proof (totalChannels_le (first :: rest)) as Hle. fold n np in Hle. lia. }
    destruct (decide (np = 1 ∨ n = np)) as [_|Hc]; [|by destruct Hc].
    rewrite NVCV_ASSERT_true by (by apply bool_decide_eq_true).
    destruct (baseFormatList_at n) as [-> [base Hbase]]; [lia|].
    exists base. rewrite Hbase. eexists. split; [done|]. split; [reflexivity|].
    unfold baseFormatFor in Hbase.
    repeat case_decide; try done; injection Hbase as <-; done.
  - intros Hnot [Hnp Hn3].
    destruct (decide (np = 1 ∨ n = np)) as [Hc|_]; [by destruct (Hnot Hc)|].
    destruct (decide (np = 2 ∧ n = 3)) as [_|Hc]; [done | by destruct Hc].
Qed.

Lemma InferImageFormat_cases_witness :
  InferImageFormat [Samples.TYPE_U8; Samples.TYPE_2U8] =
    Ok (swizzleAndPacking (with_dataKind FMT_NV12_ER UNSIGNED) S_XYZ0 X8 X8_Y8 PACKING_0 PACKING_0) ∧
  ∃ f, InferImageFormat [Samples.TYPE_3U8] = Ok f ∧ colorModel f = CM_RGB ∧ fmt_swizzle f = S_XYZ1.
Proof.
  split.
  - destruct (InferImageFormat_cases [Samples.TYPE_U8; Samples.TYPE_2U8] Samples.TYPE_U8)
      as [_ Hsemi]; [reflexivity | simpl; lia | by repeat constructor |].
    apply Hsemi; vm_compute; [intros [?|?]; discriminate | split; reflexivity].
  - destruct (InferImageFormat_cases [Samples.TYPE_3U8] Samples.TYPE_3U8)
      as [Hpacked _]; [reflexivity | simpl; lia | by repeat constructor |].
    destruct Hpacked as (base & f & Hbase & Hf & Hmodel & Hsw & _);
      [left; reflexivity | vm_compute; discriminate |].
    exists f. vm_compute in Hbase. injection Hbase as <-.
    split; [exact Hf|]. split; [exact Hmodel | exact Hsw].
Defined.




(* --------------------------------------------------------------------- *)
(** ** Validation of the declared format and of the plane sizes *)
(* --------------------------------------------------------------------- *)

Section FillProperties.
Context `{External}.

Lemma checkPlaneSize_spec finalFormat imgSize planes p :
  checkPlaneSize finalFormat imgSize planes tt p =
    if decide (planeSizeOk finalFormat imgSize planes p) then Ok tt else Throw invalid_argument.
Proof.
  unfold checkPlaneSize, throw_when, planeSizeOk.
  case_bool_decide as Hbad; case_decide as Hok; try done.
  - destruct Hok as [Hw Hh]. destruct Hbad as [Hc|Hc]; by destruct Hc.
  - destruct Hok. split.
    + destruct (decide (width (default (mkPlane 0 0 0 0) (at_index planes p))
                        = sz_w (planeSize finalFormat imgSize p))) as [|Hc]; [done|].
      destruct Hbad. by left.
    + destruct (decide (height (default (mkPlane 0 0 0 0) (at_index planes p))
                        = sz_h (planeSize finalFormat imgSize p))) as [|Hc]; [done|].
      destruct Hbad. by right.
Qed.

(** The final loop returns when every plane it visits has the size the
    format expects, and throws [invalid_argument] otherwise. *)
Lemma checkPlaneSize_loop finalFormat imgSize planes (ps : list Z) :
  (Forall (planeSizeOk finalFormat imgSize planes) ps ∧
   foldM (checkPlaneSize finalFormat imgSize planes) tt ps = Ok tt) ∨
  (Exists (λ p, ¬ planeSizeOk finalFormat imgSize planes p) ps ∧
   foldM (checkPlaneSize finalFormat imgSize planes) tt ps = Throw invalid_argument).
Proof.
  induction ps as [|p ps IH]; simpl.
  - left. by split.
  - rewrite checkPlaneSize_spec. case_decide as Hp; simpl.
    + destruct IH as [[Hall Hok]|[Hex Hthrow]].
      * left. split; [by constructor | done].
      * right. split; [by right | done].
    + right. split; [by left | done].
Qed.

(** Once the planes are there and a format has been inferred that the
    declared format agrees with, what is left is the check of the plane
    sizes. *)
Lemma Fill_after_inference infos fmt bufferInfoList planes types inferred :
  ExtractBufferImageInfo infos fmt = Ok bufferInfoList →
  foldM fillBuffer ([], []) bufferInfoList = Ok (planes, types) →
  planes ≠ [] →
  InferImageFormat types = Ok inferred →
  fmt = FMT_NONE ∨ HasSameDataLayout fmt inferred = true →
  let finalFormat := if decide (fmt ≠ FMT_NONE) then fmt else inferred in
  let pl0 := default (mkPlane 0 0 0 0) (planes !! 0%nat) in
  FillNVCVImageBufferStrided infos fmt =
    (_ ← foldM (checkPlaneSize finalFormat (mkSize2D (width pl0) (height pl0)) planes) tt
           (seqZ 0 (Z.of_nat (length planes)));
     Ok (mkImageData finalFormat planes)).
Proof.
  intros Hextract Hfill Hplanes Hinfer Hsame finalFormat pl0.
  unfold FillNVCVImageBufferStrided.
  rewrite Hextract. simpl. rewrite Hfill. simpl.
  rewrite throw_when_false
    by (apply bool_decide_eq_false; destruct planes; [done | simpl; lia]).
  rewrite Hinfer. simpl. subst finalFormat.
  destruct (decide (fmt ≠ FMT_NONE)) as [Hfmt|Hfmt]; [|done].
  destruct Hsame as [->|Hsame]; [done|]. by rewrite Hsame.
Qed.

(** C3. Once the buffers have been turned into planes and a format has been
    inferred from them: with a declared format that does not have the data
    layout of the inferred one, construction throws an invalid-argument
    error; otherwise the final format is the declared one when there is one
    and the inferred one when there is none, and construction throws an
    invalid-argument error whenever the width or height of some plane
    differs from [finalFormat.planeSize(imageSize, planeIndex)], where the
    image size is that of plane 0; when no plane differs, construction
    returns the planes with the final format. *)
Theorem Fill_format_validation (infos : list DLTensor) (fmt : ImageFormat)
    (bufferInfoList : list BufferImageInfo) (planes : list ImagePlaneStrided)
    (types : list DataType) (inferred : ImageFormat) :
  ExtractBufferImageInfo infos fmt = Ok bufferInfoList →
  foldM fillBuffer ([], []) bufferInfoList = Ok (planes, types) →
  planes ≠ [] →
  InferImageFormat types = Ok inferred →
  let finalFormat := if decide (fmt ≠ FMT_NONE) then fmt else inferred in
  let sameLayout := fmt = FMT_NONE ∨ HasSameDataLayout fmt inferred = true in
  let pl0 := default (mkPlane 0 0 0 0) (planes !! 0%nat) in
  let imgSize := mkSize2D (width pl0) (height pl0) in
  let sizeOk (p : nat) (pl : ImagePlaneStrided) :=
    width pl = sz_w (planeSize finalFormat imgSize (Z.of_nat p)) ∧
    height pl = sz_h (planeSize finalFormat imgSize (Z.of_nat p)) in
  (¬ sameLayout → FillNVCVImageBufferStrided infos fmt = Throw invalid_argument) ∧
  (sameLayout → (∃ p pl, planes !! p = Some pl ∧ ¬ sizeOk p pl) →
   FillNVCVImageBufferStrided infos fmt = Throw invalid_argument) ∧
  (sameLayout → (∀ p pl, planes !! p = Some pl → sizeOk p pl) →
   FillNVCVImageBufferStrided infos fmt = Ok (mkImageData finalFormat planes)) ∧
  (∀ img, FillNVCVImageBufferStrided infos fmt = Ok img →
          img_format img = finalFormat ∧ img_planes img = planes).
Proof.
  intros Hextract Hfill Hplanes Hinfer finalFormat sameLayout pl0 imgSize sizeOk.
  assert (Hfinal : sameLayout →
  FillNVCVImageBufferStrided infos fmt =
    (_ ← foldM (checkPlaneSize finalFormat imgSize planes) tt
           (seqZ 0 (Z.of_nat (length planes)));
     Ok (mkImageData finalFormat planes))).
{ intros Hsame. by apply (Fill_after_inference _ _ _ _ _ _ Hextract Hfill Hplanes Hinfer). }
assert (Hbad : ¬ sameLayout →
    FillNVCVImageBufferStrided infos fmt = Throw invalid_argument).
  { intros Hdiff. unfold FillNVCVImageBufferStrided.
    rewrite Hextract. simpl. rewrite Hfill. simpl.
    rewrite throw_when_false
      by (apply bool_decide_eq_false; destruct planes; [done | simpl; lia]).
    rewrite Hinfer. simpl.
    destruct (decide (fmt ≠ FMT_NONE)) as [Hfmt|Hfmt].
    - destruct (HasSameDataLayout fmt inferred) eqn:Hl; [|done].
      destruct Hdiff. by right.
    - destruct Hdiff. left. by destruct (decide (fmt = FMT_NONE)) as [|Hc]; [|destruct (Hfmt Hc)]. }
  pose proof (checkPlaneSize_loop finalFormat imgSize planes
                (seqZ 0 (Z.of_nat (length planes)))) as Hloop.
  split; [exact Hbad|]. split; [|split].
  - intros Hsame (p & pl & Hp & Hsize). rewrite Hfinal by done.
    destruct Hloop as [[Hall _]|[_ ->]]; [|done].
    destruct Hsize. rewrite Forall_forall in Hall.
    specialize (Hall (Z.of_nat p)). unfold planeSizeOk in Hall.
    rewrite at_index_of_nat, Hp in Hall. simpl in Hall.
    apply Hall. apply elem_of_seqZ. apply lookup_lt_Some in Hp. lia.
  - intros Hsame Hall. rewrite Hfinal by done.
    destruct Hloop as [[_ ->]|[Hex _]]; [done|].
    apply Exists_exists in Hex as (p & Hin & Hsize). destruct Hsize.
    apply elem_of_seqZ in Hin.
    destruct (lookup_lt_is_Some_2 planes (Z.to_nat p)) as [pl Hpl]; [lia|].
    unfold planeSizeOk. replace p with (Z.of_nat (Z.to_nat p)) by lia.
    rewrite at_index_of_nat, Hpl. simpl. by apply Hall.
  - intros img Himg.
    destruct (decide (fmt = FMT_NONE)) as [Hnone|Hsome].
    + rewrite Hfinal in Himg by (by left).
      apply bind_Ok in Himg as ([] & _ & Himg). by simplify_eq.
    + destruct (HasSameDataLayout fmt inferred) eqn:Hl.
      * rewrite Hfinal in Himg by (by right).
        apply bind_Ok in Himg as ([] & _ & Himg). by simplify_eq.
      * rewrite Hbad in Himg; [done|]. intros [?|?]; congruence.
Qed.

End FillProperties.

Lemma Fill_format_validation_witness :
  FillNVCVImageBufferStrided (H := reference_helpers) [Samples.packed_480x640x4] FMT_RGBA8 =
    Ok (mkImageData FMT_RGBA8 [mkPlane 640 480 2560 4096]).
Proof.
  edestruct (Fill_format_validation (H := reference_helpers) [Samples.packed_480x640x4] FMT_RGBA8)
    as (_ & _ & Hok & _).
  - vm_compute. reflexivity.
  - vm_compute. reflexivity.
  - discriminate.
  - vm_compute. reflexivity.
  - apply Hok.
    + right. reflexivity.
    + intros [|p] pl Hp; [|discriminate]. injection Hp as <-. split; reflexivity.
Defined.

(* --------------------------------------------------------------------- *)
(** ** Export: how many buffers, and their layout *)
(* --------------------------------------------------------------------- *)

Lemma mapM_Ok {A B} (f : A → outcome B) (l : list A) (bs : list B) :
  mapM f l = Ok bs ↔ Forall2 (λ a b, f a = Ok b) l bs.
Proof.
  revert bs. induction l as [|a l IH]; intros bs; simpl.
  - split; [by intros [= <-]; constructor | by inversion 1].
  - rewrite bind_Ok. split.
    + intros (b & Hb & Hrest). apply bind_Ok in Hrest as (bs' & Hbs & [= <-]).
      constructor; [done | by apply IH].
    + inversion 1 as [|? b ? bs' Hb Hbs]; subst. exists b. split; [done|].
      apply bind_Ok. exists bs'. split; [by apply IH | done].
Qed.

(** What one turn of the coalescing loop asks of plane [p]. *)
Lemma singleBufferLoop_true (imgData : ImageData) (ps : list Z) :
  singleBufferLoop imgData ps = true ↔
  Forall (λ p,
    (width (plane imgData p) = width (plane imgData 0) ∧
     height (plane imgData p) = height (plane imgData 0) ∧
     pl_rowStride (plane imgData p) = pl_rowStride (plane imgData 0) ∧
     dt_numChannels (planeDataType (img_format imgData) 0) < 2 ∧
     planeDataType (img_format imgData) 0 = planeDataType (img_format imgData) p) ∧
    (2 ≤ p →
     basePtr (plane imgData p) - basePtr (plane imgData (p - 1)) =
     basePtr (plane imgData 1) - basePtr (plane imgData 0))) ps.
Proof.
  induction ps as [|p ps IH]; simpl; [by split; [constructor|]|].
  rewrite Forall_cons, <- IH. clear IH.
  set (w := width (plane imgData p)). set (w0 := width (plane imgData 0)).
  set (h := height (plane imgData p)). set (h0 := height (plane imgData 0)).
  set (rs := pl_rowStride (plane imgData p)). set (rs0 := pl_rowStride (plane imgData 0)).
  set (nch := dt_numChannels (planeDataType (img_format imgData) 0)).
  set (t0 := planeDataType (img_format imgData) 0).
  set (tp := planeDataType (img_format imgData) p).
  set (cur := basePtr (plane imgData p) - basePtr (plane imgData (p - 1))).
  set (gold := basePtr (plane imgData 1) - basePtr (plane imgData 0)).
  assert (Hsame : (w = w0 ∧ h = h0 ∧ rs = rs0 ∧ nch < 2 ∧ t0 = tp) ↔
                  ¬ (w ≠ w0 ∨ h ≠ h0 ∨ rs ≠ rs0 ∨ 2 ≤ nch ∨ t0 ≠ tp)).
  { split.
    - intros (? & ? & ? & ? & ?) [?|[?|[?|[?|?]]]]; (done || lia).
    - intros Hn.
      destruct (decide (w = w0)); [|destruct Hn; tauto].
      destruct (decide (h = h0)); [|destruct Hn; tauto].
      destruct (decide (rs = rs0)); [|destruct Hn; tauto].
      destruct (decide (nch < 2)); [|destruct Hn; right; right; right; left; lia].
      destruct (decide (t0 = tp)); [|destruct Hn; tauto].
      done. }
  case_bool_decide as Hdiff.
  { split; [done|]. intros [[Hok _] _]. by apply Hsame in Hok. }
  apply Hsame in Hdiff.
  destruct (bool_decide (2 ≤ p)) eqn:Hp2; simpl.
  - apply bool_decide_eq_true in Hp2. case_bool_decide as Hpitch; simpl.
    + split; [done|]. intros [[_ Hgold] _]. by destruct (Hpitch (Hgold Hp2)).
    + split; [|by intros [_ ?]]. intros Hrest. split; [|done]. split; [done|].
      intros _. first [done | by apply dec_stable].
  - apply bool_decide_eq_false in Hp2.
    split; [|by intros [_ ?]]. intros Hrest. split; [|done]. split; [done | lia].
Qed.

Lemma singleBuffer_coalescible (imgData : ImageData) :
  2 ≤ img_numPlanes imgData →
  singleBuffer imgData = true ↔ coalescible imgData.
Proof.
  intros Hnp. unfold singleBuffer. rewrite singleBufferLoop_true, Forall_forall.
  unfold coalescible. split.
  - intros Hall.
    assert (∀ p, 1 ≤ p < img_numPlanes imgData → p ∈ seqZ 1 (img_numPlanes imgData - 1)) as Hin
      by (intros p Hp; apply elem_of_seqZ; lia).
    split; [|split; [|split]].
    + intros p Hp. destruct (decide (p = 0)) as [->|Hp0]; [done|].
      destruct (Hall p) as [(Hw & Hh & Hs & _) _]; [apply Hin; lia | done].
    + destruct (Hall 1) as [(_ & _ & _ & Hc & _) _]; [apply Hin; lia | done].
    + intros p Hp. destruct (decide (p = 0)) as [->|Hp0]; [done|].
      destruct (Hall p) as [(_ & _ & _ & _ & Ht) _]; [apply Hin; lia | done].
    + intros p Hp. destruct (decide (p = 1)) as [->|Hp1]; [done|].
      destruct (Hall p) as [_ Hgold]; [apply Hin; lia|]. apply Hgold. lia.
  - intros (Hgeom & Hch & Htype & Hpitch) p Hp. apply elem_of_seqZ in Hp.
    destruct (Hgeom p) as (Hw & Hh & Hs); [lia|].
    split; [|intros _; apply Hpitch; lia].
    repeat split; try done. symmetry. apply Htype. lia.
Qed.

Section ExportProperties.
Context `{External}.

Lemma ToPyBufferInfo_Ok imgData userLayout bufs :
  ToPyBufferInfo imgData userLayout = Ok bufs →
  (img_numPlanes imgData < 1 ∧ bufs = []) ∨
  (1 ≤ img_numPlanes imgData ∧
   Forall2 (λ p b, exportBuffer imgData userLayout (numBuffers imgData) p = Ok b)
     (seqZ 0 (numBuffers imgData)) bufs).
Proof.
  unfold ToPyBufferInfo. case_decide as Hnp.
  - intros [= <-]. by left.
  - intros Hm. inv_bind Hm. right. split; [lia|]. by apply mapM_Ok.
Qed.

Lemma numBuffers_one imgData :
  1 ≤ img_numPlanes imgData →
  numBuffers imgData = 1 ↔
  img_numPlanes imgData = 1 ∨ (2 ≤ img_numPlanes imgData ∧ coalescible imgData).
Proof.
  intros Hnp1. unfold numBuffers.
  destruct (decide (2 ≤ img_numPlanes imgData)) as [Hnp|Hnp].
  - rewrite <- singleBuffer_coalescible by done.
    destruct (singleBuffer imgData); split; try done; try lia; intros [?|[_ ?]]; (done || lia).
  - assert (singleBuffer imgData = true) as ->.
    { unfold singleBuffer. rewrite seqZ_nil by lia. done. }
    split; [|done]. intros _. left. lia.
Qed.

(** The four ways the export describes buffer [p]. *)
Lemma inferBuffer_Ok imgData nb p inf :
  inferBuffer imgData nb p = Ok inf →
  let fmt := img_format imgData in
  let pl := plane imgData p in
  let c := exportedNumChannels fmt p in
  let bpp := dt_strideBytes (planeDataType fmt p) in
  (nb = 1 ∧ fmt_numChannels fmt = 1 ∧ img_numPlanes imgData = 1 ∧
   inf = mkInferred [height pl; width pl] [pl_rowStride pl; bpp] layout_HW (planeDataType fmt p)) ∨
  (nb = 1 ∧ fmt_numChannels fmt ≠ 1 ∧ img_numPlanes imgData = 1 ∧ 2 ≤ c ∧
   inf = mkInferred [height pl; width pl; c] [pl_rowStride pl; bpp; bpp `quot` c] layout_HWC
           (dt_channelType (planeDataType fmt p) 0)) ∨
  (nb = 1 ∧ fmt_numChannels fmt ≠ 1 ∧ img_numPlanes imgData ≠ 1 ∧ c = 1 ∧
   0 < basePtr (plane imgData 1) - basePtr (plane imgData 0) ∧
   inf = mkInferred [img_numPlanes imgData; height pl; width pl]
           [basePtr (plane imgData 1) - basePtr (plane imgData 0); pl_rowStride pl; bpp]
           layout_CHW (planeDataType fmt p)) ∨
  (nb ≠ 1 ∧ 2 ≤ img_numPlanes imgData ∧ img_numPlanes imgData = nb ∧ c ≠ 0 ∧
   inf = mkInferred [height pl; width pl; c] [pl_rowStride pl; bpp; bpp `quot` c] layout_HWC
           (dt_channelType (planeDataType fmt p) 0)).
Proof.
  unfold inferBuffer. intros Hinf. simpl.
  repeat case_decide; repeat inv_bind Hinf;
    repeat match goal with
           | Ha : NVCV_ASSERT _ = Ok _ |- _ =>
               apply NVCV_ASSERT_Ok, bool_decide_eq_true in Ha
           end;
    injection Hinf as <-;
    solve [ left; repeat split; (done || lia)
          | right; left; repeat split; (done || lia)
          | right; right; left; repeat split; (done || lia)
          | right; right; right; repeat split; (done || lia) ].
Qed.

Lemma inferBuffer_ranks imgData nb p inf :
  inferBuffer imgData nb p = Ok inf →
  length (inferredShape inf) = length (inferredLayout inf) ∧
  length (inferredStrides inf) = length (inferredLayout inf).
Proof.
  intros Hinf. apply inferBuffer_Ok in Hinf.
  destruct Hinf as [Hi|[Hi|[Hi|Hi]]]; decompose [and] Hi; by subst inf.
Qed.

(** With no requested layout a buffer is handed out as inferred. *)
Lemma exportBuffer_None imgData nb p b layout :
  exportBuffer imgData None nb p = Ok (b, layout) →
  ∃ inf, inferBuffer imgData nb p = Ok inf ∧
         b = mkBufferInfo (basePtr (plane imgData p)) (inferredDType inf)
               (inferredShape inf) (inferredStrides inf) ∧
         layout = inferredLayout inf.
Proof.
  unfold exportBuffer. intros Hx. inv_bind Hx. exists a. split; [done|].
  repeat inv_bind Hx. simpl in *. by simplify_eq.
Qed.

End ExportProperties.

Section ExportCount.
Context `{External}.

(** C5, amended. When the export returns, it hands out a single buffer
    exactly when the image has one plane, or has two or more planes that
    all have the width, height and row stride of plane 0, whose type of
    plane 0 has fewer than 2 channels, that all have the type of plane 0,
    and that are equally far apart. With no requested layout the single
    buffer is HW when the format has exactly 1 channel, HWC when it is one
    plane of several channels, and CHW (planes, rows, columns) when there
    are several one-channel planes; in every other case there is one HWC
    buffer per plane. *)
Theorem export_buffer_count (imgData : ImageData) (userLayout : option TensorLayout)
    (bufs : list (buffer_info * TensorLayout)) :
  ToPyBufferInfo imgData userLayout = Ok bufs →
  let fmt := img_format imgData in
  let np := img_numPlanes imgData in
  (length bufs = 1%nat ↔ np = 1 ∨ (2 ≤ np ∧ coalescible imgData)) ∧
  (userLayout = None →
   (∀ b layout, bufs = [(b, layout)] →
      let pl := plane imgData 0 in
      (fmt_numChannels fmt = 1 →
         layout = layout_HW ∧ bi_shape b = [height pl; width pl]) ∧
      (fmt_numChannels fmt ≠ 1 → np = 1 →
         layout = layout_HWC ∧ 2 ≤ exportedNumChannels fmt 0 ∧
         bi_shape b = [height pl; width pl; exportedNumChannels fmt 0]) ∧
      (fmt_numChannels fmt ≠ 1 → np ≠ 1 →
         layout = layout_CHW ∧ exportedNumChannels fmt 0 = 1 ∧
         bi_shape b = [np; height pl; width pl])) ∧
   (length bufs ≠ 1%nat →
      Z.of_nat (length bufs) = np ∧
      ∀ (i : nat) b layout, bufs !! i = Some (b, layout) →
        layout = layout_HWC ∧
        bi_shape b = [height (plane imgData (Z.of_nat i)); width (plane imgData (Z.of_nat i));
                      exportedNumChannels fmt (Z.of_nat i)])).
Proof.
  intros Hexp fmt np.
  assert (0 ≤ np) as Hnp0 by (subst np; unfold img_numPlanes; lia).
  apply ToPyBufferInfo_Ok in Hexp as [[Hnp ->]|[Hnp Hall]].
  { split; [simpl; split; [done | intros [?|[? _]]; subst np; lia]|].
    intros _. split; [done|]. intros _. split; [simpl; subst np; lia | done]. }
  pose proof (Forall2_length _ _ _ Hall) as Hlen. rewrite length_seqZ in Hlen.
  assert (1 ≤ numBuffers imgData) as Hnb.
  { unfold numBuffers. destruct (singleBuffer imgData); [lia | done]. }
  assert (length bufs = 1%nat ↔ numBuffers imgData = 1) as Hone by lia.
  split; [by rewrite Hone, numBuffers_one|].
  intros ->. split.
  - intros b layout ->. simpl in Hlen.
    assert (numBuffers imgData = 1) as Hnb1 by lia.
    rewrite Hnb1 in Hall. change (seqZ 0 1) with [0] in Hall.
    apply Forall2_cons_1 in Hall as [Hb _].
    apply exportBuffer_None in Hb as (inf & Hinf & -> & ->).
    apply inferBuffer_Ok in Hinf. fold fmt np in Hinf. simpl.
    destruct Hinf as [Hi|[Hi|[Hi|Hi]]]; decompose [and] Hi; subst inf; simpl;
      repeat split; intros; try done; lia.
  - intros Hmany.
    assert (numBuffers imgData ≠ 1) as Hnb1 by lia.
    assert (numBuffers imgData = np) as Hnbp.
    { unfold numBuffers in *. by destruct (singleBuffer imgData). }
    split; [lia|]. intros i b layout Hi.
    destruct (Forall2_lookup_r _ _ _ _ _ Hall Hi) as (p & Hp & Hb).
    apply lookup_seqZ in Hp as [-> _]. rewrite Z.add_0_l in Hb.
    apply exportBuffer_None in Hb as (inf & Hinf & -> & ->).
    apply inferBuffer_Ok in Hinf. fold fmt np in Hinf.
    destruct Hinf as [Hc|[Hc|[Hc|Hc]]]; decompose [and] Hc; subst inf; done.
Qed.

End ExportCount.

(** C5, as stated, fails: a one-plane packed RGB image is exported as a
    single buffer although the type of its plane 0 has 3 channels. *)
Lemma single_buffer_counterexample :
  ∃ bufs, ToPyBufferInfo (H := reference_helpers) Samples.rgb_5x2 None = Ok bufs ∧
          length bufs = 1%nat ∧
          ¬ coalescible Samples.rgb_5x2.
Proof.
  eexists. split; [reflexivity|]. split; [reflexivity|].
  intros (_ & Hch & _). vm_compute in Hch. discriminate.
Qed.

Lemma export_buffer_count_witness :
  ∃ b0 b1, ToPyBufferInfo (H := reference_helpers) Samples.nv12_6x4 None
             = Ok [(b0, layout_HWC); (b1, layout_HWC)] ∧
           bi_shape b0 = [4; 6; 1] ∧ bi_shape b1 = [2; 3; 2].
Proof.
  assert (∃ bufs, ToPyBufferInfo (H := reference_helpers) Samples.nv12_6x4 None = Ok bufs
                  ∧ length bufs = 2%nat) as (bufs & Hexp & Hlen).
  { eexists. split; reflexivity. }
  destruct (export_buffer_count (H := reference_helpers) Samples.nv12_6x4 None bufs Hexp)
    as (_ & Hnone).
  destruct (Hnone eq_refl) as [_ Hmany].
  destruct Hmany as [_ Hper]; [lia|].
  destruct bufs as [|[b0 l0] [|[b1 l1] [|]]]; try discriminate.
  destruct (Hper 0%nat b0 l0 eq_refl) as [-> Hs0].
  destruct (Hper 1%nat b1 l1 eq_refl) as [-> Hs1].
  exists b0, b1. split; [exact Hexp|]. split; [exact Hs0 | exact Hs1].
Defined.

(* --------------------------------------------------------------------- *)
(** ** Export under a requested layout *)
(* --------------------------------------------------------------------- *)

Lemma layout_find_bounds (l : TensorLayout) (c : ascii) :
  -1 ≤ layout_find l c < Z.of_nat (length l).
Proof.
  induction l as [|x l IH]; simpl; [lia|].
  repeat case_decide; lia.
Qed.

Lemma checkRequiredDim_spec (userLayout : TensorLayout) (inf : Inferred) (i : Z) (label : ascii) :
  at_index (inferredLayout inf) i = Some label →
  checkRequiredDim userLayout inf tt i =
    if decide (2 ≤ zat (inferredShape inf) i ∧ layout_find userLayout label < 0)
    then Throw runtime_error else Ok tt.
Proof.
  intros Hlabel. unfold checkRequiredDim, throw_when. rewrite Hlabel.
  case_decide as Hd.
  - destruct Hd as [H2 Hf]. by rewrite !bool_decide_eq_true_2.
  - destruct (decide (2 ≤ zat (inferredShape inf) i)) as [H2|H2].
    + rewrite (bool_decide_eq_false_2 (layout_find userLayout label < 0)) by tauto.
      by rewrite andb_false_r.
    + by rewrite (bool_decide_eq_false_2 (2 ≤ zat (inferredShape inf) i)).
Qed.

(** The first loop over the inferred axes. *)
Lemma checkRequired_loop (userLayout : TensorLayout) (inf : Inferred) (idxs : list Z) :
  let missing i :=
    ∃ label, at_index (inferredLayout inf) i = Some label ∧
             2 ≤ zat (inferredShape inf) i ∧ layout_find userLayout label < 0 in
  Forall (λ i, 0 ≤ i < layout_rank (inferredLayout inf)) idxs →
  (Forall (λ i, ¬ missing i) idxs ∧
   foldM (checkRequiredDim userLayout inf) tt idxs = Ok tt) ∨
  (Exists missing idxs ∧
   foldM (checkRequiredDim userLayout inf) tt idxs = Throw runtime_error).
Proof.
  intros missing. induction 1 as [|i idxs Hi _ IH]; simpl.
  - left. by split.
  - destruct (at_index (inferredLayout inf) i) as [label|] eqn:Hlabel.
    + rewrite (checkRequiredDim_spec _ _ _ _ Hlabel). case_decide as Hmiss; simpl.
      * right. split; [|done]. apply Exists_cons_hd. by exists label.
      * assert (¬ missing i) as Hnot.
        { intros (label' & Hl' & H2 & Hf). rewrite Hlabel in Hl'. injection Hl' as <-. tauto. }
        destruct IH as [[Hall Hok]|[Hex Hthrow]].
        -- left. split; [by constructor | done].
        -- right. split; [by apply Exists_cons_tl | done].
    + exfalso. unfold at_index, layout_rank in *.
      case_decide; [|lia]. apply lookup_ge_None in Hlabel. lia.
Qed.

Lemma fillUserDim_spec (inf : Inferred) (last : Z) (shape strides : list Z) (label : ascii) :
  let idx := layout_find (inferredLayout inf) label in
  fillUserDim inf (last, shape, strides) label =
    if decide (idx < 0) then Ok (last, shape ++ [1], strides ++ [0])
    else if decide (idx ≤ last) then Throw runtime_error
    else Ok (idx, shape ++ [zat (inferredShape inf) idx], strides ++ [zat (inferredStrides inf) idx]).
Proof.
  simpl. unfold fillUserDim, throw_when. case_decide; [done|].
  case_bool_decide; by case_decide.
Qed.

(** The second loop, over the requested axes. *)
Lemma fillUserDim_loop (inf : Inferred) (labels : TensorLayout) :
  ∀ last shape strides,
    match foldM (fillUserDim inf) (last, shape, strides) labels with
    | Ok (_, shape', strides') =>
        shape' = shape ++ (userDim inf <$> labels).*1 ∧
        strides' = strides ++ (userDim inf <$> labels).*2 ∧
        increasingFrom inf last labels
    | Throw e => e = runtime_error ∧ ¬ increasingFrom inf last labels
    | Abort => False
    end.
Proof.
  induction labels as [|label rest IH]; intros last shape strides.
  - simpl. by rewrite !app_nil_r.
  - rewrite foldM_cons, fillUserDim_spec, !fmap_cons. unfold userDim at 1 3. simpl.
    destruct (decide (layout_find (inferredLayout inf) label < 0)) as [Habs|Hpres]; simpl.
    + specialize (IH last (shape ++ [1]) (strides ++ [0])).
      destruct (foldM _ _ rest) as [[[last' shape'] strides']|e|]; [|done..].
      destruct IH as (-> & -> & Hinc). by rewrite <- !app_assoc.
    + destruct (decide (layout_find (inferredLayout inf) label ≤ last)) as [Hord|Hord]; simpl.
      * split; [done|]. intros [Hlt _]. lia.
      * specialize (IH (layout_find (inferredLayout inf) label)
                      (shape ++ [zat (inferredShape inf) (layout_find (inferredLayout inf) label)])
                      (strides ++ [zat (inferredStrides inf) (layout_find (inferredLayout inf) label)])).
        destruct (foldM _ _ rest) as [[[last' shape'] strides']|e|]; [| |done].
        -- destruct IH as (-> & -> & Hinc). rewrite <- !app_assoc. split; [done|]. split; [done|].
           split; [lia | done].
        -- destruct IH as [-> Hinc]. split; [done|]. by intros [_ ?].
Qed.

(** What [increasingFrom] says about the positions of the axes. *)
Lemma increasingFrom_order (inf : Inferred) (labels : TensorLayout) :
  ∀ last, increasingFrom inf last labels →
    (∀ (j : nat) l, labels !! j = Some l → 0 ≤ layout_find (inferredLayout inf) l →
       last < layout_find (inferredLayout inf) l) ∧
    (∀ (j1 j2 : nat) l1 l2, (j1 < j2)%nat →
       labels !! j1 = Some l1 → labels !! j2 = Some l2 →
       0 ≤ layout_find (inferredLayout inf) l1 → 0 ≤ layout_find (inferredLayout inf) l2 →
       layout_find (inferredLayout inf) l1 < layout_find (inferredLayout inf) l2).
Proof.
  induction labels as [|label rest IH]; intros last Hinc; [by split|].
  simpl in Hinc.
  destruct (decide (layout_find (inferredLayout inf) label < 0)) as [Habs|Hpres].
  - destruct (IH _ Hinc) as [Hlast Hpair]. split.
    + intros [|j] l Hl Hp; simpl in Hl; [injection Hl as <-; lia | by eapply Hlast].
    + intros [|j1] [|j2] l1 l2 Hlt Hl1 Hl2 Hp1 Hp2; simpl in Hl1, Hl2; try lia.
      * injection Hl1 as <-. lia.
      * eapply (Hpair j1 j2); (done || lia).
  - destruct Hinc as [Hlt0 Hinc]. destruct (IH _ Hinc) as [Hlast Hpair]. split.
    + intros [|j] l Hl Hp; simpl in Hl; [by injection Hl as <-|].
      specialize (Hlast j l Hl Hp). lia.
    + intros [|j1] [|j2] l1 l2 Hlt Hl1 Hl2 Hp1 Hp2; simpl in Hl1, Hl2; try lia.
      * injection Hl1 as <-. by eapply Hlast.
      * eapply (Hpair j1 j2); (done || lia).
Qed.

Lemma mapM_Throw {A B} (f : A → outcome B) (l : list A) :
  ∀ (i : nat) a e,
    l !! i = Some a → f a = Throw e →
    (∀ (j : nat) a', (j < i)%nat → l !! j = Some a' → returns (f a')) →
    mapM f l = Throw e.
Proof.
  induction l as [|x l IH]; intros i a e Hi Ha Hbefore; [done|].
  destruct i as [|i]; simpl in Hi.
  - injection Hi as ->. simpl. by rewrite Ha.
  - destruct (Hbefore 0%nat x) as [b Hb]; [lia | done |].
    simpl. rewrite Hb. simpl.
    rewrite (IH i a e Hi Ha); [done|].
    intros j a' Hj Hl. apply (Hbefore (S j) a'); [lia | done].
Qed.

(** The three outcomes of handing a buffer out under a requested layout. *)
Lemma applyLayout_Some (userLayout : TensorLayout) (inf : Inferred) :
  let missing :=
    ∃ (i : nat) label, inferredLayout inf !! i = Some label ∧
      2 ≤ zat (inferredShape inf) (Z.of_nat i) ∧ layout_find userLayout label < 0 in
  (missing ∧ applyLayout (Some userLayout) inf = Throw runtime_error) ∨
  (¬ missing ∧ ¬ increasingFrom inf (-1) userLayout ∧
   applyLayout (Some userLayout) inf = Throw runtime_error) ∨
  (¬ missing ∧ increasingFrom inf (-1) userLayout ∧
   applyLayout (Some userLayout) inf =
     Ok ((userDim inf <$> userLayout).*1, (userDim inf <$> userLayout).*2, userLayout)).
Proof.
  intros missing. unfold applyLayout.
  destruct (checkRequired_loop userLayout inf (seqZ 0 (layout_rank (inferredLayout inf))))
    as [[Hall ->]|[Hex ->]].
  { apply Forall_forall. intros i Hi. apply elem_of_seqZ in Hi. lia. }
  - assert (¬ missing) as Hnot.
    { intros (i & label & Hl & H2 & Hf). rewrite Forall_forall in Hall.
      apply (Hall (Z.of_nat i)).
      - apply elem_of_seqZ. apply lookup_lt_Some in Hl. unfold layout_rank. lia.
      - exists label. by rewrite at_index_of_nat. }
    right. simpl.
    pose proof (fillUserDim_loop inf userLayout (-1) [] []) as Hloop.
    destruct (foldM _ _ userLayout) as [[[last' shape'] strides']|e|]; [| |done].
    + destruct Hloop as (-> & -> & Hinc). right. by repeat split.
    + destruct Hloop as [-> Hinc]. left. by repeat split.
  - left. split; [|done].
    apply Exists_exists in Hex as (i & Hi & label & Hl & H2 & Hf).
    apply elem_of_seqZ in Hi. subst missing. exists (Z.to_nat i), label.
    replace (Z.of_nat (Z.to_nat i)) with i by lia. split; [|done].
    unfold at_index in Hl. by case_decide.
Qed.

Section RequestedLayout.
Context `{External}.

Lemma exportBuffer_Some imgData userLayout nb p inf :
  inferBuffer imgData nb p = Ok inf →
  exportBuffer imgData (Some userLayout) nb p =
    ('(shape, strides, layout) ← applyLayout (Some userLayout) inf;
     Ok (mkBufferInfo (basePtr (plane imgData p)) (inferredDType inf) shape strides, layout)).
Proof.
  intros Hinf. unfold exportBuffer. rewrite Hinf. simpl.
  destruct (inferBuffer_ranks _ _ _ _ Hinf) as [Hs Ht].
  rewrite !NVCV_ASSERT_true; [done | | ]; apply bool_decide_eq_true; unfold layout_rank; lia.
Qed.

(** C6. For a buffer of the export under a requested layout: an error is
    raised if an inferred axis of extent at least 2 is absent from the
    requested layout; an error is raised if two requested axes that the
    inferred layout has do not come in the order of the inferred layout;
    and when the buffer is handed out, it has the requested layout, every
    requested axis that the inferred layout lacks has extent 1 and stride
    0, and every other requested axis has the inferred extent and stride.
    The buffers returned by [ToPyBufferInfo] are the ones handed out this
    way, and the error of the first failing buffer is the error of
    [ToPyBufferInfo]. *)
Theorem requested_layout_rules (imgData : ImageData) (userLayout : TensorLayout)
    (p : Z) (inf : Inferred) :
  inferBuffer imgData (numBuffers imgData) p = Ok inf →
  let find := layout_find (inferredLayout inf) in
  let exported := exportBuffer imgData (Some userLayout) (numBuffers imgData) p in
  ((∃ (i : nat) label, inferredLayout inf !! i = Some label ∧
      2 ≤ zat (inferredShape inf) (Z.of_nat i) ∧ layout_find userLayout label < 0) →
   exported = Throw runtime_error) ∧
  ((∃ (j1 j2 : nat) l1 l2, (j1 < j2)%nat ∧
      userLayout !! j1 = Some l1 ∧ userLayout !! j2 = Some l2 ∧
      0 ≤ find l2 ≤ find l1) →
   exported = Throw runtime_error) ∧
  (∀ b layout, exported = Ok (b, layout) →
     layout = userLayout ∧
     ∀ (j : nat) label, userLayout !! j = Some label →
       (find label < 0 → bi_shape b !! j = Some 1 ∧ bi_strides b !! j = Some 0) ∧
       (0 ≤ find label →
          bi_shape b !! j = Some (zat (inferredShape inf) (find label)) ∧
          bi_strides b !! j = Some (zat (inferredStrides inf) (find label)))) ∧
  (∀ bufs (i : nat) b layout,
     ToPyBufferInfo imgData (Some userLayout) = Ok bufs →
     p = Z.of_nat i → bufs !! i = Some (b, layout) →
     exported = Ok (b, layout)) ∧
  (∀ e, exported = Throw e →
     0 ≤ p < numBuffers imgData → 1 ≤ img_numPlanes imgData → isImageLayout userLayout = true →
     (∀ q, 0 ≤ q < p →
        returns (exportBuffer imgData (Some userLayout) (numBuffers imgData) q)) →
     ToPyBufferInfo imgData (Some userLayout) = Throw e).
Proof.
  intros Hinf find exported. subst exported.
  rewrite (exportBuffer_Some _ _ _ _ _ Hinf).
  destruct (applyLayout_Some userLayout inf)
    as [[Hmiss Happly]|[(Hnot & Hord & Happly)|(Hnot & Hord & Happly)]];
    rewrite Happly; simpl.
  - split; [done|]. split; [done|]. split; [done|]. split.
    + intros bufs i b layout Hexp -> Hi.
      apply ToPyBufferInfo_Ok in Hexp as [[_ ->]|[_ Hall]]; [done|].
      destruct (Forall2_lookup_r _ _ _ _ _ Hall Hi) as (q & Hq & Hb).
      apply lookup_seqZ in Hq as [-> _]. rewrite Z.add_0_l in Hb.
      rewrite (exportBuffer_Some _ _ _ _ _ Hinf), Happly in Hb. done.
    + intros e [= <-] Hp Hnp Himg Hbefore. unfold ToPyBufferInfo.
      destruct (decide (img_numPlanes imgData < 1)); [lia|].
      rewrite Himg. simpl.
      apply (mapM_Throw _ _ (Z.to_nat p) p).
      * apply lookup_seqZ. lia.
      * by rewrite (exportBuffer_Some _ _ _ _ _ Hinf), Happly.
      * intros j q Hj Hq. apply lookup_seqZ in Hq as [-> _]. apply Hbefore. lia.
  - split; [done|]. split; [done|]. split; [done|]. split.
    + intros bufs i b layout Hexp -> Hi.
      apply ToPyBufferInfo_Ok in Hexp as [[_ ->]|[_ Hall]]; [done|].
      destruct (Forall2_lookup_r _ _ _ _ _ Hall Hi) as (q & Hq & Hb).
      apply lookup_seqZ in Hq as [-> _]. rewrite Z.add_0_l in Hb.
      rewrite (exportBuffer_Some _ _ _ _ _ Hinf), Happly in Hb. done.
    + intros e [= <-] Hp Hnp Himg Hbefore. unfold ToPyBufferInfo.
      destruct (decide (img_numPlanes imgData < 1)); [lia|].
      rewrite Himg. simpl.
      apply (mapM_Throw _ _ (Z.to_nat p) p).
      * apply lookup_seqZ. lia.
      * by rewrite (exportBuffer_Some _ _ _ _ _ Hinf), Happly.
      * intros j q Hj Hq. apply lookup_seqZ in Hq as [-> _]. apply Hbefore. lia.
  - destruct (increasingFrom_order inf userLayout (-1) Hord) as [_ Hpair].
    split; [intros Hmiss; by destruct (Hnot Hmiss)|].
    split.
    { intros (j1 & j2 & l1 & l2 & Hlt & Hl1 & Hl2 & Hf).
      specialize (Hpair j1 j2 l1 l2 Hlt Hl1 Hl2). fold find in Hpair.
      pose proof (layout_find_bounds (inferredLayout inf) l1). fold find in H0. lia. }
    split.
    { intros b layout [= <- <-]. split; [done|]. intros j label Hj. simpl.
      rewrite !list_lookup_fmap, Hj. simpl. unfold userDim. fold find.
      split; intros Hf; case_decide; (done || lia). }
    split.
    + intros bufs i b layout Hexp -> Hi.
      apply ToPyBufferInfo_Ok in Hexp as [[_ ->]|[_ Hall]]; [done|].
      destruct (Forall2_lookup_r _ _ _ _ _ Hall Hi) as (q & Hq & Hb).
      apply lookup_seqZ in Hq as [-> _]. rewrite Z.add_0_l in Hb.
      rewrite (exportBuffer_Some _ _ _ _ _ Hinf), Happly in Hb. done.
    + done.
Qed.

End RequestedLayout.

Lemma requested_layout_rules_witness :
  exportBuffer Samples.rgb_5x2 (Some layout_HW) 1 0 = Throw runtime_error ∧
  ∃ b, exportBuffer Samples.rgb_5x2 (Some ["N"; "H"; "W"; "C"]%char) 1 0
         = Ok (b, ["N"; "H"; "W"; "C"]%char) ∧
       bi_shape b !! 0%nat = Some 1 ∧ bi_strides b !! 0%nat = Some 0.
Proof.
  split.
  - edestruct (requested_layout_rules (H := reference_helpers) Samples.rgb_5x2 layout_HW 0)
      as (Hmiss & _); [vm_compute; reflexivity|].
    apply Hmiss. exists 2%nat, "C"%char.
    split; [reflexivity|]. split; [by vm_compute | reflexivity].
  - edestruct (requested_layout_rules (H := reference_helpers) Samples.rgb_5x2
                 ["N"; "H"; "W"; "C"]%char 0) as (_ & _ & Hout & _); [vm_compute; reflexivity|].
    eexists. split; [vm_compute; reflexivity|].
    edestruct Hout as [_ Hdims]; [vm_compute; reflexivity|].
    destruct (Hdims 0%nat "N"%char) as [Hsynth _]; [reflexivity|].
    apply Hsynth. reflexivity.
Defined.

(* --------------------------------------------------------------------- *)
(** ** Export followed by ingestion *)
(* --------------------------------------------------------------------- *)

Lemma quot_exact (x e : Z) : 1 ≤ e → 0 ≤ x → x `rem` e = 0 → x `quot` e * e = x.
Proof. intros He Hx Hrem. pose proof (Z.quot_rem' x e). lia. Qed.

(** The switch on a rank-3 tensor. *)
Lemma shapeStridesLayout_rank3 fmt p ptr dev d s0 s1 s2 t0 t1 t2 :
  let tensor := mkDLTensor ptr dev 3 d [s0; s1; s2] [t0; t1; t2] in
  let esb := elemStrideBytes tensor in
  shapeStridesLayout fmt p tensor =
    Ok (mkExtent4 1 s0 s1 s2,
        mkExtent4 (s64 (s0 * s64 (t0 * esb))) (s64 (t0 * esb)) (s64 (t1 * esb)) (s64 (t2 * esb)),
        if decide (fmt ≠ FMT_NONE) then
          if decide (planeNumChannels fmt p = s2) then TENSOR_NHWC else TENSOR_NCHW
        else if decide (s2 ≤ 4) then TENSOR_NHWC else TENSOR_NCHW).
Proof. reflexivity. Qed.

(** The switch on a rank-2 tensor. *)
Lemma shapeStridesLayout_rank2 fmt p ptr dev d s0 s1 t0 t1 :
  let tensor := mkDLTensor ptr dev 2 d [s0; s1] [t0; t1] in
  let esb := elemStrideBytes tensor in
  shapeStridesLayout fmt p tensor =
    Ok (mkExtent4 1 1 s0 s1,
        mkExtent4 (s64 (s64 (s0 * t0) * esb)) (s64 (s64 (s0 * t0) * esb))
                  (s64 (t0 * esb)) (s64 (t1 * esb)),
        TENSOR_NCHW).
Proof. reflexivity. Qed.

Section RoundTrip.
Context `{External}.

(** A buffer the switch makes channel-last passes the checks when its outer
    strides are positive, its innermost stride is the element size and the
    channel count stays within 4. *)
Lemma extractBuffer_channelLast fmt p tensor cur shape strides :
  shapeStridesLayout fmt p tensor = Ok (shape, strides, TENSOR_NHWC) →
  0 < e0 strides → 0 < e1 strides → 0 < e2 strides →
  e3 strides = elemStrideBytes tensor →
  let np := s32 (e0 shape) in
  let nc := s32 (e3 shape) in
  let cur' := s32 (cur + s32 (np * nc)) in
  cur' ≤ 4 → np ≤ 4 → nc ≤ 4 →
  extractBuffer fmt p tensor cur =
    Ok (mkBufferImageInfo np (mkSize2D (s32 (e2 shape)) (s32 (e1 shape))) nc true
          (e0 strides) (e1 strides) (ToNVCVDataType (dl_dtype tensor)) (dl_data tensor),
        cur').
Proof.
  intros Hs H0 H1 H2 H3 np nc cur' Hcur Hnp Hnc.
  unfold extractBuffer. rewrite Hs. simpl.
  rewrite (bool_decide_eq_false_2 (e0 strides ≤ 0 ∨ e1 strides ≤ 0 ∨ e2 strides ≤ 0)) by lia.
  rewrite (bool_decide_eq_false_2 (e3 strides ≠ elemStrideBytes tensor))
    by (intros Hc; by destruct Hc).
  simpl. fold np nc cur'.
  rewrite (bool_decide_eq_false_2 (cur' > 4)) by lia. simpl.
  rewrite (bool_decide_eq_true_2 (np ≤ 4)) by done. simpl.
  rewrite (bool_decide_eq_true_2 (nc ≤ 4)) by done. simpl.
  reflexivity.
Qed.

(** A buffer the switch makes channel-first must also have unpadded rows. *)
Lemma extractBuffer_channelFirst fmt p tensor cur shape strides :
  shapeStridesLayout fmt p tensor = Ok (shape, strides, TENSOR_NCHW) →
  0 < e0 strides → 0 < e1 strides → 0 < e2 strides →
  e3 strides = elemStrideBytes tensor →
  e2 strides = s64 (elemStrideBytes tensor * s32 (e3 shape)) →
  let nc := s32 (e1 shape) in
  let cur' := s32 (cur + s32 (nc * nc)) in
  cur' ≤ 4 → nc ≤ 4 →
  extractBuffer fmt p tensor cur =
    Ok (mkBufferImageInfo nc (mkSize2D (s32 (e3 shape)) (s32 (e2 shape))) nc false
          (e1 strides) (e2 strides) (ToNVCVDataType (dl_dtype tensor)) (dl_data tensor),
        cur').
Proof.
  intros Hs H0 H1 H2 H3 Hrow nc cur' Hcur Hnc.
  unfold extractBuffer. rewrite Hs. simpl.
  rewrite (bool_decide_eq_false_2 (e0 strides ≤ 0 ∨ e1 strides ≤ 0 ∨ e2 strides ≤ 0)) by lia.
  rewrite (bool_decide_eq_false_2 (e3 strides ≠ elemStrideBytes tensor))
    by (intros Hc; by destruct Hc).
  simpl. unfold shapeNumCols. simpl.
  rewrite (bool_decide_eq_false_2 (ext strides 2 ≠ _)) by (intros Hc; by destruct Hc).
  simpl. fold nc cur'.
  rewrite (bool_decide_eq_false_2 (cur' > 4)) by lia. simpl.
  rewrite (bool_decide_eq_true_2 (nc ≤ 4)) by done. simpl.
  reflexivity.
Qed.

(** A buffer with padded rows that the switch makes channel-first is
    rejected. *)
Lemma extractBuffer_padded fmt p tensor cur shape strides :
  shapeStridesLayout fmt p tensor = Ok (shape, strides, TENSOR_NCHW) →
  0 < e0 strides → 0 < e1 strides → 0 < e2 strides →
  e3 strides = elemStrideBytes tensor →
  e2 strides ≠ s64 (elemStrideBytes tensor * s32 (e3 shape)) →
  extractBuffer fmt p tensor cur = Throw invalid_argument.
Proof.
  intros Hs H0 H1 H2 H3 Hrow.
  unfold extractBuffer. rewrite Hs. simpl.
  rewrite (bool_decide_eq_false_2 (e0 strides ≤ 0 ∨ e1 strides ≤ 0 ∨ e2 strides ≤ 0)) by lia.
  rewrite (bool_decide_eq_false_2 (e3 strides ≠ elemStrideBytes tensor))
    by (intros Hc; by destruct Hc).
  simpl. unfold shapeNumCols. simpl.
  by rewrite (bool_decide_eq_true_2 (ext strides 2 ≠ _)).
Qed.

(** Ingesting the descriptor of a plane exported as an HWC buffer. *)
Lemma extractBuffer_hwc (fmt : ImageFormat) (p : Z) (pl : ImagePlaneStrided) (dev : DLDevice)
    (cur : Z) :
  let T := planeDataType fmt p in
  let c := planeNumChannels fmt p in
  fmt ≠ FMT_NONE →
  exportedNumChannels fmt p = c →
  descriptorFaithful T (dt_channelType T 0) c →
  pl_rowStride pl `rem` dt_strideBytes (dt_channelType T 0) = 0 →
  1 ≤ width pl < 2 ^ 31 → 1 ≤ height pl < 2 ^ 31 → 1 ≤ pl_rowStride pl < 2 ^ 31 →
  1 ≤ c → 0 ≤ cur → cur + c ≤ 4 →
  extractBuffer fmt p (DLPackTensorOf (hwcDescriptor fmt p pl) dev) cur =
    Ok (hwcInfo fmt p pl, cur + c).
Proof.
  intros T c Hfmt Hc [Helem Hpos Hpixel Hsmall Hrepack] Hrem Hw Hh Hrs Hc1 Hcur Hsum.
  set (e := dt_strideBytes (dt_channelType T 0)) in *.
  assert (DLPackTensorOf (hwcDescriptor fmt p pl) dev =
          mkDLTensor (basePtr pl) dev 3 (DLDataTypeOf (dt_channelType T 0))
            [height pl; width pl; c] [pl_rowStride pl `quot` e; c; 1]) as ->.
  { unfold hwcDescriptor, DLPackTensorOf. simpl. fold T. rewrite Hc. fold e. rewrite Hpixel.
    rewrite (Z.quot_mul c e) by lia.
    replace ((c * e) `quot` c) with e by (rewrite (Z.mul_comm c e), Z.quot_mul; lia).
    by rewrite (Z.quot_same e) by lia. }
  pose proof (quot_exact (pl_rowStride pl) e) as Hexact.
  assert (e ≤ pl_rowStride pl) as Hle.
  { destruct (decide (pl_rowStride pl `quot` e = 0)) as [Hz|Hz]; [rewrite Hz in Hexact; lia|].
    pose proof (Z.quot_pos (pl_rowStride pl) e). nia. }
  set (tensor := mkDLTensor _ _ _ _ _ _).
  assert (elemStrideBytes tensor = e) as Hesb by exact Helem.
  assert (shapeStridesLayout fmt p tensor =
          Ok (mkExtent4 1 (height pl) (width pl) c,
              mkExtent4 (height pl * pl_rowStride pl) (pl_rowStride pl) (c * e) e,
              TENSOR_NHWC)) as Hs.
  { unfold tensor. rewrite shapeStridesLayout_rank3. fold tensor. rewrite Hesb.
    rewrite (decide_True (P := fmt ≠ FMT_NONE)) by done.
    rewrite (decide_True (P := planeNumChannels fmt p = c)) by done.
    rewrite Hexact by lia. rewrite Z.mul_1_l.
    rewrite (s64_id (pl_rowStride pl)) by lia.
    rewrite (s64_id (height pl * pl_rowStride pl)) by nia.
    rewrite (s64_id (c * e)) by lia. rewrite (s64_id e) by lia.
    reflexivity. }
  rewrite (extractBuffer_channelLast fmt p tensor cur _ _ Hs); simpl;
    rewrite ?(s32_id 1), ?(s32_id c), ?Z.mul_1_l, ?(s32_id c), ?(s32_id (cur + c)),
      ?(s32_id (width pl)), ?(s32_id (height pl)) by lia; try lia; try nia.
  reflexivity.
Qed.

(** Ingesting the descriptor of a one-channel plane exported as an HW
    buffer whose rows are not padded. *)
Lemma extractBuffer_hw (fmt : ImageFormat) (p : Z) (pl : ImagePlaneStrided) (T : DataType)
    (dev : DLDevice) :
  descriptorFaithful T T 1 →
  pl_rowStride pl = dt_strideBytes T * width pl →
  1 ≤ width pl < 2 ^ 31 → 1 ≤ height pl < 2 ^ 31 → 1 ≤ pl_rowStride pl < 2 ^ 31 →
  extractBuffer fmt p
    (DLPackTensorOf (mkBufferInfo (basePtr pl) T [height pl; width pl]
                       [pl_rowStride pl; dt_strideBytes T]) dev) 0 =
    Ok (mkBufferImageInfo 1 (mkSize2D (width pl) (height pl)) 1 false
          (height pl * pl_rowStride pl) (pl_rowStride pl)
          (ToNVCVDataType (DLDataTypeOf T)) (basePtr pl), 1).
Proof.
  intros [Helem Hpos Hpixel Hsmall Hrepack] Hpacked Hw Hh Hrs.
  set (e := dt_strideBytes T) in *.
  assert (DLPackTensorOf (mkBufferInfo (basePtr pl) T [height pl; width pl]
                            [pl_rowStride pl; e]) dev =
          mkDLTensor (basePtr pl) dev 2 (DLDataTypeOf T)
            [height pl; width pl] [width pl; 1]) as ->.
  { unfold DLPackTensorOf. simpl. fold e. rewrite Hpacked.
    rewrite (Z.mul_comm e (width pl)), (Z.quot_mul (width pl) e) by lia.
    by rewrite (Z.quot_same e) by lia. }
  set (tensor := mkDLTensor _ _ _ _ _ _).
  assert (elemStrideBytes tensor = e) as Hesb by exact Helem.
  assert (shapeStridesLayout fmt p tensor =
          Ok (mkExtent4 1 1 (height pl) (width pl),
              mkExtent4 (height pl * pl_rowStride pl) (height pl * pl_rowStride pl)
                        (pl_rowStride pl) e,
              TENSOR_NCHW)) as Hs.
  { unfold tensor. rewrite shapeStridesLayout_rank2. fold tensor. rewrite Hesb.
    rewrite Z.mul_1_l, (Z.mul_comm (width pl) e), <- Hpacked.
    rewrite (s64_id (height pl * width pl)) by nia.
    replace (height pl * width pl * e) with (height pl * pl_rowStride pl) by lia.
    rewrite (s64_id (pl_rowStride pl)) by lia.
    rewrite (s64_id (height pl * pl_rowStride pl)) by nia.
    rewrite (s64_id e) by lia.
    reflexivity. }
  rewrite (extractBuffer_channelFirst fmt p tensor 0 _ _ Hs); simpl.
  all: rewrite ?(s32_id (width pl)), ?(s32_id (height pl)) by lia.
  all: rewrite ?Hesb.
  all: change (s32 1) with 1.
  all: change (s32 (0 + s32 (1 * 1))) with 1.
  - reflexivity.
  - nia.
  - nia.
  - lia.
  - reflexivity.
  - rewrite <- Hpacked, s64_id; lia.
  - lia.
  - lia.
Qed.

(** A buffer that holds one plane adds that plane and its repacked type. *)
Lemma fillBuffer_one (b : BufferImageInfo) (T : DataType)
    (planes : list ImagePlaneStrided) (types : list DataType) :
  numPlanes b = 1 →
  (length planes ≤ 4)%nat →
  MakePackedType (dtype b) (if isChannelLast b then numChannels b else 1) = Ok T →
  fillBuffer (planes, types) b =
    Ok (planes ++ [mkPlane (sz_w (size b)) (sz_h (size b)) (s32 (rowStride b)) (data b)],
        types ++ [T]).
Proof.
  intros Hnp Hlen Htype. unfold fillBuffer. rewrite Hnp.
  change (seqZ 0 1) with [0]. rewrite foldM_cons. unfold fillPlane.
  rewrite NVCV_ASSERT_true by (apply bool_decide_eq_true; lia).
  rewrite Htype. simpl. by rewrite Z.mul_0_r, Z.add_0_r.
Qed.

End RoundTrip.

Lemma indexedFrom_cons {A} (k : Z) (a : A) (l : list A) :
  indexedFrom k (a :: l) = (k, a) :: indexedFrom (k + 1) l.
Proof.
  unfold indexedFrom. simpl length. rewrite seqZ_cons by lia. simpl.
  do 3 f_equal; lia.
Qed.

Lemma indexedFrom_lookup {A} (k : Z) (l : list A) (i : nat) :
  indexedFrom k l !! i = (λ a, (k + Z.of_nat i, a)) <$> l !! i.
Proof.
  revert k i. induction l as [|a l IH]; intros k i; [done|].
  rewrite indexedFrom_cons. destruct i as [|i]; simpl; [by rewrite Z.add_0_r|].
  rewrite IH. destruct (l !! i); simpl; [|done]. do 2 f_equal. lia.
Qed.

Lemma seqZ_succ_fmap {B} (f : Z → B) (k : Z) (n : nat) :
  f <$> seqZ k (Z.of_nat (S n)) = f k :: (f <$> seqZ (k + 1) (Z.of_nat n)).
Proof.
  rewrite seqZ_cons by lia. simpl. do 3 f_equal; lia.
Qed.

Section RoundTripLoops.
Context `{External}.

(** Ingestion of the descriptors of planes exported one HWC buffer each. *)
Lemma extractLoop_hwc (fmt : ImageFormat) (dev : DLDevice) (rest : list ImagePlaneStrided) :
  ∀ k cur,
    fmt ≠ FMT_NONE →
    0 ≤ cur →
    cur + totalChannels (planeDataType fmt <$> seqZ k (Z.of_nat (length rest))) ≤ 4 →
    (∀ (i : nat) pl, rest !! i = Some pl → hwcPlaneOk fmt (k + Z.of_nat i) pl) →
    extractLoop fmt
      ((λ '(p, pl), DLPackTensorOf (hwcDescriptor fmt p pl) dev) <$> indexedFrom k rest) k cur =
      Ok ((λ '(p, pl), hwcInfo fmt p pl) <$> indexedFrom k rest).
Proof.
  induction rest as [|pl rest IH]; intros k cur Hfmt Hcur Hsum Hok; [done|].
  rewrite indexedFrom_cons, !fmap_cons. simpl extractLoop.
  simpl length in Hsum. rewrite seqZ_succ_fmap in Hsum. simpl in Hsum.
  change (dt_numChannels (planeDataType fmt k)) with (planeNumChannels fmt k) in Hsum.
  destruct (Hok 0%nat pl eq_refl) as (Hc & Hdf & Hrem & Hw & Hh & Hrs & Hc1).
  rewrite Z.add_0_r in Hc, Hdf, Hrem, Hc1.
  pose proof (totalChannels_ge_length (planeDataType fmt <$> seqZ (k + 1) (Z.of_nat (length rest)))) as Hge.
  assert (0 ≤ totalChannels (planeDataType fmt <$> seqZ (k + 1) (Z.of_nat (length rest)))) as Hnn.
  { clear. induction (planeDataType fmt <$> _) as [|t l IH]; simpl; [lia|].
    pose proof (dt_numChannels_bounds t). lia. }
  rewrite extractBuffer_hwc by (done || lia). simpl.
  rewrite IH; [done | done | lia | lia |].
  intros i pl' Hi. replace (k + 1 + Z.of_nat i) with (k + Z.of_nat (S i)) by lia.
  by apply Hok.
Qed.

(** The planes and types obtained from the ingested buffers. *)
Lemma fillLoop_hwc (fmt : ImageFormat) (rest : list ImagePlaneStrided) :
  ∀ k accP accT,
    (length accP + length rest ≤ 5)%nat →
    (∀ (i : nat) pl, rest !! i = Some pl → hwcPlaneOk fmt (k + Z.of_nat i) pl) →
    foldM fillBuffer (accP, accT) ((λ '(p, pl), hwcInfo fmt p pl) <$> indexedFrom k rest) =
      Ok (accP ++ rest, accT ++ (planeDataType fmt <$> seqZ k (Z.of_nat (length rest)))).
Proof.
  induction rest as [|pl rest IH]; intros k accP accT Hlen Hok.
  - simpl. by rewrite !app_nil_r.
  - rewrite indexedFrom_cons, fmap_cons, foldM_cons.
    destruct (Hok 0%nat pl eq_refl) as (Hc & [Helem Hpos Hpixel Hsmall Hrepack] & Hrem & Hw & Hh & Hrs & Hc1).
    rewrite Z.add_0_r in Hrepack.
    rewrite (fillBuffer_one _ (planeDataType fmt k)); [|done|simpl in Hlen; lia|exact Hrepack].
    simpl mbind. simpl length. rewrite seqZ_succ_fmap.
    rewrite IH.
    + simpl. rewrite (s32_id (pl_rowStride pl)) by lia.
      rewrite <- !app_assoc. simpl. by destruct pl.
    + rewrite length_app. simpl in *. lia.
    + intros i pl' Hi. replace (k + 1 + Z.of_nat i) with (k + Z.of_nat (S i)) by lia.
      by apply Hok.
Qed.

End RoundTripLoops.

Lemma packNumChannels_nonneg (p : Packing) : 0 ≤ packNumChannels p.
Proof. unfold packNumChannels. lia. Qed.

(** A plane of one channel is exported with one channel. *)
Lemma exportedNumChannels_one (fmt : ImageFormat) (p : Z) :
  planeNumChannels fmt p = 1 → exportedNumChannels fmt p = 1.
Proof.
  unfold exportedNumChannels, planeNumChannels. intros Hc.
  case_decide as Hp; [|done]. destruct Hp as [Hp|Hp]; rewrite Hp in Hc; by vm_compute in Hc.
Qed.

Section RoundTripTheorem.
Context `{External}.

Lemma plane_lookup (img : ImageData) (i : nat) (pl : ImagePlaneStrided) :
  img_planes img !! i = Some pl → plane img (Z.of_nat i) = pl.
Proof. intros Hi. unfold plane. by rewrite at_index_of_nat, Hi. Qed.

(** The buffer of plane [i] when the planes are exported as HWC buffers. *)
Lemma exportBuffer_hwc (img : ImageData) (nb : Z) (i : nat) (pl : ImagePlaneStrided) :
  let fmt := img_format img in
  img_planes img !! i = Some pl →
  (nb = 1 ∧ img_numPlanes img = 1 ∧ fmt_numChannels fmt ≠ 1 ∧
   2 ≤ exportedNumChannels fmt (Z.of_nat i))
  ∨ (nb ≠ 1 ∧ 2 ≤ img_numPlanes img ∧ img_numPlanes img = nb ∧
     exportedNumChannels fmt (Z.of_nat i) ≠ 0) →
  exportBuffer img None nb (Z.of_nat i) = Ok (hwcDescriptor fmt (Z.of_nat i) pl, layout_HWC).
Proof.
  intros fmt Hi Hcase. unfold exportBuffer, inferBuffer. fold fmt.
  rewrite (plane_lookup _ _ _ Hi).
  destruct Hcase as [(-> & Hnp & Hch & Hc)|(Hnb & Hnp & Hnpb & Hc)].
  - rewrite decide_True by done. rewrite decide_False by done. rewrite decide_True by done.
    rewrite NVCV_ASSERT_true by (by apply bool_decide_eq_true). by simpl.
  - rewrite decide_False by done.
    rewrite !NVCV_ASSERT_true by (by apply bool_decide_eq_true). by simpl.
Qed.

Lemma ToPyBufferInfo_hwc (img : ImageData) :
  let fmt := img_format img in
  1 ≤ img_numPlanes img →
  numBuffers img = img_numPlanes img →
  (∀ (i : nat) pl, img_planes img !! i = Some pl →
     exportBuffer img None (numBuffers img) (Z.of_nat i)
       = Ok (hwcDescriptor fmt (Z.of_nat i) pl, layout_HWC)) →
  ToPyBufferInfo img None =
    Ok ((λ '(p, pl), (hwcDescriptor fmt p pl, layout_HWC)) <$> indexedFrom 0 (img_planes img)).
Proof.
  intros fmt Hnp Hnb Hbufs. unfold ToPyBufferInfo.
  rewrite decide_False by lia. simpl. apply mapM_Ok.
  apply Forall2_same_length_lookup_2.
  - rewrite length_seqZ, length_fmap. unfold indexedFrom.
    rewrite length_zip, length_seqZ, Hnb. unfold img_numPlanes. lia.
  - intros i p b Hp Hb. apply lookup_seqZ in Hp as [-> _]. rewrite Z.add_0_l.
    rewrite list_lookup_fmap, indexedFrom_lookup in Hb.
    destruct (img_planes img !! i) as [pl|] eqn:Hpl; [|done].
    simpl in Hb. injection Hb as <-. rewrite Z.add_0_l. by apply Hbufs.
Qed.

(** The end of the ingestion of a canonical image's own planes. *)
Lemma ingest_finish (img : ImageData) (tensors : list DLTensor) (infos : list BufferImageInfo) :
  canonicalImage img →
  1 ≤ img_numPlanes img →
  ExtractBufferImageInfo tensors (img_format img) = Ok infos →
  foldM fillBuffer ([], []) infos = Ok (img_planes img, planeTypes img) →
  FillNVCVImageBufferStrided tensors (img_format img) = Ok img.
Proof.
  intros [Hfmt Hch Hplanes Hlayout] Hnp Hextract Hfill.
  assert (Forall (λ t, 1 ≤ dt_numChannels t) (planeTypes img)) as Hch1.
  { apply Forall_forall. intros t Ht. unfold planeTypes in Ht.
    apply list_elem_of_fmap in Ht as (p & -> & Hp). apply elem_of_seqZ in Hp.
    destruct (lookup_lt_is_Some_2 (img_planes img) (Z.to_nat p)) as [pl Hpl].
    { unfold img_numPlanes in Hp. lia. }
    destruct (Hplanes _ _ Hpl) as [_ _ _ Hc _].
    by replace (Z.of_nat (Z.to_nat p)) with p in Hc by lia. }
  pose proof (totalChannels_ge_length _ Hch1) as Hge.
  assert (Z.of_nat (length (planeTypes img)) = img_numPlanes img) as Hlen.
  { unfold planeTypes, img_numPlanes. rewrite length_fmap, length_seqZ. lia. }
  destruct (InferImageFormat_returns (planeTypes img) (planeDataType (img_format img) 0))
    as [inferred Hinf]; [| lia | lia | |].
  { unfold planeTypes. rewrite seqZ_cons by lia. done. }
  { apply Forall_forall. intros t Ht. unfold planeTypes in Ht.
    by apply list_elem_of_fmap in Ht as (p & -> & _). }
  assert (img_planes img ≠ []) as Hne.
  { unfold img_numPlanes in Hnp. destruct (img_planes img); [simpl in Hnp; lia | done]. }
  rewrite (Fill_after_inference _ _ _ _ _ _ Hextract Hfill Hne Hinf)
    by (right; by apply Hlayout).
  rewrite decide_True by done.
  destruct (checkPlaneSize_loop (img_format img)
              (mkSize2D (width (default (mkPlane 0 0 0 0) (img_planes img !! 0%nat)))
                        (height (default (mkPlane 0 0 0 0) (img_planes img !! 0%nat))))
              (img_planes img) (seqZ 0 (Z.of_nat (length (img_planes img)))))
    as [[_ ->]|[Hex _]]; [by destruct img|].
  exfalso. apply Exists_exists in Hex as (p & Hp & Hbad). apply Hbad.
  apply elem_of_seqZ in Hp.
  destruct (lookup_lt_is_Some_2 (img_planes img) (Z.to_nat p)) as [pl Hpl]; [lia|].
  destruct (Hplanes _ _ Hpl) as [_ _ _ _ Hsize].
  replace (Z.of_nat (Z.to_nat p)) with p in Hsize by lia.
  unfold planeSizeOk. replace p with (Z.of_nat (Z.to_nat p)) at 1 3 by lia.
  rewrite at_index_of_nat, Hpl. simpl.
  assert (plane img 0 = default (mkPlane 0 0 0 0) (img_planes img !! 0%nat)) as Hp0
    by reflexivity.
  rewrite Hp0 in Hsize. by rewrite Hsize.
Qed.

(** An image that is exported as channel-last buffers, or as one HW buffer
    with unpadded rows, comes back as it was. *)
Lemma roundtrip_same_image (img : ImageData) (dev : DLDevice) :
  canonicalImage img →
  exportsChannelLast img ∨ exportsPackedHW img →
  exportThenIngest img dev = Ok img.
Proof.
  intros Hcanon Hclass.
  pose proof Hcanon as [Hfmt Hch Hplanes Hlayout].
  set (fmt := img_format img) in *.
  assert (Z.of_nat (length (planeTypes img)) = img_numPlanes img) as Hlen.
  { unfold planeTypes, img_numPlanes. rewrite length_fmap, length_seqZ. lia. }
  assert (img_numPlanes img ≤ 4) as Hnp4.
  { rewrite <- Hlen. etrans; [|exact Hch]. apply totalChannels_ge_length.
    apply Forall_forall. intros t Ht. unfold planeTypes in Ht.
    apply list_elem_of_fmap in Ht as (p & -> & Hp). apply elem_of_seqZ in Hp.
    destruct (lookup_lt_is_Some_2 (img_planes img) (Z.to_nat p)) as [pl Hpl].
    { unfold img_numPlanes in Hp. lia. }
    destruct (Hplanes _ _ Hpl) as [_ _ _ Hc _].
    by replace (Z.of_nat (Z.to_nat p)) with p in Hc by lia. }
  unfold exportThenIngest.
  destruct Hclass as [[Hshape Htypes]|(Hnp & Hch1 & Hdf & Hpacked)].
  - (* channel-last buffers *)
    fold fmt in Hshape, Htypes.
    assert (1 ≤ img_numPlanes img ∧ numBuffers img = img_numPlanes img) as [Hnp Hnb].
    { unfold numBuffers in *. destruct Hshape as [(Hone & _)|Hmany].
      - split; [lia|]. unfold singleBuffer. rewrite Hone.
        by destruct (singleBufferLoop _ _).
      - destruct (singleBuffer img) eqn:Hsb; [done|]. split; [|done].
        unfold singleBuffer in Hsb.
        destruct (decide (1 ≤ img_numPlanes img)); [done|].
        rewrite seqZ_nil in Hsb by lia. done. }
    assert (∀ (i : nat) pl, img_planes img !! i = Some pl →
              hwcPlaneOk fmt (0 + Z.of_nat i) pl) as Hok.
    { intros i pl Hi. rewrite Z.add_0_l.
      destruct (Htypes i pl Hi) as (Hc & Hdf & Hrem).
      destruct (Hplanes i pl Hi) as [Hw Hh Hrs Hc1 _].
      unfold hwcPlaneOk. split_and!; (done || lia). }
    rewrite ToPyBufferInfo_hwc; [|done|done|].
    2:{ intros i pl Hi. apply exportBuffer_hwc; [done|]. fold fmt.
        destruct (Htypes i pl Hi) as (Hc & _ & _).
        destruct (Hplanes i pl Hi) as [_ _ _ Hc1 _]. fold fmt in Hc1.
        destruct Hshape as [(Hone & Hfc & H2)|Hmany].
        - left. assert (i = 0%nat) as ->.
          { apply lookup_lt_Some in Hi. unfold img_numPlanes in Hone. lia. }
          by rewrite Hnb.
        - right. repeat split; try done; try lia. }
    simpl mbind. fold fmt. rewrite <- list_fmap_compose.
    apply (ingest_finish img _ ((λ '(p, pl), hwcInfo fmt p pl) <$> indexedFrom 0 (img_planes img)));
      [done | done | |].
    + unfold ExtractBufferImageInfo. fold fmt.
      rewrite <- (extractLoop_hwc fmt dev (img_planes img) 0 0); [|done|done| |done].
      * f_equal. apply list_fmap_ext. by intros ? [p pl] _.
      * exact Hch.
    + rewrite (fillLoop_hwc fmt (img_planes img) 0 [] []); [done| |done].
      unfold img_numPlanes in Hnp4. simpl. lia.
  - (* one HW buffer with unpadded rows *)
    fold fmt in Hnp, Hch1, Hdf, Hpacked.
    destruct (img_planes img) as [|pl [|? ?]] eqn:Hpls;
      unfold img_numPlanes in Hnp; rewrite Hpls in Hnp; simpl in Hnp; try lia.
    assert (plane img 0 = pl) as Hp0 by (unfold plane; by rewrite Hpls).
    rewrite Hp0 in Hpacked.
    destruct (Hplanes 0%nat pl) as [Hw Hh Hrs _ _]; [done|].
    assert (ToPyBufferInfo img None =
            Ok [(mkBufferInfo (basePtr pl) (planeDataType fmt 0) [height pl; width pl]
                   [pl_rowStride pl; dt_strideBytes (planeDataType fmt 0)], layout_HW)]) as ->.
    { unfold ToPyBufferInfo, numBuffers, singleBuffer, img_numPlanes. rewrite Hpls. simpl.
      unfold exportBuffer, inferBuffer, img_numPlanes. rewrite Hpls, Hp0. fold fmt. simpl.
      rewrite decide_True by done. change (Z.of_nat 0 + 0) with 0. by rewrite Hp0. }
    simpl mbind. simpl map.
    apply (ingest_finish img _
             [mkBufferImageInfo 1 (mkSize2D (width pl) (height pl)) 1 false
                (height pl * pl_rowStride pl) (pl_rowStride pl)
                (ToNVCVDataType (DLDataTypeOf (planeDataType fmt 0))) (basePtr pl)]);
      [done | unfold img_numPlanes; rewrite Hpls; simpl; lia | |].
    + unfold ExtractBufferImageInfo. simpl extractLoop. fold fmt.
      by rewrite (extractBuffer_hw fmt 0 pl (planeDataType fmt 0) dev).
    + simpl foldM.
      rewrite (fillBuffer_one _ (planeDataType fmt 0)); [|done|simpl; lia|by destruct Hdf].
      simpl. rewrite (s32_id (pl_rowStride pl)) by lia.
      unfold planeTypes, img_numPlanes. rewrite Hpls. simpl. by destruct pl.
Qed.

(** What the export makes of two coalesced planes. *)
Lemma ToPyBufferInfo_planarPair (img : ImageData) :
  canonicalImage img →
  img_numPlanes img = 2 → numBuffers img = 1 →
  0 < basePtr (plane img 1) - basePtr (plane img 0) →
  let fmt := img_format img in
  let T := planeDataType fmt 0 in
  ∃ pl0 pl1,
    img_planes img = [pl0; pl1] ∧
    width pl1 = width pl0 ∧ height pl1 = height pl0 ∧ pl_rowStride pl1 = pl_rowStride pl0 ∧
    planeDataType fmt 1 = T ∧ planeNumChannels fmt 0 = 1 ∧
    ToPyBufferInfo img None =
      Ok [(mkBufferInfo (basePtr pl0) T [2; height pl0; width pl0]
             [basePtr pl1 - basePtr pl0; pl_rowStride pl0; dt_strideBytes T], layout_CHW)].
Proof.
  intros [Hfmt Hch Hplanes Hlayout] Hnp Hnb Hps fmt T.
  destruct (img_planes img) as [|pl0 [|pl1 [|? ?]]] eqn:Hpls;
    unfold img_numPlanes in Hnp; rewrite Hpls in Hnp; simpl in Hnp; try lia.
  assert (plane img 0 = pl0) as Hp0 by (unfold plane; by rewrite Hpls).
  assert (plane img 1 = pl1) as Hp1 by (unfold plane; by rewrite Hpls).
  assert (img_numPlanes img = 2) as Hnp2 by (unfold img_numPlanes; by rewrite Hpls).
  assert (singleBuffer img = true) as Hsb.
  { unfold numBuffers in Hnb. destruct (singleBuffer img); [done | lia]. }
  apply singleBuffer_coalescible in Hsb as (Hgeom & Hc & Htype & _); [|lia].
  destruct (Hgeom 1) as (Hw & Hh & Hrs); [lia|]. rewrite Hp0, Hp1 in Hw, Hh, Hrs, Hps.
  destruct (Hplanes 0%nat pl0) as [_ _ _ Hc0 _]; [done|].
  destruct (Hplanes 1%nat pl1) as [_ _ _ Hc1 _]; [done|].
  fold fmt in Hc, Htype, Hc0, Hc1.
  change (Z.of_nat 0) with 0 in Hc0. change (Z.of_nat 1) with 1 in Hc1.
  assert (planeNumChannels fmt 0 = 1) as Hone.
  { change (dt_numChannels (planeDataType fmt 0)) with (planeNumChannels fmt 0) in Hc. lia. }
  exists pl0, pl1. split; [done|]. split; [done|]. split; [done|]. split; [done|].
  split; [apply Htype; lia|]. split; [done|].
  unfold ToPyBufferInfo. rewrite decide_False by lia. simpl. rewrite Hnb.
  change (seqZ 0 1) with [0]. simpl mapM.
  unfold exportBuffer, inferBuffer. fold fmt. rewrite Hnp2, Hp0, Hp1.
  rewrite decide_True by done.
  rewrite decide_False.
  2:{ unfold fmt_numChannels.
      pose proof (packNumChannels_nonneg (planePacking fmt 2)).
      pose proof (packNumChannels_nonneg (planePacking fmt 3)).
      unfold planeNumChannels in *. lia. }
  rewrite decide_False by lia.
  rewrite (exportedNumChannels_one fmt 0 Hone).
  rewrite NVCV_ASSERT_true by (by apply bool_decide_eq_true).
  rewrite NVCV_ASSERT_true by (apply bool_decide_eq_true; lia).
  reflexivity.
Qed.

(** Ingesting the descriptor of two planes exported as one CHW buffer: the
    plane stride comes back as a whole number of elements. *)
Lemma extractBuffer_chw (fmt : ImageFormat) (pl : ImagePlaneStrided) (T : DataType)
    (planeStride : Z) (dev : DLDevice) :
  fmt ≠ FMT_NONE →
  planeNumChannels fmt 0 ≠ width pl →
  descriptorFaithful T T 1 →
  pl_rowStride pl = dt_strideBytes T * width pl →
  1 ≤ width pl < 2 ^ 31 → 1 ≤ height pl < 2 ^ 31 → 1 ≤ pl_rowStride pl < 2 ^ 31 →
  dt_strideBytes T ≤ planeStride < 2 ^ 62 →
  extractBuffer fmt 0
    (DLPackTensorOf (mkBufferInfo (basePtr pl) T [2; height pl; width pl]
                       [planeStride; pl_rowStride pl; dt_strideBytes T]) dev) 0 =
    Ok (mkBufferImageInfo 2 (mkSize2D (width pl) (height pl)) 2 false
          (planeStride `quot` dt_strideBytes T * dt_strideBytes T) (pl_rowStride pl)
          (ToNVCVDataType (DLDataTypeOf T)) (basePtr pl), 4).
Proof.
  intros Hfmt Hwide [Helem Hpos Hpixel Hsmall Hrepack] Hpacked Hw Hh Hrs Hps.
  set (e := dt_strideBytes T) in *.
  assert (DLPackTensorOf (mkBufferInfo (basePtr pl) T [2; height pl; width pl]
                            [planeStride; pl_rowStride pl; e]) dev =
          mkDLTensor (basePtr pl) dev 3 (DLDataTypeOf T)
            [2; height pl; width pl] [planeStride `quot` e; width pl; 1]) as ->.
  { unfold DLPackTensorOf. simpl. fold e. rewrite Hpacked.
    rewrite (Z.mul_comm e (width pl)), (Z.quot_mul (width pl) e) by lia.
    by rewrite (Z.quot_same e) by lia. }
  set (q := planeStride `quot` e).
  assert (1 ≤ q ∧ q * e ≤ planeStride) as [Hq1 Hq2].
  { pose proof (Z.quot_rem' planeStride e) as Hqr.
    pose proof (Z.rem_bound_pos planeStride e ltac:(lia) ltac:(lia)) as Hr.
    fold q in Hqr. split; [|lia].
    destruct (decide (1 ≤ q)); [done|].
    assert (q ≤ 0) by lia. nia. }
  set (tensor := mkDLTensor _ _ _ _ _ _).
  assert (elemStrideBytes tensor = e) as Hesb by exact Helem.
  assert (shapeStridesLayout fmt 0 tensor =
          Ok (mkExtent4 1 2 (height pl) (width pl),
              mkExtent4 (2 * (q * e)) (q * e) (pl_rowStride pl) e,
              TENSOR_NCHW)) as Hs.
  { unfold tensor. rewrite shapeStridesLayout_rank3. fold tensor. rewrite Hesb.
    rewrite (decide_True (P := fmt ≠ FMT_NONE)) by done.
    rewrite (decide_False (P := planeNumChannels fmt 0 = width pl)) by done.
    rewrite Z.mul_1_l, (Z.mul_comm (width pl) e), <- Hpacked.
    rewrite (s64_id (q * e)) by nia.
    rewrite (s64_id (2 * (q * e))) by nia.
    rewrite (s64_id (pl_rowStride pl)) by lia.
    rewrite (s64_id e) by lia.
    reflexivity. }
  rewrite (extractBuffer_channelFirst fmt 0 tensor 0 _ _ Hs); simpl.
  all: rewrite ?(s32_id (width pl)), ?(s32_id (height pl)) by lia.
  all: rewrite ?Hesb.
  all: change (s32 2) with 2.
  all: change (s32 (0 + s32 (2 * 2))) with 4.
  - reflexivity.
  - nia.
  - nia.
  - lia.
  - reflexivity.
  - rewrite <- Hpacked, s64_id; lia.
  - lia.
  - lia.
Qed.

(** One turn of the loop over the planes of a buffer. *)
Lemma fillPlane_ret (b : BufferImageInfo) (T : DataType)
    (planes : list ImagePlaneStrided) (types : list DataType) (p : Z) :
  (length planes ≤ 4)%nat →
  MakePackedType (dtype b) (if isChannelLast b then numChannels b else 1) = Ok T →
  fillPlane b (planes, types) p =
    Ok (planes ++ [mkPlane (sz_w (size b)) (sz_h (size b)) (s32 (rowStride b))
                           (data b + planeStride b * p)],
        types ++ [T]).
Proof.
  intros Hlen Htype. unfold fillPlane.
  rewrite NVCV_ASSERT_true by (apply bool_decide_eq_true; lia).
  by rewrite Htype.
Qed.

(** A channel-first buffer of two planes adds both planes. *)
Lemma fillBuffer_two (b : BufferImageInfo) (T : DataType) :
  numPlanes b = 2 → isChannelLast b = false →
  MakePackedType (dtype b) 1 = Ok T →
  fillBuffer ([], []) b =
    Ok ([mkPlane (sz_w (size b)) (sz_h (size b)) (s32 (rowStride b)) (data b);
         mkPlane (sz_w (size b)) (sz_h (size b)) (s32 (rowStride b)) (data b + planeStride b)],
        [T; T]).
Proof.
  intros Hnp Hcf Htype. unfold fillBuffer. rewrite Hnp.
  change (seqZ 0 2) with [0; 1]. rewrite foldM_cons.
  rewrite (fillPlane_ret b T) by (simpl; lia || by rewrite Hcf).
  cbn [mbind outcome_bind foldM].
  rewrite (fillPlane_ret b T) by (simpl; lia || by rewrite Hcf).
  simpl. by rewrite Z.mul_0_r, Z.add_0_r, Z.mul_1_r.
Qed.

(** A canonical image stays canonical when its planes move: nothing asked
    of a canonical image reads a base address. *)
Lemma canonicalImage_moved (img img' : ImageData) :
  canonicalImage img →
  img_format img' = img_format img →
  Forall2 (λ a b, width a = width b ∧ height a = height b ∧ pl_rowStride a = pl_rowStride b)
    (img_planes img') (img_planes img) →
  canonicalImage img'.
Proof.
  intros [Hfmt Hch Hplanes Hlayout] Hf Hall.
  assert (img_numPlanes img' = img_numPlanes img) as Hnp.
  { unfold img_numPlanes. by rewrite (Forall2_length _ _ _ Hall). }
  assert (planeTypes img' = planeTypes img) as Hty.
  { unfold planeTypes. by rewrite Hf, Hnp. }
  assert (width (plane img' 0) = width (plane img 0) ∧
          height (plane img' 0) = height (plane img 0)) as [Hw0 Hh0].
  { unfold plane, at_index. simpl.
    destruct Hall as [|a b l l' (Hw & Hh & _) _]; [done|]. simpl. done. }
  constructor.
  - by rewrite Hf.
  - by rewrite Hty.
  - intros p pl' Hp. rewrite Hf, Hw0, Hh0.
    destruct (Forall2_lookup_l _ _ _ _ _ Hall Hp) as (pl & Hpl & Hw & Hh & Hrs).
    destruct (Hplanes p pl Hpl) as [? ? ? ? Hsize].
    constructor; try (rewrite ?Hw, ?Hh, ?Hrs; done).
  - intros inferred. rewrite Hty, Hf. apply Hlayout.
Qed.

(** C9, amended. A canonical image whose plane element types survive the
    trip through a buffer descriptor, and that the export (with no requested
    layout) hands out as channel-last HWC buffers (one plane of two or more
    channels, or planes that are not coalesced) whose row strides are whole
    numbers of channel elements, or as one HW buffer with unpadded rows, or
    as one CHW buffer of two planes with unpadded rows, a width other than 1
    and planes at least one element and less than 2^62 bytes apart, is
    reconstructed by re-ingesting the descriptors with its own format as the
    declared format: construction returns an image with the same format and,
    plane by plane, the same width, height and row stride. In the first two
    cases it is the image itself. *)
Theorem export_ingest_roundtrip (img : ImageData) (dev : DLDevice) :
  canonicalImage img →
  exportsChannelLast img ∨ exportsPackedHW img ∨ exportsPlanarPair img →
  ∃ img', exportThenIngest img dev = Ok img' ∧
    img_format img' = img_format img ∧
    Forall2 (λ a b, width a = width b ∧ height a = height b ∧ pl_rowStride a = pl_rowStride b)
      (img_planes img') (img_planes img) ∧
    (exportsChannelLast img ∨ exportsPackedHW img → img' = img).
Proof.
  intros Hcanon [Hcl|[Hhw|Hpair]].
  1,2: exists img; split; [apply roundtrip_same_image; tauto|];
       split; [done|]; split; [by apply Forall_Forall2_diag, Forall_true | done].
  destruct Hpair as (Hnp & Hnb & Hw1 & Hdf & Hpacked & Hps).
  pose proof Hdf as [_ Hpos _ _ Hrepack].
  destruct (ToPyBufferInfo_planarPair img Hcanon Hnp Hnb ltac:(lia))
    as (pl0 & pl1 & Hpls & Hw & Hh & Hrs & Hty & Hone & Hexp).
  assert (plane img 0 = pl0) as Hp0 by (unfold plane; by rewrite Hpls).
  assert (plane img 1 = pl1) as Hp1 by (unfold plane; by rewrite Hpls).
  rewrite Hp0 in Hw1, Hpacked, Hps. rewrite Hp1 in Hps.
  pose proof Hcanon as [Hfmt _ Hplanes _].
  destruct (Hplanes 0%nat pl0) as [Hw0 Hh0 Hrs0 _ _]; [by rewrite Hpls|].
  set (fmt := img_format img) in *. set (T := planeDataType fmt 0) in *.
  set (e := dt_strideBytes T) in *.
  set (q := (basePtr pl1 - basePtr pl0) `quot` e).
  set (img' := mkImageData fmt
                 [pl0; mkPlane (width pl0) (height pl0) (pl_rowStride pl0) (basePtr pl0 + q * e)]).
  assert (Forall2 (λ a b, width a = width b ∧ height a = height b
                          ∧ pl_rowStride a = pl_rowStride b)
            (img_planes img') (img_planes img)) as Hsame.
  { rewrite Hpls. simpl. repeat constructor; simpl; congruence. }
  exists img'. split; [|split; [done|]; split; [done|]].
  2:{ intros [[[(Hone' & _)|Hmany] _]|(Hone' & _)]; lia. }
  unfold exportThenIngest. rewrite Hexp. simpl mbind. simpl map.
  apply (ingest_finish img' _
           [mkBufferImageInfo 2 (mkSize2D (width pl0) (height pl0)) 2 false
              (q * e) (pl_rowStride pl0) (ToNVCVDataType (DLDataTypeOf T)) (basePtr pl0)]).
  - by apply (canonicalImage_moved img).
  - by vm_compute.
  - unfold ExtractBufferImageInfo. simpl extractLoop.
    change (img_format img') with fmt.
    pose proof (extractBuffer_chw fmt pl0 T (basePtr pl1 - basePtr pl0) dev) as Hx.
    fold e q in Hx. rewrite Hx; try done. by rewrite Hone.
  - simpl foldM.
    rewrite (fillBuffer_two _ T); [|done|done|exact Hrepack].
    simpl. rewrite (s32_id (pl_rowStride pl0)) by lia.
    unfold planeTypes. change (img_numPlanes img') with 2. change (seqZ 0 2) with [0; 1].
    simpl. change (img_format img') with fmt. fold T. rewrite Hty. by destruct pl0.
Qed.

End RoundTripTheorem.

(** C9, as stated, fails: a 5x2 one-channel 8-bit image whose rows are 8
    bytes apart is exported as one HW buffer with strides (8, 1); wrapped
    again with its own format, the buffer is channel-first and its row
    stride is not 5 bytes, so construction throws. *)
Lemma roundtrip_padded_counterexample :
  exportThenIngest (H := reference_helpers) Samples.gray_5x2_padded Samples.cuda0
    = Throw invalid_argument.
Proof. vm_compute. reflexivity. Qed.

Lemma export_ingest_roundtrip_witness :
  exportThenIngest (H := reference_helpers) Samples.nv12_6x4 Samples.cuda0
    = Ok Samples.nv12_6x4 ∧
  ∃ img', exportThenIngest (H := reference_helpers) Inputs.planar_pair_6x4 Samples.cuda0
            = Ok img' ∧
          img_format img' = img_format Inputs.planar_pair_6x4.
Proof.
  split.
  - destruct (export_ingest_roundtrip (H := reference_helpers) Samples.nv12_6x4 Samples.cuda0)
      as (img' & Hok & _ & _ & Hsame).
    + constructor.
      * discriminate.
      * by vm_compute.
      * intros [|[|p]] pl Hp; try discriminate; injection Hp as <-;
          (constructor; [simpl; lia | simpl; lia | simpl; lia | by vm_compute | reflexivity]).
      * intros inferred Hinf. vm_compute in Hinf. injection Hinf as <-. reflexivity.
    + left. split.
      * right. by vm_compute.
      * intros [|[|p]] pl Hp; try discriminate; injection Hp as <-;
          (split; [reflexivity|]; split; [|reflexivity]; constructor;
           [reflexivity | by vm_compute | reflexivity | by vm_compute | reflexivity]).
    + rewrite Hok. f_equal. apply Hsame. left. split.
      * right. by vm_compute.
      * intros [|[|p]] pl Hp; try discriminate; injection Hp as <-;
          (split; [reflexivity|]; split; [|reflexivity]; constructor;
           [reflexivity | by vm_compute | reflexivity | by vm_compute | reflexivity]).
  - destruct (export_ingest_roundtrip (H := reference_helpers) Inputs.planar_pair_6x4
                Samples.cuda0) as (img' & Hok & Hfmt & _).
    + constructor.
      * discriminate.
      * by vm_compute.
      * intros [|[|p]] pl Hp; try discriminate; injection Hp as <-;
          (constructor; [simpl; lia | simpl; lia | simpl; lia | by vm_compute | reflexivity]).
      * intros inferred Hinf. vm_compute in Hinf. injection Hinf as <-. reflexivity.
    + right. right. split; [reflexivity|]. split; [reflexivity|]. split; [by vm_compute|].
      split; [|split; [reflexivity | by vm_compute]].
      constructor; [reflexivity | by vm_compute | reflexivity | by vm_compute | reflexivity].
    + by exists img'.
Defined.

(* ===================================================================== *)
(** * Further properties of the code *)
(* ===================================================================== *)

(** ** More reasoning about outcomes *)

Lemma bind_Throw {A B} (m : outcome A) (k : A → outcome B) e :
  m ≫= k = Throw e ↔ m = Throw e ∨ ∃ a, m = Ok a ∧ k a = Throw e.
Proof.
  destruct m as [a|e'|]; simpl; split.
  - intros Hk. right. by exists a.
  - intros [Hc | (a' & Ha & Hk)]; [discriminate | congruence].
  - intros [= ->]. by left.
  - intros [Hc | (? & Hc & _)]; [by injection Hc as -> | discriminate].
  - discriminate.
  - intros [Hc | (? & Hc & _)]; discriminate.
Qed.

Lemma mapM_Throw_inv {A B} (f : A → outcome B) (l : list A) e :
  mapM f l = Throw e → ∃ a, a ∈ l ∧ f a = Throw e.
Proof.
  induction l as [|a l IH]; [done|]. simpl. intros Hm.
  apply bind_Throw in Hm as [Hm|(b & _ & Hm)].
  - exists a. split; [apply list_elem_of_here | done].
  - apply bind_Throw in Hm as [Hm|(? & _ & Hm)]; [|done].
    destruct (IH Hm) as (a' & Hin & Ha'). exists a'.
    split; [by apply list_elem_of_further | done].
Qed.

Lemma s32_range x : - 2 ^ 31 ≤ s32 x < 2 ^ 31.
Proof.
  unfold s32, wrap.
  pose proof (Z.mod_pos_bound (x + 2 ^ (32 - 1)) (2 ^ 32) ltac:(lia)). lia.
Qed.

(* --------------------------------------------------------------------- *)
(** ** The cache key as an equivalence *)
(* --------------------------------------------------------------------- *)

(** X1. [Image::Key::doIsCompatible] is an equivalence on keys: every key is
    compatible with itself, compatibility does not depend on the order of
    the two keys, and it carries over from [a], [b] and [b], [c] to [a],
    [c]. *)
Theorem doIsCompatible_equivalence :
  (∀ a, Key.doIsCompatible a a = true) ∧
  (∀ a b, Key.doIsCompatible a b = Key.doIsCompatible b a) ∧
  (∀ a b c, Key.doIsCompatible a b = true → Key.doIsCompatible b c = true →
            Key.doIsCompatible a c = true).
Proof.
  unfold Key.doIsCompatible. split; [|split].
  - intros [[] sz f]; simpl; [done|]. by apply bool_decide_eq_true.
  - intros [[] sa fa] [[] sb fb]; simpl; try done.
    apply bool_decide_ext. split; congruence.
  - intros [[] sa fa] [[] sb fb] [[] sc fc]; simpl; try done.
    rewrite !bool_decide_eq_true. congruence.
Qed.

(** X2. [Image::Key::doGetHash] agrees with [doIsCompatible]: two compatible
    keys have the same hash, whatever [ComputeHash] is. *)
Theorem doGetHash_compatible (ComputeHash : Z * Z → ImageFormat → Z) (a b : Key.t) :
  Key.doIsCompatible a b = true →
  Key.doGetHash ComputeHash a = Key.doGetHash ComputeHash b.
Proof.
  unfold Key.doIsCompatible, Key.doGetHash.
  destruct a as [[] sa fa], b as [[] sb fb]; simpl; try done.
  rewrite bool_decide_eq_true. by intros [= -> ->].
Qed.

Lemma doGetHash_compatible_witness :
  Key.doGetHash (λ size _, size.1 + size.2) Key.Wrapper =
  Key.doGetHash (λ size _, size.1 + size.2) (Key.mk true (640, 480) FMT_RGB8).
Proof. apply doGetHash_compatible. reflexivity. Defined.

(* --------------------------------------------------------------------- *)
(** ** What ExtractBufferImageInfo accepts *)
(* --------------------------------------------------------------------- *)

Section MoreIngest.
Context `{External}.

(** Everything one turn of the loop has checked when it returns. *)
Lemma extractBuffer_inv fmt p tensor cur b cur' :
  extractBuffer fmt p tensor cur = Ok (b, cur') →
  ∃ shape strides layout,
    shapeStridesLayout fmt p tensor = Ok (shape, strides, layout) ∧
    (0 < e0 strides ∧ 0 < e1 strides ∧ 0 < e2 strides) ∧
    e3 strides = elemStrideBytes tensor ∧
    (layoutIsChannelLast layout = false →
     ext strides (idxHeight layout) = s64 (elemStrideBytes tensor * shapeNumCols layout shape)) ∧
    b = mkBufferImageInfo
          (if layoutIsChannelLast layout then shapeNumSamples layout shape
           else shapeNumChannels layout shape)
          (shapeSize layout shape) (shapeNumChannels layout shape)
          (layoutIsChannelLast layout)
          (ext strides (if layoutIsChannelLast layout then idxSample layout else idxChannel layout))
          (ext strides (idxHeight layout))
          (ToNVCVDataType (dl_dtype tensor)) (dl_data tensor) ∧
    cur' = s32 (cur + s32 (numPlanes b * numChannels b)) ∧
    cur' ≤ 4 ∧ numPlanes b ≤ 4 ∧ numChannels b ≤ 4.
Proof.
  unfold extractBuffer. intros Hx.
  inv_bind Hx. destruct a as [[shape strides] layout].
  exists shape, strides, layout. split; [done|].
  inv_bind Hx. destruct a. apply throw_when_Ok, bool_decide_eq_false in Hm0.
  inv_bind Hx. destruct a. apply throw_when_Ok, bool_decide_eq_false in Hm1.
  inv_bind Hx. destruct a. apply throw_when_Ok in Hm2.
  inv_bind Hx. destruct a. apply throw_when_Ok, bool_decide_eq_false in Hm3.
  inv_bind Hx. destruct a. apply NVCV_ASSERT_Ok, bool_decide_eq_true in Hm4.
  inv_bind Hx. destruct a. apply NVCV_ASSERT_Ok, bool_decide_eq_true in Hm5.
  injection Hx as <- <-.
  split; [lia|]. split; [by destruct (decide (e3 strides = elemStrideBytes tensor))|].
  split.
  { intros Hcf. rewrite Hcf in Hm2. simpl in Hm2.
    apply bool_decide_eq_false in Hm2.
    by destruct (decide (ext strides (idxHeight layout)
                         = s64 (elemStrideBytes tensor * shapeNumCols layout shape))). }
  split; [done|]. split; [done|]. simpl in *. split; [lia|]. split; done.
Qed.

Lemma extractLoop_length fmt tensors : ∀ p cur infos,
  extractLoop fmt tensors p cur = Ok infos → length infos = length tensors.
Proof.
  induction tensors as [|t rest IH]; intros p cur infos Hloop; simpl in Hloop.
  - by injection Hloop as <-.
  - inv_bind Hloop. destruct a as [b0 c0]. inv_bind Hloop. injection Hloop as <-.
    simpl. f_equal. by eapply IH.
Qed.

Lemma shapeStridesLayout_inv fmt p tensor shape strides layout :
  shapeStridesLayout fmt p tensor = Ok (shape, strides, layout) →
  1 ≤ dl_ndim tensor ≤ 4 ∧
  e3 strides = s64 (zat (dl_strides tensor) (dl_ndim tensor - 1) * elemStrideBytes tensor).
Proof.
  unfold shapeStridesLayout. intros Hs.
  destruct (decide (dl_ndim tensor = 1)) as [Hn|?].
  { injection Hs as <- <- <-. rewrite Hn. simpl. split; [lia|]. done. }
  destruct (decide (dl_ndim tensor = 2)) as [Hn|?].
  { injection Hs as <- <- <-. rewrite Hn. simpl. split; [lia|]. done. }
  destruct (decide (dl_ndim tensor = 3 ∨ dl_ndim tensor = 4)) as [Hn|?]; [|done].
  injection Hs as <- <- <-. simpl. split; [lia | done].
Qed.

(** The switch on a buffer of rank 1 or 2. *)
Lemma shapeStridesLayout_low fmt p tensor shape strides layout :
  shapeStridesLayout fmt p tensor = Ok (shape, strides, layout) →
  dl_ndim tensor ≤ 2 →
  layout = TENSOR_NCHW ∧ e0 shape = 1 ∧ e1 shape = 1 ∧
  (dl_ndim tensor = 1 →
   e2 shape = 1 ∧ e3 shape = zat (dl_shape tensor) 0 ∧ e2 strides = e3 strides) ∧
  (dl_ndim tensor = 2 →
   e2 shape = zat (dl_shape tensor) 0 ∧ e3 shape = zat (dl_shape tensor) 1).
Proof.
  unfold shapeStridesLayout. intros Hs Hn.
  destruct (decide (dl_ndim tensor = 1)) as [Hn1|?].
  { injection Hs as <- <- <-. simpl. repeat split; (done || lia). }
  destruct (decide (dl_ndim tensor = 2)) as [Hn2|?].
  { injection Hs as <- <- <-. simpl. repeat split; (done || lia). }
  destruct (decide (dl_ndim tensor = 3 ∨ dl_ndim tensor = 4)) as [Hn3|?]; [lia|done].
Qed.

(** X3. When [ExtractBufferImageInfo] returns, there is one info per buffer,
    in order, and for each buffer: its rank is between 1 and 4; the info
    carries the buffer's address and its element type as an nvcv type; the
    row stride and the plane stride are positive; there are at most 4 planes
    and at most 4 channels; the innermost stride is one element; and the
    rows of a channel-first buffer are packed (row stride = element size
    times width). *)
Theorem extracted_buffers_wellformed (tensorList : list DLTensor) (fmt : ImageFormat)
    (infos : list BufferImageInfo) :
  ExtractBufferImageInfo tensorList fmt = Ok infos →
  length infos = length tensorList ∧
  ∀ (i : nat) tensor, tensorList !! i = Some tensor →
    ∃ b, infos !! i = Some b ∧
      1 ≤ dl_ndim tensor ≤ 4 ∧
      data b = dl_data tensor ∧ dtype b = ToNVCVDataType (dl_dtype tensor) ∧
      0 < rowStride b ∧ 0 < planeStride b ∧
      numPlanes b ≤ 4 ∧ numChannels b ≤ 4 ∧
      s64 (zat (dl_strides tensor) (dl_ndim tensor - 1) * elemStrideBytes tensor)
        = elemStrideBytes tensor ∧
      (isChannelLast b = false →
       rowStride b = s64 (elemStrideBytes tensor * sz_w (size b))).
Proof.
  unfold ExtractBufferImageInfo. intros Hx. split; [by eapply extractLoop_length|].
  intros i tensor Hi.
  destruct (extractLoop_lookup _ _ _ _ _ _ _ Hx Hi) as (b & c0 & c1 & Hb & Hbuf).
  exists b. split; [done|].
  apply extractBuffer_inv in Hbuf
    as (shape & strides & layout & Hssl & Hpos & Hinner & Hpacked & -> & _ & _ & Hnp & Hnc).
  apply shapeStridesLayout_inv in Hssl as (Hrank & He3).
  simpl in *. split; [done|]. split; [done|]. split; [done|].
  split; [destruct layout; simpl; unfold ext; simpl; lia|].
  split; [destruct layout; simpl; unfold ext; simpl; lia|].
  split; [done|]. split; [done|]. split; [congruence|]. done.
Qed.

(** The loop never lets the count of channels pass 4. *)
Lemma extractLoop_budget fmt tensors : ∀ p cur infos,
  extractLoop fmt tensors p cur = Ok infos →
  Forall (λ b, 0 ≤ numPlanes b ∧ 0 ≤ numChannels b) infos →
  0 ≤ cur ≤ 4 →
  cur + channelsUsed infos ≤ 4.
Proof.
  induction tensors as [|t rest IH]; intros p cur infos Hloop Hpos Hcur; simpl in Hloop.
  - injection Hloop as <-. simpl. lia.
  - inv_bind Hloop. destruct a as [b0 c0]. inv_bind Hloop. injection Hloop as <-.
    apply Forall_cons in Hpos as [[Hp0 Hc0] Hpos].
    apply extractBuffer_inv in Hm
      as (shape & strides & layout & _ & _ & _ & _ & _ & Hc & Hle & Hnp & Hnc).
    assert (0 ≤ numPlanes b0 * numChannels b0 ≤ 16) as Hprod by nia.
    rewrite (s32_id (numPlanes b0 * numChannels b0)) in Hc by lia.
    rewrite s32_id in Hc by lia.
    specialize (IH _ _ _ Hm0 Hpos). simpl. lia.
Qed.

(** X4. The buffers [ExtractBufferImageInfo] accepts use at most 4 channels
    in all, counted as the function counts them (planes times channels of
    each buffer), when no buffer has a negative count. *)
Theorem channel_budget (tensorList : list DLTensor) (fmt : ImageFormat)
    (infos : list BufferImageInfo) :
  ExtractBufferImageInfo tensorList fmt = Ok infos →
  Forall (λ b, 0 ≤ numPlanes b ∧ 0 ≤ numChannels b) infos →
  channelsUsed infos ≤ 4.
Proof.
  intros Hx Hpos. pose proof (extractLoop_budget _ _ _ _ _ Hx Hpos). lia.
Qed.

Lemma channelsUsed_nonneg (infos : list BufferImageInfo) :
  Forall (λ b, 0 ≤ numPlanes b ∧ 0 ≤ numChannels b) infos → 0 ≤ channelsUsed infos.
Proof. induction 1 as [|x l [? ?] _ IH]; simpl; [lia | nia]. Qed.

Lemma channelsUsed_lookup (infos : list BufferImageInfo) (i : nat) b :
  Forall (λ b, 0 ≤ numPlanes b ∧ 0 ≤ numChannels b) infos →
  infos !! i = Some b →
  numPlanes b * numChannels b ≤ channelsUsed infos.
Proof.
  intros Hpos. revert i. induction Hpos as [|b0 l [Hp Hc] Hl IH]; intros i Hi; [done|].
  pose proof (channelsUsed_nonneg _ Hl) as Hrest.
  destruct i as [|i]; simpl in Hi |- *.
  - injection Hi as <-. lia.
  - specialize (IH _ Hi). nia.
Qed.

(** X5. When no buffer that [ExtractBufferImageInfo] accepts has a negative
    count of planes or of channels, a channel-first buffer it accepts has at
    most 2 planes: its planes are its channels, both counts enter the count
    of channels ([numPlanes * numChannels]), and that count may not pass 4.
    So, among buffers without negative counts, one channel-first buffer of 3
    or 4 planes is never accepted. *)
Theorem channel_first_at_most_two_planes (tensorList : list DLTensor) (fmt : ImageFormat)
    (infos : list BufferImageInfo) (i : nat) (b : BufferImageInfo) :
  ExtractBufferImageInfo tensorList fmt = Ok infos →
  Forall (λ b, 0 ≤ numPlanes b ∧ 0 ≤ numChannels b) infos →
  infos !! i = Some b →
  isChannelLast b = false →
  numChannels b = numPlanes b ∧ numPlanes b ≤ 2.
Proof.
  intros Hx Hpos Hi Hcf.
  pose proof (extractLoop_budget _ _ _ _ _ Hx Hpos ltac:(lia)) as Hbudget.
  pose proof (channelsUsed_lookup _ _ _ Hpos Hi) as Hb.
  assert (is_Some (tensorList !! i)) as [tensor Ht].
  { apply lookup_lt_is_Some. rewrite <- (extractLoop_length _ _ _ _ _ Hx).
    by apply lookup_lt_is_Some. }
  destruct (extractLoop_lookup _ _ _ _ _ _ _ Hx Ht) as (b' & c0 & c1 & Hb' & Hbuf).
  rewrite Hi in Hb'. injection Hb' as <-.
  apply extractBuffer_inv in Hbuf
    as (shape & strides & layout & _ & _ & _ & _ & Heq & _).
  assert (numChannels b = numPlanes b) as Hsame.
  { rewrite Heq in Hcf |- *. simpl in *. by rewrite Hcf. }
  split; [done|]. rewrite Hsame in Hb. nia.
Qed.

(** X6. A buffer of rank 1 or 2 that [ExtractBufferImageInfo] accepts is one
    channel-first plane of one channel whose rows are packed; for rank 2
    the extents are (rows, columns) and the row stride is the outer
    stride. *)
Theorem low_rank_buffers (tensorList : list DLTensor) (fmt : ImageFormat)
    (infos : list BufferImageInfo) (i : nat) (tensor : DLTensor) (b : BufferImageInfo) :
  ExtractBufferImageInfo tensorList fmt = Ok infos →
  tensorList !! i = Some tensor →
  infos !! i = Some b →
  dl_ndim tensor ≤ 2 →
  isChannelLast b = false ∧ numPlanes b = 1 ∧ numChannels b = 1 ∧
  rowStride b = s64 (elemStrideBytes tensor * sz_w (size b)) ∧
  (dl_ndim tensor = 2 →
   size b = mkSize2D (s32 (zat (dl_shape tensor) 1)) (s32 (zat (dl_shape tensor) 0)) ∧
   rowStride b = s64 (zat (dl_strides tensor) 0 * elemStrideBytes tensor)).
Proof.
  intros Hx Ht Hi Hlow.
  destruct (extractLoop_lookup _ _ _ _ _ _ _ Hx Ht) as (b' & c0 & c1 & Hb' & Hbuf).
  rewrite Hi in Hb'. injection Hb' as <-.
  apply extractBuffer_inv in Hbuf
    as (shape & strides & layout & Hssl & _ & _ & Hpacked & -> & _).
  pose proof Hssl as Hssl'.
  apply shapeStridesLayout_low in Hssl as (-> & Hs0 & Hs1 & H1 & H2); [|done].
  simpl in *. unfold shapeNumChannels, shapeSize, shapeNumCols, shapeNumRows. simpl.
  unfold ext in *. simpl in *. rewrite Hs1.
  split; [done|]. split; [done|]. split; [done|]. split; [by apply Hpacked|].
  intros Hn2. destruct (H2 Hn2) as [-> ->]. split; [done|].
  unfold shapeStridesLayout in Hssl'.
  destruct (decide (dl_ndim tensor = 1)); [lia|].
  destruct (decide (dl_ndim tensor = 2)); [|lia].
  by injection Hssl' as _ <-.
Qed.

(** X7. A buffer of rank 1 is accepted only as a 1x1 image: its one stride
    serves as row stride too, and the check that rows are packed then asks
    for a width of 1. The fields of the element type are [uint8_t] bits and
    [uint16_t] lanes. *)
Theorem rank1_buffer_single_element (tensorList : list DLTensor) (fmt : ImageFormat)
    (infos : list BufferImageInfo) (i : nat) (tensor : DLTensor) (b : BufferImageInfo) :
  ExtractBufferImageInfo tensorList fmt = Ok infos →
  tensorList !! i = Some tensor →
  infos !! i = Some b →
  dl_ndim tensor = 1 →
  0 ≤ dl_bits (dl_dtype tensor) < 2 ^ 8 →
  0 ≤ dl_lanes (dl_dtype tensor) < 2 ^ 16 →
  size b = mkSize2D 1 1 ∧ numPlanes b = 1 ∧
  rowStride b = elemStrideBytes tensor ∧ planeStride b = elemStrideBytes tensor.
Proof.
  intros Hx Ht Hi Hn1 Hbits Hlanes.
  destruct (extractLoop_lookup _ _ _ _ _ _ _ Hx Ht) as (b' & c0 & c1 & Hb' & Hbuf).
  rewrite Hi in Hb'. injection Hb' as <-.
  apply extractBuffer_inv in Hbuf
    as (shape & strides & layout & Hssl & Hpos & Hinner & Hpacked & -> & _).
  pose proof Hssl as Hssl'.
  apply shapeStridesLayout_low in Hssl as (-> & Hs0 & Hs1 & H1 & _); [|lia].
  destruct (H1 Hn1) as (Hs2 & Hs3 & Hst).
  unfold shapeStridesLayout in Hssl'.
  destruct (decide (dl_ndim tensor = 1)); [|lia].
  injection Hssl' as Hshape Hstrides.
  specialize (Hpacked eq_refl).
  simpl in *. unfold shapeNumChannels, shapeSize, shapeNumCols, shapeNumRows in *.
  unfold ext in *. simpl in *.
  rewrite Hs1, Hs2. rewrite Hst, Hinner in Hpacked.
  assert (0 < elemStrideBytes tensor < 2 ^ 21) as Hesb.
  { split; [rewrite <- Hinner; rewrite <- Hstrides in *; simpl in *; lia|].
    unfold elemStrideBytes. apply Z.quot_lt_upper_bound; nia. }
  pose proof (s32_range (e3 shape)) as Hr.
  rewrite s64_id in Hpacked by nia.
  assert (s32 (e3 shape) = 1) as -> by nia.
  rewrite <- Hstrides in *. simpl in *. by rewrite Hinner.
Qed.

End MoreIngest.

Lemma extracted_buffers_wellformed_witness :
  ∃ infos, ExtractBufferImageInfo (H:=reference_helpers)
             [Inputs.gray_4x6; Inputs.one_sample] FMT_NONE = Ok infos ∧
           length infos = 2%nat.
Proof.
  eexists. split; [vm_compute; reflexivity|].
  apply (extracted_buffers_wellformed (H:=reference_helpers)
           [Inputs.gray_4x6; Inputs.one_sample] FMT_NONE).
  reflexivity.
Defined.

Lemma channel_budget_witness :
  ∃ infos, ExtractBufferImageInfo (H:=reference_helpers) [Inputs.planar_2x4x6] FMT_NONE
             = Ok infos ∧ channelsUsed infos ≤ 4.
Proof.
  eexists. split; [vm_compute; reflexivity|].
  apply (channel_budget (H:=reference_helpers) [Inputs.planar_2x4x6] FMT_NONE);
    [reflexivity|].
  repeat constructor; vm_compute; discriminate.
Defined.

Lemma channel_first_at_most_two_planes_witness :
  ∃ b, ExtractBufferImageInfo (H:=reference_helpers) [Inputs.planar_2x4x6] FMT_NONE = Ok [b] ∧
       numChannels b = numPlanes b ∧ numPlanes b ≤ 2.
Proof.
  eexists. split; [vm_compute; reflexivity|].
  eapply (channel_first_at_most_two_planes (H:=reference_helpers)
            [Inputs.planar_2x4x6] FMT_NONE _ 0%nat).
  - vm_compute. reflexivity.
  - repeat constructor; vm_compute; discriminate.
  - reflexivity.
  - reflexivity.
Defined.

Lemma low_rank_buffers_witness :
  ∃ b, ExtractBufferImageInfo (H:=reference_helpers) [Inputs.gray_4x6] FMT_NONE = Ok [b] ∧
       isChannelLast b = false ∧ numPlanes b = 1 ∧ numChannels b = 1.
Proof.
  eexists. split; [vm_compute; reflexivity|].
  edestruct (low_rank_buffers (H:=reference_helpers) [Inputs.gray_4x6] FMT_NONE)
    with (i := 0%nat) (tensor := Inputs.gray_4x6) as (Hcf & Hnp & Hnc & _).
  - vm_compute. reflexivity.
  - reflexivity.
  - reflexivity.
  - simpl. lia.
  - split; [exact Hcf|]. split; [exact Hnp | exact Hnc].
Defined.

Lemma rank1_buffer_single_element_witness :
  ∃ b, ExtractBufferImageInfo (H:=reference_helpers) [Inputs.one_sample] FMT_NONE = Ok [b] ∧
       size b = mkSize2D 1 1.
Proof.
  eexists. split; [vm_compute; reflexivity|].
  edestruct (rank1_buffer_single_element (H:=reference_helpers) [Inputs.one_sample] FMT_NONE)
    with (i := 0%nat) (tensor := Inputs.one_sample) as (Hsize & _).
  - vm_compute. reflexivity.
  - reflexivity.
  - reflexivity.
  - reflexivity.
  - simpl. lia.
  - simpl. lia.
  - exact Hsize.
Defined.

(* --------------------------------------------------------------------- *)
(** ** Widening an element type, and the types behind an inferred format *)
(* --------------------------------------------------------------------- *)

Lemma packNumChannels_four bo sw (b0 b1 b2 b3 : Z) :
  packNumChannels (mkPackingParams bo sw [b0; b1; b2; b3]) =
    (if decide (b0 ≠ 0) then 1 else 0) + (if decide (b1 ≠ 0) then 1 else 0)
    + (if decide (b2 ≠ 0) then 1 else 0) + (if decide (b3 ≠ 0) then 1 else 0).
Proof.
  unfold packNumChannels. simpl. rewrite !filter_cons, filter_nil.
  repeat case_decide; reflexivity.
Qed.

(** X8. Repacking a one-channel type of [b] bits to [n] = 2, 3 or 4 channels
    returns a type of exactly [n] channels and [n * b] bits per pixel whose
    channels all have the type of the first; repacking that type to [n]
    channels again changes nothing. *)
Theorem MakePackedType_widen (dt : DataType) (n b : Z) :
  bits (dt_packing dt) = [b; 0; 0; 0] → b ≠ 0 → 2 ≤ n ≤ 4 →
  ∃ dt', MakePackedType dt n = Ok dt' ∧
         dt_numChannels dt' = n ∧
         packBitsPerPixel (dt_packing dt') = n * b ∧
         (∀ ch, 0 ≤ ch < n → dt_channelType dt' ch = dt_channelType dt' 0) ∧
         MakePackedType dt' n = Ok dt'.
Proof.
  intros Hbits Hb Hn. destruct dt as [kind [bo sw bs]]. simpl in Hbits. subst bs.
  assert (∀ k sw', dt_numChannels (mkDataType k
             (mkPackingParams MSB sw' (replicateBits n [b; 0; 0; 0]))) = n) as Hcount.
  { intros k sw'. unfold dt_numChannels. simpl. rewrite replicateBits_4 by done.
    rewrite packNumChannels_four. repeat case_decide; lia. }
  unfold MakePackedType at 1.
  destruct (decide (dt_numChannels _ = n)) as [Heq|_].
  { unfold dt_numChannels in Heq. simpl in Heq. rewrite packNumChannels_four in Heq.
    repeat case_decide; lia. }
  rewrite NVCV_ASSERT_true by (apply bool_decide_eq_true; lia).
  eexists. split; [reflexivity|]. unfold GetParams, MakePacking. simpl.
  split; [apply Hcount|]. split; [|split].
  - unfold packBitsPerPixel. simpl. rewrite replicateBits_4 by done.
    repeat case_decide; simpl; nia.
  - intros ch Hch. unfold dt_channelType, GetParams, MakePacking. simpl.
    rewrite replicateBits_4 by done.
    assert (ch = 0 ∨ ch = 1 ∨ ch = 2 ∨ ch = 3) as [->|[->|[->| ->]]] by lia;
      try reflexivity; repeat case_decide; (reflexivity || lia).
  - unfold MakePackedType. by rewrite Hcount, decide_True.
Qed.

Lemma MakePackedType_widen_witness :
  ∃ dt', MakePackedType Samples.TYPE_U8 3 = Ok dt' ∧ dt_numChannels dt' = 3.
Proof.
  destruct (MakePackedType_widen Samples.TYPE_U8 3 8) as (dt' & Hok & Hn & _);
    [reflexivity | lia | lia |].
  exists dt'. split; [exact Hok | exact Hn].
Defined.

Lemma selectFormat_packings kind np packing n f :
  selectFormat kind np packing n = Ok f →
  dataKind f = kind ∧
  planePackings f = [default PACKING_0 (packing !! 0%nat); default PACKING_0 (packing !! 1%nat);
                     default PACKING_0 (packing !! 2%nat); default PACKING_0 (packing !! 3%nat)].
Proof.
  unfold selectFormat. intros Hs.
  destruct (decide (np = 1 ∨ n = np)) as [?|?].
  - inv_bind Hs. destruct a. destruct (at_index baseFormatList (n - 1)) as [base|]; [|done].
    injection Hs as <-. by destruct (colorModel base).
  - destruct (decide (np = 2 ∧ n = 3)); by injection Hs as <-.
Qed.

(** When [InferImageFormat] returns, it has seen at most four planes, all
    of the data kind of the first. *)
Lemma InferImageFormat_Ok_inv (planes : list DataType) (first : DataType) f :
  head planes = Some first →
  InferImageFormat planes = Ok f →
  (length planes ≤ 4)%nat ∧ Forall (λ t, dt_dataKind t = dt_dataKind first) planes.
Proof.
  intros Hhead Hf. destruct planes as [|t0 rest]; [done|]. injection Hhead as ->.
  unfold InferImageFormat in Hf. inv_bind Hf. destruct a.
  apply NVCV_ASSERT_Ok, bool_decide_eq_true in Hm. split; [done|].
  inv_bind Hf.
  pose proof (inferLoop_outcome (dt_dataKind first) (indexed (first :: rest))
                (replicate 4 PACKING_0, 0)) as Hloop.
  rewrite Hm0 in Hloop.
  apply (Forall_fmap snd (λ t, dt_dataKind t = dt_dataKind first)) in Hloop.
  by rewrite indexed_snd in Hloop.
Qed.

Lemma totalChannels_four (planes : list DataType) :
  (length planes ≤ 4)%nat →
  packNumChannels (packingOfPlane planes 0) + packNumChannels (packingOfPlane planes 1)
  + packNumChannels (packingOfPlane planes 2) + packNumChannels (packingOfPlane planes 3)
  = totalChannels planes.
Proof.
  intros Hlen. destruct planes as [|a [|b [|c [|d [|]]]]]; simpl in Hlen; try lia;
    unfold packingOfPlane, totalChannels, dt_numChannels; simpl;
    change (packNumChannels PACKING_0) with 0; lia.
Qed.

(** X9. The format [InferImageFormat] returns for a non-empty list of plane
    types describes exactly those planes, whichever of its three cases
    applies: the data type of plane [i] of the format is the [i]-th type of
    the list, the planes past the end of the list have the empty packing,
    and the format has as many channels as the types have in all. *)
Theorem InferImageFormat_plane_types (planes : list DataType) (f : ImageFormat) :
  planes ≠ [] →
  InferImageFormat planes = Ok f →
  (∀ (i : nat) t, planes !! i = Some t → planeDataType f (Z.of_nat i) = t) ∧
  (∀ i : nat, (length planes ≤ i)%nat → planePacking f (Z.of_nat i) = PACKING_0) ∧
  fmt_numChannels f = totalChannels planes.
Proof.
  intros Hne Hf. destruct planes as [|first rest]; [done|].
  destruct (InferImageFormat_Ok_inv (first :: rest) first f eq_refl Hf) as [Hlen Hkind].
  rewrite InferImageFormat_select in Hf by done.
  apply selectFormat_packings in Hf as [Hdk Hpk]. simpl in Hpk.
  assert (∀ i : nat, planePacking f (Z.of_nat i) = packingOfPlane (first :: rest) i) as Hpl.
  { intros i. unfold planePacking. rewrite at_index_of_nat, Hpk.
    destruct i as [|[|[|[|i]]]]; try done.
    simpl. unfold packingOfPlane.
    rewrite (lookup_ge_None_2 (first :: rest)); [done | simpl in *; lia]. }
  split; [|split].
  - intros i t Hi. unfold planeDataType. rewrite Hpl, Hdk.
    unfold packingOfPlane. rewrite Hi. simpl.
    rewrite Forall_forall in Hkind.
    rewrite <- (Hkind t) by (by eapply list_elem_of_lookup_2). by destruct t.
  - intros i Hi. rewrite Hpl. unfold packingOfPlane.
    by rewrite (lookup_ge_None_2 (first :: rest)).
  - unfold fmt_numChannels, planeNumChannels.
    pose proof (Hpl 0%nat) as H0. pose proof (Hpl 1%nat) as H1.
    pose proof (Hpl 2%nat) as H2. pose proof (Hpl 3%nat) as H3.
    change (Z.of_nat 0) with 0 in H0. change (Z.of_nat 1) with 1 in H1.
    change (Z.of_nat 2) with 2 in H2. change (Z.of_nat 3) with 3 in H3.
    rewrite H0, H1, H2, H3.
    by apply totalChannels_four.
Qed.

Lemma InferImageFormat_plane_types_witness :
  ∃ f, InferImageFormat [Samples.TYPE_U8; Samples.TYPE_2U8] = Ok f ∧
       planeDataType f 1 = Samples.TYPE_2U8 ∧ fmt_numChannels f = 3.
Proof.
  eexists. split; [vm_compute; reflexivity|].
  destruct (InferImageFormat_plane_types [Samples.TYPE_U8; Samples.TYPE_2U8] _
              ltac:(discriminate) eq_refl) as (Hty & _ & Hn).
  split; [exact (Hty 1%nat _ eq_refl) | exact Hn].
Defined.

(** X10. The last case of [InferImageFormat]: for two to four planes of one
    data kind that are neither one channel each nor the 2-plane, 3-channel
    pair, the result is a non-color format (color model undefined, no
    chroma subsampling, pitch-linear) whose swizzle names X, Y, Z, W for as
    many channels as there are in all, up to four; the call returns also
    when the planes have more than 4 channels in all. *)
Theorem InferImageFormat_non_color (planes : list DataType) (first : DataType) :
  head planes = Some first →
  (length planes ≤ 4)%nat →
  Forall (λ t, dt_dataKind t = dt_dataKind first) planes →
  let n := totalChannels planes in
  let np := Z.of_nat (length planes) in
  np ≠ 1 → n ≠ np → ¬ (np = 2 ∧ n = 3) →
  ∃ f, InferImageFormat planes = Ok f ∧
       colorModel f = CM_UNDEFINED ∧
       colorSpec f = CSPEC_UNDEFINED ∧
       chromaSubsampling f = CSS_NONE ∧
       memLayout f = PITCH_LINEAR ∧
       fmt_swizzle f = MakeSwizzle (if decide (1 ≤ n) then CH_X else CH_NONE)
                                   (if decide (2 ≤ n) then CH_Y else CH_NONE)
                                   (if decide (3 ≤ n) then CH_Z else CH_NONE)
                                   (if decide (4 ≤ n) then CH_W else CH_NONE).
Proof.
  intros Hhead Hlen Hkind n np Hnp Hn Hsemi.
  destruct planes as [|t0 rest]; [done|]. injection Hhead as ->.
  rewrite InferImageFormat_select by done. fold n np. unfold selectFormat.
  destruct (decide (np = 1 ∨ n = np)) as [[?|?]|_]; [done..|].
  destruct (decide (np = 2 ∧ n = 3)) as [?|_]; [done|].
  eexists. split; [reflexivity|]. done.
Qed.

Lemma InferImageFormat_non_color_witness :
  ∃ f, InferImageFormat [Samples.TYPE_2U8; Samples.TYPE_2U8] = Ok f ∧
       colorModel f = CM_UNDEFINED ∧ fmt_swizzle f = S_XYZW.
Proof.
  destruct (InferImageFormat_non_color [Samples.TYPE_2U8; Samples.TYPE_2U8] Samples.TYPE_2U8)
    as (f & Hf & Hm & _ & _ & _ & Hsw);
    [reflexivity | simpl; lia | by repeat constructor | vm_compute; discriminate
    | vm_compute; discriminate | vm_compute; intros [_ ?]; discriminate |].
  exists f. split; [exact Hf|]. split; [exact Hm | exact Hsw].
Defined.

(* --------------------------------------------------------------------- *)
(** ** The planes and the errors of FillNVCVImageBufferStrided *)
(* --------------------------------------------------------------------- *)

Lemma MakePackedType_no_throw dt n e : MakePackedType dt n ≠ Throw e.
Proof.
  unfold MakePackedType. case_decide; [done|].
  unfold NVCV_ASSERT. by case_bool_decide.
Qed.

Lemma fillPlane_Ok b planes types p st :
  fillPlane b (planes, types) p = Ok st →
  ∃ T, MakePackedType (dtype b) (channelsPerPlane b) = Ok T ∧
       st = (planes ++ [mkPlane (sz_w (size b)) (sz_h (size b)) (s32 (rowStride b))
                                (data b + planeStride b * p)],
             types ++ [T]).
Proof.
  unfold fillPlane. intros Hf. inv_bind Hf. inv_bind Hf. injection Hf as <-. by exists a0.
Qed.

Lemma fillPlane_no_throw b st p e : fillPlane b st p ≠ Throw e.
Proof.
  destruct st as [planes types]. unfold fillPlane.
  unfold NVCV_ASSERT. case_bool_decide; simpl; [|done].
  pose proof (MakePackedType_no_throw (dtype b) (if isChannelLast b then numChannels b else 1))
    as Hm.
  destruct (MakePackedType _ _); simpl; [done | by intros [= ->]; eapply Hm | done].
Qed.

Lemma fillPlanes_Ok b (ps : list Z) : ∀ planes types planes' types',
  foldM (fillPlane b) (planes, types) ps = Ok (planes', types') →
  planes' = planes ++
    ((λ p, mkPlane (sz_w (size b)) (sz_h (size b)) (s32 (rowStride b))
                   (data b + planeStride b * p)) <$> ps) ∧
  length types' = (length types + length ps)%nat.
Proof.
  induction ps as [|p ps IH]; intros planes types planes' types' Hf.
  - injection Hf as <- <-. rewrite app_nil_r. simpl. split; [done | lia].
  - rewrite foldM_cons in Hf. inv_bind Hf.
    apply fillPlane_Ok in Hm as (T & _ & ->).
    apply IH in Hf as [-> Hlen]. rewrite <- app_assoc. split; [done|].
    rewrite Hlen, length_app. simpl. lia.
Qed.

Lemma fillPlanes_no_throw b (ps : list Z) : ∀ st e, foldM (fillPlane b) st ps ≠ Throw e.
Proof.
  induction ps as [|p ps IH]; intros st e; [done|].
  rewrite foldM_cons. intros Hf. apply bind_Throw in Hf as [Hf|(st' & _ & Hf)].
  - by eapply fillPlane_no_throw.
  - by eapply IH.
Qed.

(** The two nested loops over the buffers and their planes. *)
Lemma fillLoop_Ok (infos : list BufferImageInfo) : ∀ planes types planes' types',
  foldM fillBuffer (planes, types) infos = Ok (planes', types') →
  planes' = planes ++ concat (planesOf <$> infos) ∧
  length types' = (length types + length (concat (planesOf <$> infos)))%nat.
Proof.
  induction infos as [|b infos IH]; intros planes types planes' types' Hf.
  - injection Hf as <- <-. simpl. rewrite app_nil_r. split; [done | lia].
  - rewrite foldM_cons in Hf. inv_bind Hf. destruct a as [pl1 ty1].
    apply fillPlanes_Ok in Hm as [-> Hl1]. apply IH in Hf as [-> Hl2].
    change (concat (planesOf <$> b :: infos))
      with (planesOf b ++ concat (planesOf <$> infos)).
    rewrite <- app_assoc. split; [done|].
    assert (length (planesOf b) = length (seqZ 0 (numPlanes b))) as Hb
      by (unfold planesOf; by rewrite length_fmap).
    rewrite Hl2, Hl1, length_app. lia.
Qed.

Lemma fillLoop_no_throw (infos : list BufferImageInfo) : ∀ st e,
  foldM fillBuffer st infos ≠ Throw e.
Proof.
  induction infos as [|b infos IH]; intros st e; [done|].
  rewrite foldM_cons. intros Hf. apply bind_Throw in Hf as [Hf|(st' & _ & Hf)].
  - by eapply fillPlanes_no_throw.
  - by eapply IH.
Qed.

Section MoreFill.
Context `{External}.

(** The steps behind an image that [FillNVCVImageBufferStrided] returns. *)
Lemma Fill_Ok_inv infos fmt img :
  FillNVCVImageBufferStrided infos fmt = Ok img →
  ∃ bis types inferred,
    ExtractBufferImageInfo infos fmt = Ok bis ∧
    foldM fillBuffer ([], []) bis = Ok (img_planes img, types) ∧
    img_planes img ≠ [] ∧
    InferImageFormat types = Ok inferred ∧
    img_format img = (if decide (fmt ≠ FMT_NONE) then fmt else inferred).
Proof.
  unfold FillNVCVImageBufferStrided. intros Hf.
  inv_bind Hf. rename a into bis. inv_bind Hf. destruct a as [planes types].
  inv_bind Hf. destruct a. apply throw_when_Ok, bool_decide_eq_false in Hm1.
  inv_bind Hf. rename a into inferred. inv_bind Hf. rename a into finalFormat.
  inv_bind Hf. injection Hf as <-. simpl.
  exists bis, types, inferred. split; [done|]. split; [done|].
  split; [by destruct planes|]. split; [done|].
  destruct (decide (fmt ≠ FMT_NONE)).
  - inv_bind Hm3. by injection Hm3.
  - by injection Hm3.
Qed.

(** X11. [FillNVCVImageBufferStrided] throws an invalid-argument error for an
    empty list of buffers, and every image it returns has at least 1 and at
    most 4 planes. *)
Theorem constructed_image_plane_count (fmt : ImageFormat) :
  FillNVCVImageBufferStrided [] fmt = Throw invalid_argument ∧
  ∀ infos img, FillNVCVImageBufferStrided infos fmt = Ok img →
    infos ≠ [] ∧ 1 ≤ img_numPlanes img ≤ 4.
Proof.
  split; [done|]. intros infos img Hf.
  split; [by intros ->|].
  apply Fill_Ok_inv in Hf as (bis & types & inferred & _ & Hfill & Hne & Hinf & _).
  apply fillLoop_Ok in Hfill as [Hpl Hlen]. simpl in Hpl, Hlen.
  unfold img_numPlanes. rewrite Hpl in *.
  split; [destruct (concat _); [done | simpl; lia]|].
  destruct types as [|T types]; [simpl in Hlen; lia|].
  apply (InferImageFormat_Ok_inv _ T) in Hinf as [Hle _]; [|done]. lia.
Qed.

(** X12. The planes of an image that [FillNVCVImageBufferStrided] returns are
    those of its buffers, buffer after buffer: each buffer gives
    [numPlanes] planes of the buffer's size and row stride (narrowed to
    [int32_t]) that start [planeStride] bytes apart from the buffer's
    address. *)
Theorem planes_of_constructed_image (infos : list DLTensor) (fmt : ImageFormat)
    (img : ImageData) :
  FillNVCVImageBufferStrided infos fmt = Ok img →
  ∃ bis, ExtractBufferImageInfo infos fmt = Ok bis ∧
         img_planes img = concat (planesOf <$> bis).
Proof.
  intros Hf.
  apply Fill_Ok_inv in Hf as (bis & types & inferred & Hx & Hfill & _).
  exists bis. split; [done|]. by apply fillLoop_Ok in Hfill as [-> _].
Qed.

Lemma shapeStridesLayout_throw fmt p tensor e :
  shapeStridesLayout fmt p tensor = Throw e → e = invalid_argument.
Proof.
  unfold shapeStridesLayout. repeat case_decide; try done. by intros [= <-].
Qed.

Lemma extractBuffer_throw fmt p tensor cur e :
  extractBuffer fmt p tensor cur = Throw e → e = invalid_argument.
Proof.
  unfold extractBuffer. intros Hx.
  apply bind_Throw in Hx as [Hx|([[shape strides] layout] & _ & Hx)];
    [by eapply shapeStridesLayout_throw|].
  repeat match type of Hx with
         | throw_when ?c _ ≫= _ = Throw _ =>
             destruct c; simpl in Hx; [by injection Hx as <-|]
         | NVCV_ASSERT ?c ≫= _ = Throw _ =>
             destruct c; simpl in Hx; [|done]
         end.
  done.
Qed.

Lemma extractLoop_throw fmt tensors : ∀ p cur e,
  extractLoop fmt tensors p cur = Throw e → e = invalid_argument.
Proof.
  induction tensors as [|t rest IH]; intros p cur e Hx; [done|].
  simpl in Hx. apply bind_Throw in Hx as [Hx|([b c] & _ & Hx)];
    [by eapply extractBuffer_throw|].
  apply bind_Throw in Hx as [Hx|(? & _ & Hx)]; [by eapply IH | done].
Qed.

Lemma InferImageFormat_throw (planes : list DataType) e :
  InferImageFormat planes = Throw e → e = invalid_argument.
Proof.
  destruct planes as [|first rest]; [done|]. unfold InferImageFormat.
  intros Hi. apply bind_Throw in Hi as [Hi|([] & _ & Hi)].
  { unfold NVCV_ASSERT in Hi. by case_bool_decide. }
  apply bind_Throw in Hi as [Hi|([packing n] & _ & Hi)].
  - pose proof (inferLoop_outcome (dt_dataKind first) (indexed (first :: rest))
                  (replicate 4 PACKING_0, 0)) as Hloop.
    rewrite Hi in Hloop. by destruct Hloop.
  - by apply selectFormat_no_throw in Hi.
Qed.

Lemma Fill_throw infos fmt e :
  FillNVCVImageBufferStrided infos fmt = Throw e → e = invalid_argument.
Proof.
  intros Hf.
  unfold FillNVCVImageBufferStrided in Hf.
  apply bind_Throw in Hf as [Hf|(bis & _ & Hf)]; [by eapply extractLoop_throw|].
  apply bind_Throw in Hf as [Hf|([planes types] & _ & Hf)];
    [by apply fillLoop_no_throw in Hf|].
  apply bind_Throw in Hf as [Hf|([] & _ & Hf)].
  { unfold throw_when in Hf. case_bool_decide; [by injection Hf as <- | done]. }
  apply bind_Throw in Hf as [Hf|(inferred & _ & Hf)]; [by eapply InferImageFormat_throw|].
  apply bind_Throw in Hf as [Hf|(finalFormat & _ & Hf)].
  { case_decide; [|done].
    apply bind_Throw in Hf as [Hf|(? & _ & Hf)]; [|done].
    unfold throw_when in Hf. destruct (negb _); [by injection Hf as <- | done]. }
  apply bind_Throw in Hf as [Hf|(? & _ & Hf)]; [|done].
  match type of Hf with
  | foldM (checkPlaneSize ?f ?s ?pl) tt ?ps = _ =>
      destruct (checkPlaneSize_loop f s pl ps) as [[_ Hok]|[_ Hthrow]]
  end; congruence.
Qed.

(** X13. Every exception that leaves [FillNVCVImageBufferStrided] is an
    invalid-argument error: it never throws a runtime error, whatever the
    buffers and the declared format are. *)
Theorem construction_errors (infos : list DLTensor) (fmt : ImageFormat) :
  match FillNVCVImageBufferStrided infos fmt with
  | Throw e => e = invalid_argument
  | _ => True
  end.
Proof.
  destruct (FillNVCVImageBufferStrided infos fmt) as [img|e|] eqn:Hf; [done| |done].
  by eapply Fill_throw.
Qed.

End MoreFill.

Lemma constructed_image_plane_count_witness :
  ∃ img, FillNVCVImageBufferStrided (H:=reference_helpers) [Inputs.planar_2x4x6] FMT_NONE
           = Ok img ∧
         1 ≤ img_numPlanes img ≤ 4.
Proof.
  eexists. split; [vm_compute; reflexivity|].
  edestruct (constructed_image_plane_count (H:=reference_helpers) FMT_NONE) as [_ Hcount].
  edestruct (Hcount [Inputs.planar_2x4x6]) as [_ Hnp]; [vm_compute; reflexivity|].
  exact Hnp.
Defined.

Lemma planes_of_constructed_image_witness :
  ∃ img bis,
    FillNVCVImageBufferStrided (H:=reference_helpers) [Inputs.planar_2x4x6] FMT_NONE = Ok img ∧
    ExtractBufferImageInfo (H:=reference_helpers) [Inputs.planar_2x4x6] FMT_NONE = Ok bis ∧
    img_planes img = concat (planesOf <$> bis).
Proof.
  eexists.
  edestruct (planes_of_constructed_image (H:=reference_helpers) [Inputs.planar_2x4x6] FMT_NONE)
    as (bis & Hx & Hpl); [vm_compute; reflexivity|].
  exists bis. split; [reflexivity|]. split; [exact Hx | exact Hpl].
Defined.

(* --------------------------------------------------------------------- *)
(** ** The buffers and the errors of ToPyBufferInfo *)
(* --------------------------------------------------------------------- *)

Lemma inferBuffer_no_throw imgData nb p e : inferBuffer imgData nb p ≠ Throw e.
Proof.
  unfold inferBuffer, NVCV_ASSERT.
  repeat case_decide; repeat (case_bool_decide; simpl; try done).
Qed.

Lemma applyLayout_throw userLayout inf e :
  applyLayout userLayout inf = Throw e → e = runtime_error ∧ userLayout ≠ None.
Proof.
  destruct userLayout as [l|]; [|done]. intros Ha. split; [|done].
  destruct (applyLayout_Some l inf) as [[_ Hr]|[(_ & _ & Hr)|(_ & _ & Hr)]]; congruence.
Qed.

Lemma exportBuffer_throw imgData userLayout nb p e :
  exportBuffer imgData userLayout nb p = Throw e → e = runtime_error ∧ userLayout ≠ None.
Proof.
  unfold exportBuffer. intros Hx.
  apply bind_Throw in Hx as [Hx|(inf & _ & Hx)]; [by apply inferBuffer_no_throw in Hx|].
  apply bind_Throw in Hx as [Hx|([] & _ & Hx)].
  { unfold NVCV_ASSERT in Hx. by case_bool_decide. }
  apply bind_Throw in Hx as [Hx|([] & _ & Hx)].
  { unfold NVCV_ASSERT in Hx. by case_bool_decide. }
  apply bind_Throw in Hx as [Hx|([[shape strides] layout] & _ & Hx)]; [|done].
  by eapply applyLayout_throw.
Qed.

(** Requesting the layout that was inferred changes nothing. *)
Lemma applyLayout_same (inf : Inferred) :
  inferredLayout inf = layout_HW ∨ inferredLayout inf = layout_HWC
    ∨ inferredLayout inf = layout_CHW →
  length (inferredShape inf) = length (inferredLayout inf) →
  length (inferredStrides inf) = length (inferredLayout inf) →
  applyLayout (Some (inferredLayout inf)) inf =
    Ok (inferredShape inf, inferredStrides inf, inferredLayout inf).
Proof.
  destruct inf as [shape strides layout T]. simpl. intros Hl Hs Ht.
  assert (∀ c : bool, c && false = false) as Hand by (by intros []).
  destruct Hl as [->|[->| ->]]; simpl in Hs, Ht.
  - destruct shape as [|s0 [|s1 [|]]]; try done.
    destruct strides as [|t0 [|t1 [|]]]; try done.
    unfold applyLayout, layout_rank. simpl.
    unfold checkRequiredDim, fillUserDim, throw_when, at_index, zat, at_index. simpl.
    by rewrite !Hand.
  - destruct shape as [|s0 [|s1 [|s2 [|]]]]; try done.
    destruct strides as [|t0 [|t1 [|t2 [|]]]]; try done.
    unfold applyLayout, layout_rank. simpl.
    unfold checkRequiredDim, fillUserDim, throw_when, at_index, zat, at_index. simpl.
    by rewrite !Hand.
  - destruct shape as [|s0 [|s1 [|s2 [|]]]]; try done.
    destruct strides as [|t0 [|t1 [|t2 [|]]]]; try done.
    unfold applyLayout, layout_rank. simpl.
    unfold checkRequiredDim, fillUserDim, throw_when, at_index, zat, at_index. simpl.
    by rewrite !Hand.
Qed.

(** The inferred layout is the same for every buffer of an export. *)
Lemma inferBuffer_layout imgData nb p inf :
  inferBuffer imgData nb p = Ok inf →
  inferredLayout inf =
    (if decide (nb = 1) then
       if decide (fmt_numChannels (img_format imgData) = 1) then layout_HW
       else if decide (img_numPlanes imgData = 1) then layout_HWC else layout_CHW
     else layout_HWC).
Proof.
  intros Hinf. apply inferBuffer_Ok in Hinf.
  destruct Hinf as [Hc|[Hc|[Hc|Hc]]]; decompose [and] Hc; subst inf; simpl;
    repeat case_decide; (done || lia).
Qed.

Section MoreExport.
Context `{External}.

Lemma ToPyBufferInfo_throw imgData userLayout e :
  ToPyBufferInfo imgData userLayout = Throw e → e = runtime_error ∧ userLayout ≠ None.
Proof.
  intros Hx. unfold ToPyBufferInfo in Hx. case_decide; [done|].
  apply bind_Throw in Hx as [Hx|([] & _ & Hx)].
  - destruct userLayout as [l|]; [|done]. unfold throw_when in Hx.
    destruct (negb _); [|done]. by injection Hx as <-.
  - apply mapM_Throw_inv in Hx as (p & _ & Hx). by eapply exportBuffer_throw.
Qed.

(** X14. Every exception that leaves [ToPyBufferInfo] is a runtime error, and
    there is one only under a requested layout: with no requested layout
    the export throws nothing. *)
Theorem export_errors (imgData : ImageData) (userLayout : option TensorLayout) :
  match ToPyBufferInfo imgData userLayout with
  | Throw e => e = runtime_error ∧ userLayout ≠ None
  | _ => True
  end.
Proof.
  destruct (ToPyBufferInfo imgData userLayout) as [bufs|e|] eqn:Hx; [done| |done].
  by eapply ToPyBufferInfo_throw.
Qed.

Lemma exportBuffer_Ok_inv imgData userLayout nb p b layout :
  exportBuffer imgData userLayout nb p = Ok (b, layout) →
  ∃ inf, inferBuffer imgData nb p = Ok inf ∧
    bi_ptr b = basePtr (plane imgData p) ∧
    bi_dtype b = inferredDType inf ∧
    layout = default (inferredLayout inf) userLayout ∧
    length (bi_shape b) = length layout ∧
    length (bi_strides b) = length layout.
Proof.
  intros Hx. destruct userLayout as [l|].
  - destruct (inferBuffer imgData nb p) as [inf| |] eqn:Hinf;
      [|by unfold exportBuffer in Hx; rewrite Hinf in Hx..].
    rewrite (exportBuffer_Some _ _ _ _ _ Hinf) in Hx.
    exists inf. split; [done|].
    destruct (applyLayout_Some l inf) as [[_ Hr]|[(_ & _ & Hr)|(_ & _ & Hr)]];
      rewrite Hr in Hx; try done.
    simpl in Hx. injection Hx as <- <-. simpl.
    by rewrite !length_fmap.
  - apply exportBuffer_None in Hx as (inf & Hinf & -> & ->).
    exists inf. split; [done|]. simpl.
    destruct (inferBuffer_ranks _ _ _ _ Hinf) as [Hs Ht]. done.
Qed.

(** X15. Buffer number [i] of an export starts at the base address of plane
    [i] (nothing is copied or moved), its shape and its strides have one
    entry per axis of its layout, its layout is the requested one when
    there is one, and its element type is the type of plane [i] or the type
    of that plane's first channel. *)
Theorem exported_buffers_wellformed (imgData : ImageData) (userLayout : option TensorLayout)
    (bufs : list (buffer_info * TensorLayout)) :
  ToPyBufferInfo imgData userLayout = Ok bufs →
  ∀ (i : nat) b layout, bufs !! i = Some (b, layout) →
    Z.of_nat i < img_numPlanes imgData ∧
    bi_ptr b = basePtr (plane imgData (Z.of_nat i)) ∧
    length (bi_shape b) = length layout ∧
    length (bi_strides b) = length layout ∧
    (∀ l, userLayout = Some l → layout = l) ∧
    (bi_dtype b = planeDataType (img_format imgData) (Z.of_nat i) ∨
     bi_dtype b = dt_channelType (planeDataType (img_format imgData) (Z.of_nat i)) 0).
Proof.
  intros Hx i b layout Hi.
  apply ToPyBufferInfo_Ok in Hx as [[_ ->]|[Hnp Hall]]; [done|].
  destruct (Forall2_lookup_r _ _ _ _ _ Hall Hi) as (p & Hp & Hb).
  apply lookup_seqZ in Hp as [-> Hlt]. rewrite Z.add_0_l in Hb.
  apply exportBuffer_Ok_inv in Hb as (inf & Hinf & Hptr & Hdt & Hl & Hs & Ht).
  split.
  { unfold numBuffers in Hlt. destruct (singleBuffer imgData); lia. }
  split; [done|]. split; [done|]. split; [done|].
  split; [by intros l ->|].
  rewrite Hdt. apply inferBuffer_Ok in Hinf.
  destruct Hinf as [Hc|[Hc|[Hc|Hc]]]; decompose [and] Hc; subst inf; simpl; tauto.
Qed.

(** X16. All buffers of an export with no requested layout have the same
    layout, HW, HWC or CHW, and requesting that layout gives the same
    buffers, when it is a layout of images. *)
Theorem export_requesting_inferred_layout (imgData : ImageData)
    (bufs : list (buffer_info * TensorLayout)) :
  ToPyBufferInfo imgData None = Ok bufs →
  ∃ l, (l = layout_HW ∨ l = layout_HWC ∨ l = layout_CHW) ∧
       Forall (λ b, b.2 = l) bufs ∧
       (isImageLayout l = true → ToPyBufferInfo imgData (Some l) = Ok bufs).
Proof.
  intros Hx.
  set (l := if decide (numBuffers imgData = 1) then
       if decide (fmt_numChannels (img_format imgData) = 1) then layout_HW
       else if decide (img_numPlanes imgData = 1) then layout_HWC else layout_CHW
     else layout_HWC).
  exists l. split; [subst l; repeat case_decide; tauto|].
  pose proof Hx as Hx0.
  unfold ToPyBufferInfo in Hx |- *. case_decide as Hnp.
  { injection Hx as <-. by split. }
  simpl in Hx. apply mapM_Ok in Hx.
  assert (Forall2 (λ p b, exportBuffer imgData (Some l) (numBuffers imgData) p = Ok b ∧ b.2 = l)
            (seqZ 0 (numBuffers imgData)) bufs) as Hall.
  { eapply Forall2_impl; [exact Hx|]. intros p [b layout] Hb. simpl.
    apply exportBuffer_None in Hb as (inf & Hinf & -> & ->).
    pose proof (inferBuffer_layout _ _ _ _ Hinf) as Hl. fold l in Hl.
    split; [|done].
    rewrite (exportBuffer_Some _ _ _ _ _ Hinf). rewrite <- Hl.
    destruct (inferBuffer_ranks _ _ _ _ Hinf) as [Hs Ht].
    rewrite applyLayout_same; [done | | done | done].
    rewrite Hl. subst l. repeat case_decide; tauto. }
  split.
  - apply Forall2_Forall_r with (Q := λ b, b.2 = l) in Hall; [done|].
    apply Forall_forall. by intros p _ b [_ ?].
  - intros Himg. rewrite Himg. simpl. apply mapM_Ok.
    eapply Forall2_impl; [exact Hall|]. by intros p b [? _].
Qed.

(** The switch on a buffer of rank 3 that is read as channel-first. *)
Lemma shapeStridesLayout_rank3_channelFirst fmt tensor :
  dl_ndim tensor = 3 →
  (if decide (fmt ≠ FMT_NONE)
   then planeNumChannels fmt 0 ≠ zat (dl_shape tensor) 2
   else 4 < zat (dl_shape tensor) 2) →
  ∃ shape strides,
    shapeStridesLayout fmt 0 tensor = Ok (shape, strides, TENSOR_NCHW) ∧
    e1 shape = zat (dl_shape tensor) 0.
Proof.
  intros Hnd Hlayout. unfold shapeStridesLayout. rewrite Hnd.
  destruct (decide (3 = 1)) as [?|_]; [lia|].
  destruct (decide (3 = 2)) as [?|_]; [lia|].
  destruct (decide (3 = 3 ∨ 3 = 4)) as [_|?]; [|lia].
  destruct (decide (3 = 3)) as [_|?]; [|lia].
  change (3 - 3) with 0. change (3 - 2) with 1. change (3 - 1) with 2.
  assert ((if decide (fmt ≠ FMT_NONE)
           then if decide (planeNumChannels fmt 0 = zat (dl_shape tensor) 2)
                then TENSOR_NHWC else TENSOR_NCHW
           else if decide (zat (dl_shape tensor) 2 ≤ 4) then TENSOR_NHWC else TENSOR_NCHW)
          = TENSOR_NCHW) as ->.
  { destruct (decide (fmt ≠ FMT_NONE)).
    - by rewrite decide_False.
    - rewrite decide_False; [done | lia]. }
  by eexists _, _.
Qed.

(** A channel-first buffer of rank 3 with 3 or 4 planes is turned down. *)
Lemma extractBuffer_planar_rejected fmt tensor :
  dl_ndim tensor = 3 →
  (if decide (fmt ≠ FMT_NONE)
   then planeNumChannels fmt 0 ≠ zat (dl_shape tensor) 2
   else 4 < zat (dl_shape tensor) 2) →
  3 ≤ zat (dl_shape tensor) 0 ≤ 4 →
  extractBuffer fmt 0 tensor 0 = Throw invalid_argument.
Proof.
  intros Hnd Hlayout Hc.
  destruct (shapeStridesLayout_rank3_channelFirst fmt tensor Hnd Hlayout)
    as (shape & strides & Hssl & He1).
  unfold extractBuffer. rewrite Hssl.
  cbv beta iota delta [mbind outcome_bind throw_when].
  do 3 match goal with
       | |- match (if ?c then _ else _) with _ => _ end = _ => destruct c; [reflexivity|]
       end.
  assert (shapeNumChannels TENSOR_NCHW shape = zat (dl_shape tensor) 0) as Hn.
  { unfold shapeNumChannels, idxChannel, ext. simpl. rewrite He1. apply s32_id. lia. }
  cbn [layoutIsChannelLast numPlanes numChannels]. rewrite Hn.
  rewrite (s32_id (_ * _)) by nia. rewrite s32_id by nia.
  by rewrite (bool_decide_eq_true_2 (0 + _ * _ > 4)) by nia.
Qed.

(** X17. An image of 3 or 4 planes that is exported as one CHW buffer does
    not come back: wrapping that buffer again, with the image's own format
    as the declared format, throws an invalid-argument error. The buffer is
    read as channel-first (its trailing extent, the width, is not the
    channel count of plane 0, or is above 4 when there is no format), and a
    channel-first buffer of 3 or 4 planes counts as 9 or 16 channels. *)
Theorem planar_export_not_reingestible (img : ImageData) (dev : DLDevice) (b : buffer_info) :
  ToPyBufferInfo img None = Ok [(b, layout_CHW)] →
  3 ≤ img_numPlanes img ≤ 4 →
  (if decide (img_format img ≠ FMT_NONE)
   then planeNumChannels (img_format img) 0 ≠ width (plane img 0)
   else 4 < width (plane img 0)) →
  exportThenIngest img dev = Throw invalid_argument.
Proof.
  intros Hexp Hnp Hw. unfold exportThenIngest. rewrite Hexp. simpl.
  apply ToPyBufferInfo_Ok in Hexp as [[? _]|[_ Hall]]; [lia|].
  assert (exportBuffer img None (numBuffers img) 0 = Ok (b, layout_CHW)) as Hb.
  { destruct (seqZ 0 (numBuffers img)) as [|p ps] eqn:Hseq; [by inversion Hall|].
    inversion Hall as [|? ? ? ? Hp Hrest]; subst.
    assert (p = 0) as ->; [|done].
    assert (seqZ 0 (numBuffers img) !! 0%nat = Some p) as Hl by (by rewrite Hseq).
    apply lookup_seqZ in Hl. lia. }
  apply exportBuffer_None in Hb as (inf & Hinf & -> & Hl).
  apply inferBuffer_Ok in Hinf.
  destruct Hinf as [Hi|[Hi|[Hi|Hi]]]; decompose [and] Hi; subst inf; try done.
  unfold FillNVCVImageBufferStrided, ExtractBufferImageInfo. simpl.
  rewrite extractBuffer_planar_rejected; done.
Qed.

End MoreExport.

Lemma exported_buffers_wellformed_witness :
  ∃ bufs b layout,
    ToPyBufferInfo (H:=reference_helpers) Samples.nv12_6x4 (Some ["N"; "H"; "W"; "C"]%char)
      = Ok bufs ∧
    bufs !! 1%nat = Some (b, layout) ∧
    bi_ptr b = 8192 ∧ length (bi_shape b) = 4%nat.
Proof.
  eexists _, _, _. split; [vm_compute; reflexivity|]. split; [reflexivity|].
  edestruct (exported_buffers_wellformed (H:=reference_helpers) Samples.nv12_6x4
               (Some ["N"; "H"; "W"; "C"]%char)) with (i := 1%nat)
    as (_ & Hptr & Hshape & _); [vm_compute; reflexivity | reflexivity |].
  split; [exact Hptr | exact Hshape].
Defined.

Lemma export_requesting_inferred_layout_witness :
  ∃ bufs, ToPyBufferInfo (H:=reference_helpers) Samples.rgb_5x2 None = Ok bufs ∧
          ToPyBufferInfo (H:=reference_helpers) Samples.rgb_5x2 (Some layout_HWC) = Ok bufs.
Proof.
  eexists. split; [vm_compute; reflexivity|].
  edestruct (export_requesting_inferred_layout (H:=reference_helpers) Samples.rgb_5x2)
    as (l & _ & Hl & Hsame); [vm_compute; reflexivity|].
  apply Forall_cons in Hl as [Hl _]. simpl in Hl. subst l.
  apply Hsame. reflexivity.
Defined.

Lemma planar_export_not_reingestible_witness :
  exportThenIngest (H:=reference_helpers) Inputs.planar_rgb_6x4 Samples.cuda0
  = Throw invalid_argument.
Proof.
  eapply (planar_export_not_reingestible (H:=reference_helpers)).
  - vm_compute. reflexivity.
  - vm_compute. split; discriminate.
  - vm_compute. discriminate.
Defined.

(* --------------------------------------------------------------------- *)
(** ** Retargeting a wrapper, and getting its buffers back *)
(* --------------------------------------------------------------------- *)

(** What a call of [setWrapData] that returns has checked and stored. *)
Lemma setWrapData_Ok_inv (this : Image) (bufs : list ExternalBuffer) (imgData : ImageData) :
  (setWrapData this bufs imgData).2 = Ok tt →
  ∃ b0, head bufs = Some b0 ∧
        (setWrapData this bufs imgData).1 =
          mkImage (Some (mkWrapData (device_type (dl_device (dlTensor b0)))
                           (match bufs with [b] => PyBuffer b | _ => PyBufferList bufs end)))
                  (Some imgData) ∧
        Forall (λ b, dl_device (dlTensor b) = dl_device (dlTensor b0)) bufs.
Proof.
  unfold setWrapData. destruct (m_wrapData this) as [wd|]; [|done].
  destruct bufs as [|b0 rest]; [done|]. intros Hok. exists b0. split; [done|].
  destruct (decide (length (b0 :: rest) = 1%nat)) as [Hlen|Hlen].
  - destruct rest; [|done]. split; [done|]. by repeat constructor.
  - destruct (existsb (onOtherDevice b0) rest) eqn:Hex; [done|].
    split; [by destruct rest|].
    constructor; [done|]. apply Forall_forall. intros b Hin.
    destruct (decide (dl_device (dlTensor b) = dl_device (dlTensor b0))) as [|Hne]; [done|].
    assert (existsb (onOtherDevice b0) rest = true) as Hc; [|congruence].
    apply existsb_exists. exists b. split; [by apply list_elem_of_In|].
    unfold onOtherDevice. apply bool_decide_eq_true.
    destruct (dl_device (dlTensor b)) as [t i], (dl_device (dlTensor b0)) as [t0 i0]. simpl.
    destruct (decide (t = t0)) as [->|]; [|tauto].
    destruct (decide (i = i0)) as [->|]; [done | tauto].
Qed.

(** X18. The outcomes of [Image::setWrapData]. Without wrap data or without
    buffers an assertion fails and the image is as before. Otherwise the
    call returns exactly when every buffer after the first is on the device
    (type and id) of the first; the image then has the device type of the
    first buffer, wraps the one buffer or the list of all of them, and
    holds the new image data. When the call does not return it throws a
    runtime error, and only the device type of the image has changed. *)
Theorem setWrapData_outcomes (this : Image) (bufs : list ExternalBuffer) (imgData : ImageData) :
  let sameDevice (b0 b : ExternalBuffer) :=
    device_type (dl_device (dlTensor b)) = device_type (dl_device (dlTensor b0)) ∧
    device_id (dl_device (dlTensor b)) = device_id (dl_device (dlTensor b0)) in
  let after := setWrapData this bufs imgData in
  (m_wrapData this = None ∨ bufs = [] → after = (this, Abort)) ∧
  (∀ wd b0 rest, m_wrapData this = Some wd → bufs = b0 :: rest →
     (after.2 = Ok tt ↔ Forall (sameDevice b0) rest) ∧
     (after.2 = Ok tt →
      after.1 = mkImage
        (Some (mkWrapData (device_type (dl_device (dlTensor b0)))
                 (match rest with [] => PyBuffer b0 | _ => PyBufferList bufs end)))
        (Some imgData)) ∧
     (after.2 ≠ Ok tt →
      after = (mkImage (Some (mkWrapData (device_type (dl_device (dlTensor b0))) (obj wd)))
                 (m_impl this), Throw runtime_error))).
Proof.
  intros sameDevice after. subst after. split.
  - unfold setWrapData. intros [->| ->]; [done|]. by destruct (m_wrapData this).
  - intros wd b0 rest Hwd ->. unfold setWrapData. rewrite Hwd.
    destruct rest as [|b1 rest].
    { simpl. split; [split; [by constructor | done]|]. split; [done|]. by intros []. }
    destruct (decide (length (b0 :: b1 :: rest) = 1%nat)) as [?|_]; [done|].
    destruct (existsb (onOtherDevice b0) (b1 :: rest)) eqn:Hex; simpl.
    + split; [|split; [done|done]]. split; [done|]. intros Hall.
      apply existsb_exists in Hex as (b & Hin & Hb).
      apply list_elem_of_In in Hin. rewrite Forall_forall in Hall.
      destruct (Hall b Hin) as [Ht Hi].
      unfold onOtherDevice in Hb. apply bool_decide_eq_true in Hb. tauto.
    + split; [|split; [done|by intros []]]. split; [|done]. intros _.
      apply Forall_forall. intros b Hin.
      destruct (decide (sameDevice b0 b)) as [|Hno]; [done|].
      assert (existsb (onOtherDevice b0) (b1 :: rest) = true) as Hc; [|congruence].
      apply existsb_exists. exists b. split; [by apply list_elem_of_In|].
      unfold onOtherDevice. apply bool_decide_eq_true. unfold sameDevice in Hno.
      destruct (decide (device_type (dl_device (dlTensor b))
                        = device_type (dl_device (dlTensor b0)))); [|tauto].
      destruct (decide (device_id (dl_device (dlTensor b))
                        = device_id (dl_device (dlTensor b0)))); tauto.
Qed.

Lemma setWrapData_outcomes_witness :
  setWrapData Samples.wrapper [Samples.buf Samples.cuda1 4096; Samples.buf Samples.cuda1 8192]
    (mkImageData FMT_U8 []) =
  (mkImage (Some (mkWrapData 2
              (PyBufferList [Samples.buf Samples.cuda1 4096; Samples.buf Samples.cuda1 8192])))
           (Some (mkImageData FMT_U8 [])), Ok tt).
Proof.
  destruct (setWrapData_outcomes Samples.wrapper
              [Samples.buf Samples.cuda1 4096; Samples.buf Samples.cuda1 8192]
              (mkImageData FMT_U8 [])) as [_ Hsome].
  destruct (Hsome (mkWrapData 1 PyNone) (Samples.buf Samples.cuda1 4096)
              [Samples.buf Samples.cuda1 8192] eq_refl eq_refl) as (Hiff & Himg & _).
  assert ((setWrapData Samples.wrapper
             [Samples.buf Samples.cuda1 4096; Samples.buf Samples.cuda1 8192]
             (mkImageData FMT_U8 [])).2 = Ok tt) as Hok.
  { apply Hiff. repeat constructor. }
  specialize (Himg Hok).
  destruct (setWrapData _ _ _) as [after r]. simpl in *. by rewrite Himg, Hok.
Defined.

Section WrapAndExport.
Context `{External} `{ExternalImage}.

(** [Image::cuda] with no layout on an image that wraps external data. *)
Lemma cuda_wrapped (this : Image) (wd : WrapData) :
  m_wrapData this = Some wd →
  cuda this None =
    if IsCudaAccessible (devType wd) then Ok (PyWrappedObject (obj wd))
    else Throw runtime_error.
Proof. intros Hwd. unfold cuda. rewrite Hwd. by destruct (IsCudaAccessible _). Qed.

(** X19. After [setWrapData] has returned, [Image::cuda] with no requested
    layout gives back the very object that was wrapped, the one buffer or
    the list of the buffers, when the device type of the first buffer is
    CUDA-accessible, and throws a runtime error when it is not; the image
    data plays no part. *)
Theorem cuda_returns_wrapped (this : Image) (bufs : list ExternalBuffer) (b0 : ExternalBuffer)
    (imgData : ImageData) :
  (setWrapData this bufs imgData).2 = Ok tt →
  head bufs = Some b0 →
  cuda (setWrapData this bufs imgData).1 None =
    if IsCudaAccessible (device_type (dl_device (dlTensor b0)))
    then Ok (PyWrappedObject (match bufs with [b] => PyBuffer b | _ => PyBufferList bufs end))
    else Throw runtime_error.
Proof.
  intros Hok Hhead.
  destruct (setWrapData_Ok_inv _ _ _ Hok) as (b0' & Hhead' & Hafter & _).
  rewrite Hhead in Hhead'. injection Hhead' as <-.
  rewrite Hafter. by erewrite cuda_wrapped by reflexivity.
Qed.

(** X20. What [ToPython] makes of CUDA image data: one external buffer per
    buffer of [ToPyBufferInfo], each on device (kDLCUDA, 0) whatever device
    the image data is on. So the buffers of one export are always on one
    device for [setWrapData], which returns on them. *)
Theorem ToPython_cuda_buffers (imgData : ImageData) (userLayout : option TensorLayout)
    (owner : Image) (out : list PyExported) :
  ToPython (mkAnyImageData IMAGE_BUFFER_STRIDED_CUDA imgData) userLayout owner = Ok out →
  (∃ infos, ToPyBufferInfo imgData userLayout = Ok infos ∧
     out = (λ b, PyExternalBuffer
                   (mkExternalBuffer (DLPackTensorOf b.1 (mkDLDevice kDLCUDA 0))) owner)
           <$> infos) ∧
  length (exportedBuffers out) = length out ∧
  Forall (λ buf, dl_device (dlTensor buf) = mkDLDevice kDLCUDA 0) (exportedBuffers out) ∧
  (∀ this wd d, m_wrapData this = Some wd → out ≠ [] →
     (setWrapData this (exportedBuffers out) d).2 = Ok tt).
Proof.
  unfold ToPython. simpl. intros Hp. inv_bind Hp. rename a into infos.
  apply mapM_Ok in Hp.
  assert (out = (λ b, PyExternalBuffer
                   (mkExternalBuffer (DLPackTensorOf b.1 (mkDLDevice kDLCUDA 0))) owner)
                <$> infos) as ->.
  { clear Hm. induction Hp as [|b o infos out Hb _ IH]; [done|].
    simpl. injection Hb as <-. by rewrite IH. }
  split; [by exists infos|].
  assert (exportedBuffers
            ((λ b, PyExternalBuffer
                     (mkExternalBuffer (DLPackTensorOf b.1 (mkDLDevice kDLCUDA 0))) owner)
             <$> infos)
          = (λ b, mkExternalBuffer (DLPackTensorOf b.1 (mkDLDevice kDLCUDA 0))) <$> infos)
    as Hbufs.
  { clear. unfold exportedBuffers. induction infos as [|b infos IH]; [done|].
    csimpl. by rewrite IH. }
  rewrite Hbufs. split; [by rewrite !length_fmap|]. split.
  { apply Forall_fmap. by apply Forall_forall. }
  intros this wd d Hwd Hne. destruct infos as [|b0 infos]; [done|].
  simpl. unfold setWrapData. rewrite Hwd.
  destruct (decide (length _ = 1%nat)); [done|].
  destruct (existsb _ _) eqn:Hex; [|done]. exfalso.
  apply existsb_exists in Hex as (b & Hin & Hb).
  apply list_elem_of_In, list_elem_of_fmap in Hin as (x & -> & _).
  unfold onOtherDevice in Hb. apply bool_decide_eq_true in Hb. simpl in Hb. tauto.
Qed.

Lemma castBuffers_Some (spBuffers : list ExternalBuffer) :
  castBuffers (Some <$> spBuffers) = Ok spBuffers.
Proof.
  unfold castBuffers. induction spBuffers as [|b l IH]; [done|]. csimpl. by rewrite IH.
Qed.

(** X21. The checks of [WrapExternalBufferVector] come before the cache is
    touched. An object that is no external buffer gives a runtime error, an
    empty list of buffers an invalid-argument error, and so do buffers that
    [CreateNVCVImageDataCuda] turns down; in each case the image of the
    cache is as before and nothing is added to the cache. *)
Theorem WrapExternalBufferVector_checks (item : option ImageObject)
    (buffers : list (option ExternalBuffer)) (fmt : ImageFormat) :
  (None ∈ buffers →
   WrapExternalBufferVector item buffers fmt = (item, Throw runtime_error)) ∧
  (WrapExternalBufferVector item [] fmt = (item, Throw invalid_argument)) ∧
  (∀ spBuffers e,
     buffers = Some <$> spBuffers →
     CreateNVCVImageDataCuda (dlTensor <$> spBuffers) fmt = Throw e →
     e = invalid_argument ∧
     WrapExternalBufferVector item buffers fmt = (item, Throw invalid_argument)).
Proof.
  split; [|split].
  - intros Hin. unfold WrapExternalBufferVector.
    assert (castBuffers buffers = Throw runtime_error) as ->; [|done].
    unfold castBuffers. induction buffers as [|o rest IH]; [by apply elem_of_nil in Hin|].
    simpl. destruct o as [b|]; [|done]. simpl.
    rewrite IH; [done|]. by apply elem_of_cons in Hin as [?|?].
  - done.
  - intros spBuffers e -> Hcreate.
    assert (e = invalid_argument) as -> by (by eapply Fill_throw).
    split; [done|]. unfold WrapExternalBufferVector.
    by rewrite castBuffers_Some, Hcreate.
Qed.

(** X22. When [WrapExternalBufferVector] returns an image, the list of
    buffers was not empty and all on the device of the first, the image
    holds the image data that [CreateNVCVImageDataCuda] made of them, it was
    added to the cache exactly when the cache had no wrapper to give, a new
    image has the key of a wrapper, and [Image::cuda] with no layout gives
    the buffers back as they were passed (one buffer, or the list), or
    throws a runtime error when their device type is not
    CUDA-accessible. *)
Theorem wrapped_image_returns_its_buffers (item : option ImageObject)
    (spBuffers : list ExternalBuffer) (fmt : ImageFormat) (img : ImageObject) (added : bool) :
  (WrapExternalBufferVector item (Some <$> spBuffers) fmt).2 = Ok (img, added) →
  ∃ b0 imgData,
    head spBuffers = Some b0 ∧
    CreateNVCVImageDataCuda (dlTensor <$> spBuffers) fmt = Ok imgData ∧
    m_impl (io_image img) = Some imgData ∧
    Forall (λ b, dl_device (dlTensor b) = dl_device (dlTensor b0)) spBuffers ∧
    (added = true ↔ item = None) ∧
    (item = None → m_key img = Key.Wrapper) ∧
    cuda (io_image img) None =
      if IsCudaAccessible (device_type (dl_device (dlTensor b0)))
      then Ok (PyWrappedObject
                 (match spBuffers with [b] => PyBuffer b | _ => PyBufferList spBuffers end))
      else Throw runtime_error.
Proof.
  unfold WrapExternalBufferVector. rewrite castBuffers_Some.
  destruct (CreateNVCVImageDataCuda _ fmt) as [imgData| |] eqn:Hcreate; [|done..].
  destruct item as [item|]; simpl.
  - intros Hr. inv_bind Hr. destruct a. injection Hr as <- <-.
    destruct (setWrapData_Ok_inv _ _ _ Hm) as (b0 & Hhead & Hafter & Hdev).
    exists b0, imgData. simpl. rewrite Hafter.
    split; [done|]. split; [done|]. split; [done|].
    split; [done|]. split; [done|]. split; [done|].
    unfold cuda. simpl. by destruct (IsCudaAccessible _).
  - intros Hr. inv_bind Hr. injection Hr as <- <-.
    unfold Image_wrap in Hm. inv_bind Hm. inv_bind Hm. destruct a1. injection Hm as <-.
    destruct (setWrapData_Ok_inv _ _ _ Hm1) as (b0 & Hhead & Hafter & Hdev).
    exists b0, imgData. simpl. rewrite Hafter.
    split; [done|]. split; [done|]. split; [done|].
    split; [done|]. split; [done|]. split; [done|].
    unfold cuda. simpl. by destruct (IsCudaAccessible _).
Qed.

Lemma wrapOne_Ok fmt items out b st' :
  wrapOne fmt (items, out) (Some b) = Ok st' →
  ∃ entry, st' = (removelast items, out ++ [entry]) ∧ wrapsBuffer fmt items 0 b entry.
Proof.
  unfold wrapOne. intros Hw. inv_bind Hw. rename a into imgData.
  destruct (last items) as [item|] eqn:Hlast.
  - inv_bind Hw. destruct a. injection Hw as <-.
    eexists. split; [reflexivity|]. exists imgData. split; [done|].
    simpl in Hm0 |- *. unfold setWrapData in *.
    destruct (m_wrapData (io_image item)) as [wd|]; [|done]. simpl.
    split; [done|].
    assert (0 < length items)%nat as Hlen by (destruct items; [done | simpl; lia]).
    rewrite decide_True by done. split; [done|]. exists item.
    rewrite last_lookup in Hlast.
    replace (length items - 1 - 0)%nat with (pred (length items)) by lia. done.
  - inv_bind Hw. injection Hw as <-.
    apply last_None in Hlast as ->. eexists. split; [reflexivity|].
    exists imgData. split; [done|].
    unfold Image_wrap in Hm0. inv_bind Hm0. inv_bind Hm0. injection Hm0 as <-. simpl.
    split; [done|]. done.
Qed.

Lemma lookup_removelast {A} (l : list A) (i : nat) :
  (i < length l - 1)%nat → removelast l !! i = l !! i.
Proof.
  revert i. induction l as [|x l IH]; intros i Hi; [done|].
  destruct l as [|y l]; [simpl in Hi; lia|].
  change (removelast (x :: y :: l)) with (x :: removelast (y :: l)).
  destruct i as [|i]; [done|]. simpl. apply IH. simpl in *. lia.
Qed.

Lemma length_removelast_pred {A} (l : list A) : length (removelast l) = (length l - 1)%nat.
Proof.
  induction l as [|x l IH]; [done|]. destruct l as [|y l]; [done|].
  change (removelast (x :: y :: l)) with (x :: removelast (y :: l)).
  simpl in *. lia.
Qed.

Lemma wrapsBuffer_shift fmt items i b entry :
  wrapsBuffer fmt (removelast items) i b entry → wrapsBuffer fmt items (S i) b entry.
Proof.
  intros (imgData & Hc & Himg & Hrest). exists imgData. split; [done|]. split; [done|].
  rewrite length_removelast_pred in Hrest.
  destruct (decide (i < length items - 1)%nat) as [Hi|Hi].
  - rewrite decide_True by lia. destruct Hrest as (Hadd & item & Hitem & Hk & Hs).
    split; [done|]. exists item. split; [|done].
    rewrite lookup_removelast in Hitem by lia.
    by replace (length items - 1 - S i)%nat with (length items - 1 - 1 - i)%nat by lia.
  - by rewrite decide_False by lia.
Qed.

Lemma wrapManyLoop_cons fmt st buffer rest :
  wrapManyLoop fmt st (buffer :: rest) =
    match wrapOne fmt st buffer with
    | Ok st' => wrapManyLoop fmt st' rest
    | Throw e => (st, Throw e)
    | Abort => (st, Abort)
    end.
Proof. reflexivity. Qed.

Lemma wrapManyLoop_Ok fmt (bufs : list ExternalBuffer) : ∀ items out st',
  wrapManyLoop fmt (items, out) (Some <$> bufs) = (st', Ok tt) →
  ∃ new, st'.2 = out ++ new ∧ length new = length bufs ∧
         ∀ (i : nat) b, bufs !! i = Some b →
           ∃ entry, new !! i = Some entry ∧ wrapsBuffer fmt items i b entry.
Proof.
  induction bufs as [|b bufs IH]; intros items out st' Hloop.
  - injection Hloop as <-. exists []. simpl. by rewrite app_nil_r.
  - rewrite fmap_cons, wrapManyLoop_cons in Hloop.
    destruct (wrapOne fmt (items, out) (Some b)) as [st1| |] eqn:Hone;
      [|by injection Hloop..].
    apply wrapOne_Ok in Hone as (entry & -> & Hentry).
    apply IH in Hloop as (new & Hout & Hlen & Hall).
    exists (entry :: new). rewrite Hout, <- app_assoc. split; [done|].
    split; [simpl; lia|].
    intros [|i] b' Hb'; simpl in Hb'.
    + injection Hb' as <-. by exists entry.
    + destruct (Hall i b' Hb') as (e & He & Hw). exists e. split; [done|].
      by apply wrapsBuffer_shift.
Qed.

Lemma wrapManyLoop_length fmt (good : list (option ExternalBuffer)) : ∀ st st',
  wrapManyLoop fmt st good = (st', Ok tt) →
  length st'.2 = (length st.2 + length good)%nat.
Proof.
  induction good as [|b good IH]; intros st st' Hloop.
  - injection Hloop as <-. simpl. lia.
  - rewrite wrapManyLoop_cons in Hloop.
    destruct (wrapOne fmt st b) as [st1| |] eqn:Hone; [|by injection Hloop..].
    apply IH in Hloop. rewrite Hloop. destruct st as [items out].
    destruct b as [b|]; [|done].
    apply wrapOne_Ok in Hone as (entry & -> & _). simpl. rewrite length_app. simpl. lia.
Qed.

Lemma wrapManyLoop_app fmt (good rest : list (option ExternalBuffer)) : ∀ st st',
  wrapManyLoop fmt st good = (st', Ok tt) →
  wrapManyLoop fmt st (good ++ rest) = wrapManyLoop fmt st' rest.
Proof.
  induction good as [|b good IH]; intros st st' Hloop.
  - by injection Hloop as <-.
  - rewrite <- app_comm_cons, !wrapManyLoop_cons in *.
    destruct (wrapOne fmt st b) as [st1| |]; [by apply IH | by injection Hloop..].
Qed.

(** X23. When [WrapExternalBufferMany] returns, it returns one image per
    buffer, in order: the images the loop has recorded, each with the mark
    that says whether it was added to the cache. Image [i] wraps buffer [i]
    alone, on that buffer's device, with the image data
    [CreateNVCVImageDataCuda] made of it; the devices of the buffers are not
    compared. The first images are the wrappers the cache gave, taken from
    the end of the list, each once, and are recorded as not added; the
    images past those are new, have the key of a wrapper and are recorded as
    added to the cache. *)
Theorem WrapExternalBufferMany_wraps_each (items : list ImageObject)
    (bufs : list ExternalBuffer) (fmt : ImageFormat) (st : ManyState)
    (out : list ImageObject) :
  WrapExternalBufferMany items (Some <$> bufs) fmt = (st, Ok out) →
  length out = length bufs ∧
  out = st.2.*1 ∧
  ∀ (i : nat) b, bufs !! i = Some b →
    ∃ img added, out !! i = Some img ∧ st.2 !! i = Some (img, added) ∧
                 wrapsBuffer fmt items i b (img, added).
Proof.
  unfold WrapExternalBufferMany.
  destruct (wrapManyLoop fmt (items, []) (Some <$> bufs)) as [st' r] eqn:Hloop.
  simpl. intros [= -> Hr]. inv_bind Hr. destruct a. injection Hr as <-. subst r.
  apply wrapManyLoop_Ok in Hloop as (new & Hout & Hlen & Hall).
  simpl in Hout. rewrite Hout. rewrite length_fmap. split; [done|]. split; [done|].
  intros i b Hb. destruct (Hall i b Hb) as ([img added] & He & Hw).
  exists img, added. split; [|done]. by rewrite list_lookup_fmap, He.
Qed.

(** X24. When a buffer makes [WrapExternalBufferMany] throw, the wrappers
    for the buffers before it have been made all the same: the state of
    the loop is the one reached after those buffers, with one image for
    each of them. A null buffer throws a runtime error. *)
Theorem WrapExternalBufferMany_keeps_what_it_did (items : list ImageObject)
    (good rest : list (option ExternalBuffer)) (bad : option ExternalBuffer)
    (fmt : ImageFormat) (st : ManyState) (out : list ImageObject) (e : exn) :
  WrapExternalBufferMany items good fmt = (st, Ok out) →
  wrapOne fmt st bad = Throw e →
  WrapExternalBufferMany items (good ++ bad :: rest) fmt = (st, Throw e) ∧
  length st.2 = length good ∧
  (bad = None → e = runtime_error).
Proof.
  unfold WrapExternalBufferMany.
  destruct (wrapManyLoop fmt (items, []) good) as [st' r] eqn:Hloop.
  simpl. intros [= -> Hr] Hbad. destruct r as [[]| |]; [|done..].
  rewrite (wrapManyLoop_app _ _ _ _ _ Hloop), wrapManyLoop_cons, Hbad. simpl.
  split; [done|]. split.
  - apply wrapManyLoop_length in Hloop. simpl in Hloop. lia.
  - intros ->. destruct st as [its o]. simpl in Hbad. by injection Hbad as <-.
Qed.

Lemma mapM_total {A B} (f : A → B) (l : list A) :
  mapM (λ a, Ok (f a)) l = Ok (f <$> l).
Proof. induction l as [|a l IH]; [done|]. csimpl. by rewrite IH. Qed.

(** [ToPython] on CUDA image data, from what [ToPyBufferInfo] gives. *)
Lemma ToPython_cuda (imgData : ImageData) (userLayout : option TensorLayout) (owner : Image) :
  ToPython (mkAnyImageData IMAGE_BUFFER_STRIDED_CUDA imgData) userLayout owner =
    match ToPyBufferInfo imgData userLayout with
    | Ok infos =>
        Ok ((λ b : buffer_info * TensorLayout,
               PyExternalBuffer
                 (mkExternalBuffer (DLPackTensorOf b.1 (mkDLDevice kDLCUDA 0))) owner)
            <$> infos)
    | Throw e => Throw e
    | Abort => Abort
    end.
Proof.
  unfold ToPython. simpl. destruct (ToPyBufferInfo imgData userLayout); [|done..].
  simpl. apply mapM_total.
Qed.

(** X25. [Image::cuda] throws runtime errors only. When a layout is requested
    or the image wraps nothing, and the image has CUDA data that
    [ToPyBufferInfo] can describe, it returns external buffers that the
    image owns, on device (kDLCUDA, 0): the buffer itself when there is
    exactly one, the list of them otherwise. *)
Theorem cuda_outcomes (this : Image) (layout : option TensorLayout) :
  match cuda this layout with
  | Throw e => e = runtime_error
  | _ => True
  end ∧
  ∀ d infos,
    layout ≠ None ∨ m_wrapData this = None →
    exportDataCuda (m_impl this) = Some d →
    ToPyBufferInfo d layout = Ok infos →
    let objs := (λ b, PyExternalBuffer
                        (mkExternalBuffer (DLPackTensorOf b.1 (mkDLDevice kDLCUDA 0))) this)
                <$> infos in
    cuda this layout = Ok (match objs with [o] => PyOne o | _ => PyMany objs end).
Proof.
  assert (∀ d, match (out ← ToPython (mkAnyImageData IMAGE_BUFFER_STRIDED_CUDA d) layout this;
                      match out with [o] => Ok (PyOne o) | _ => Ok (PyMany out) end)
               with Throw e => e = runtime_error | _ => True end) as Hexport.
  { intros d. rewrite ToPython_cuda.
    destruct (ToPyBufferInfo d layout) as [infos|e|] eqn:Hx; simpl; [|by eapply ToPyBufferInfo_throw|done].
    by destruct (_ <$> infos) as [|o [|o' rest]]. }
  split.
  - unfold cuda. destruct layout as [l|].
    + destruct (exportDataCuda (m_impl this)) as [d|]; [apply Hexport | done].
    + destruct (m_wrapData this) as [wd|].
      * by destruct (IsCudaAccessible (devType wd)).
      * destruct (exportDataCuda (m_impl this)) as [d|]; [apply Hexport | done].
  - intros d infos Hpath Hd Hinfos objs. subst objs. unfold cuda.
    assert (match layout, m_wrapData this with
            | None, Some wd => False
            | _, _ => True
            end) as Hcase.
    { destruct layout; [done|]. destruct Hpath as [?| ->]; done. }
    destruct layout as [l|]; [|destruct (m_wrapData this) as [wd|]; [done|]];
      rewrite Hd, ToPython_cuda, Hinfos; simpl;
      by destruct (_ <$> infos) as [|o [|o' rest]].
Qed.

(** X26. [WrapExternalBuffer] returns whenever [CreateNVCVImageDataCuda]
    accepts the buffer and the wrapper given by the cache has wrap data
    (or, with none given, the size of a new wrapper can be computed). The
    image it returns wraps that buffer on the buffer's device with the
    image data made of it; it is the image of the cache when there was one,
    and is added to the cache otherwise. *)
Theorem WrapExternalBuffer_returns (item : option ImageObject) (buffer : ExternalBuffer)
    (fmt : ImageFormat) (imgData : ImageData) :
  CreateNVCVImageDataCuda [dlTensor buffer] fmt = Ok imgData →
  match item with
  | Some it => m_wrapData (io_image it) ≠ None
  | None => returns wrapperSizeInBytes
  end →
  ∃ img,
    WrapExternalBuffer item buffer fmt =
      ((λ _, img) <$> item, Ok (img, bool_decide (item = None))) ∧
    io_image img =
      mkImage (Some (mkWrapData (device_type (dl_device (dlTensor buffer))) (PyBuffer buffer)))
              (Some imgData) ∧
    m_key img = default Key.Wrapper (m_key <$> item).
Proof.
  intros Hcreate Hitem. unfold WrapExternalBuffer, WrapExternalBufferVector. simpl.
  rewrite Hcreate. destruct item as [it|].
  - unfold rewrap, setWrapData.
    destruct (m_wrapData (io_image it)) as [wd|]; [|done]. simpl.
    eexists. split; [reflexivity|]. done.
  - destruct Hitem as [sz Hsz]. unfold Image_wrap. rewrite Hsz. simpl.
    eexists. split; [reflexivity|]. done.
Qed.

Lemma wrapOne_returns fmt items out b :
  returns (CreateNVCVImageDataCuda [dlTensor b] fmt) →
  Forall (λ it, m_wrapData (io_image it) ≠ None) items →
  returns wrapperSizeInBytes →
  ∃ entry, wrapOne fmt (items, out) (Some b) = Ok (removelast items, out ++ [entry]).
Proof.
  intros [imgData Hcreate] Hitems [sz Hsz]. unfold wrapOne. simpl. rewrite Hcreate. simpl.
  destruct (last items) as [it|] eqn:Hlast.
  - assert (m_wrapData (io_image it) ≠ None) as Hwd.
    { rewrite Forall_forall in Hitems. apply Hitems.
      rewrite last_lookup in Hlast. by eapply list_elem_of_lookup_2. }
    unfold rewrap, setWrapData. destruct (m_wrapData (io_image it)) as [wd|]; [|done].
    simpl. by eexists.
  - apply last_None in Hlast as ->. unfold Image_wrap. rewrite Hsz. simpl. by eexists.
Qed.

Lemma Forall_removelast {A} (P : A → Prop) (l : list A) :
  Forall P l → Forall P (removelast l).
Proof.
  induction 1 as [|x l Hx Hl IH]; [done|]. destruct l as [|y l]; [done|].
  change (removelast (x :: y :: l)) with (x :: removelast (y :: l)). by constructor.
Qed.

(** X27. [WrapExternalBufferMany] returns whenever [CreateNVCVImageDataCuda]
    accepts each buffer on its own, the wrappers given by the cache have
    wrap data and the size of a new wrapper can be computed: nothing that
    relates one buffer to another can make it fail. *)
Theorem WrapExternalBufferMany_returns (items : list ImageObject) (bufs : list ExternalBuffer)
    (fmt : ImageFormat) :
  Forall (λ b, returns (CreateNVCVImageDataCuda [dlTensor b] fmt)) bufs →
  Forall (λ it, m_wrapData (io_image it) ≠ None) items →
  returns wrapperSizeInBytes →
  returns (WrapExternalBufferMany items (Some <$> bufs) fmt).2.
Proof.
  intros Hbufs Hitems Hsz. unfold WrapExternalBufferMany.
  assert (∀ items out, Forall (λ it, m_wrapData (io_image it) ≠ None) items →
            ∃ st', wrapManyLoop fmt (items, out) (Some <$> bufs) = (st', Ok tt)) as Hloop.
  { clear Hitems items. induction Hbufs as [|b bufs Hb _ IH]; intros items out Hitems.
    - by eexists.
    - rewrite fmap_cons, wrapManyLoop_cons.
      destruct (wrapOne_returns fmt items out b Hb Hitems Hsz) as [entry ->].
      apply IH. by apply Forall_removelast. }
  destruct (Hloop items [] Hitems) as [st' ->]. simpl. by eexists.
Qed.


End WrapAndExport.

Lemma cuda_returns_wrapped_witness :
  cuda (H:=reference_helpers) (H0:=Inputs.reference_image)
    (setWrapData Samples.wrapper [Samples.buf Samples.cuda0 4096] (mkImageData FMT_U8 [])).1 None
  = Ok (PyWrappedObject (PyBuffer (Samples.buf Samples.cuda0 4096))).
Proof.
  apply (cuda_returns_wrapped (H:=reference_helpers) (H0:=Inputs.reference_image)
           Samples.wrapper [Samples.buf Samples.cuda0 4096] (Samples.buf Samples.cuda0 4096));
    reflexivity.
Defined.

Lemma ToPython_cuda_buffers_witness :
  ∃ out, ToPython (H:=reference_helpers)
           (mkAnyImageData IMAGE_BUFFER_STRIDED_CUDA Samples.nv12_6x4) None Samples.wrapper
           = Ok out ∧
         length (exportedBuffers out) = 2%nat ∧
         (setWrapData Samples.wrapper (exportedBuffers out) Samples.nv12_6x4).2 = Ok tt.
Proof.
  eexists. split; [vm_compute; reflexivity|].
  edestruct (ToPython_cuda_buffers (H:=reference_helpers) Samples.nv12_6x4 None Samples.wrapper)
    as (_ & Hlen & _ & Hwrap); [vm_compute; reflexivity|].
  split; [exact Hlen|].
  apply (Hwrap Samples.wrapper (mkWrapData 1 PyNone)); [reflexivity | discriminate].
Defined.

Lemma WrapExternalBufferVector_checks_witness :
  WrapExternalBufferVector (H:=reference_helpers) (H0:=Inputs.reference_image)
    (Some Inputs.cached) [Some (Samples.buf Samples.cuda0 4096); None] FMT_NONE
  = (Some Inputs.cached, Throw runtime_error).
Proof.
  destruct (WrapExternalBufferVector_checks (H:=reference_helpers) (H0:=Inputs.reference_image)
              (Some Inputs.cached) [Some (Samples.buf Samples.cuda0 4096); None] FMT_NONE)
    as (Hnone & _).
  apply Hnone. apply list_elem_of_further, list_elem_of_here.
Defined.

Lemma wrapped_image_returns_its_buffers_witness :
  ∃ img added,
    (WrapExternalBufferVector (H:=reference_helpers) (H0:=Inputs.reference_image)
       None [Some (Samples.buf Samples.cuda0 4096)] FMT_NONE).2 = Ok (img, added) ∧
    cuda (H:=reference_helpers) (H0:=Inputs.reference_image) (io_image img) None
      = Ok (PyWrappedObject (PyBuffer (Samples.buf Samples.cuda0 4096))).
Proof.
  eexists _, _. split; [vm_compute; reflexivity|].
  edestruct (wrapped_image_returns_its_buffers (H:=reference_helpers)
               (H0:=Inputs.reference_image) None [Samples.buf Samples.cuda0 4096] FMT_NONE)
    as (b0 & imgData & Hhead & _ & _ & _ & _ & _ & Hcuda); [vm_compute; reflexivity|].
  injection Hhead as <-. exact Hcuda.
Defined.

Lemma WrapExternalBufferMany_wraps_each_witness :
  ∃ st out,
    WrapExternalBufferMany (H:=reference_helpers) (H0:=Inputs.reference_image)
       [Inputs.cached]
       [Some (Samples.buf Samples.cuda0 4096); Some (Samples.buf Samples.cuda1 8192)]
       FMT_NONE = (st, Ok out) ∧
    length out = 2%nat ∧ out = st.2.*1 ∧ st.2.*2 = [false; true].
Proof.
  eexists _, _. split; [vm_compute; reflexivity|].
  edestruct (WrapExternalBufferMany_wraps_each (H:=reference_helpers)
               (H0:=Inputs.reference_image) [Inputs.cached]
               [Samples.buf Samples.cuda0 4096; Samples.buf Samples.cuda1 8192] FMT_NONE)
    as (Hlen & Hout & _); [vm_compute; reflexivity|].
  split; [exact Hlen|]. split; [exact Hout | reflexivity].
Defined.

Lemma WrapExternalBufferMany_keeps_what_it_did_witness :
  ∃ st, WrapExternalBufferMany (H:=reference_helpers) (H0:=Inputs.reference_image)
          [Inputs.cached] [Some (Samples.buf Samples.cuda0 4096); None] FMT_NONE
          = (st, Throw runtime_error) ∧
        length st.2 = 1%nat.
Proof.
  eexists.
  edestruct (WrapExternalBufferMany_keeps_what_it_did (H:=reference_helpers)
               (H0:=Inputs.reference_image) [Inputs.cached]
               [Some (Samples.buf Samples.cuda0 4096)] [] None FMT_NONE)
    as (Hthrow & Hlen & _); [vm_compute; reflexivity | reflexivity |].
  split; [exact Hthrow | exact Hlen].
Defined.

Lemma cuda_outcomes_witness :
  ∃ o, cuda (H:=reference_helpers) (H0:=Inputs.reference_image)
         (mkImage None (Some Samples.rgb_5x2)) (Some layout_HWC) = Ok (PyOne o).
Proof.
  destruct (cuda_outcomes (H:=reference_helpers) (H0:=Inputs.reference_image)
              (mkImage None (Some Samples.rgb_5x2)) (Some layout_HWC)) as [_ Hexport].
  eexists. etransitivity.
  - eapply Hexport; [by left | reflexivity | vm_compute; reflexivity].
  - vm_compute. reflexivity.
Defined.

Lemma WrapExternalBuffer_returns_witness :
  ∃ img, (WrapExternalBuffer (H:=reference_helpers) (H0:=Inputs.reference_image)
            (Some Inputs.cached) (Samples.buf Samples.cuda0 4096) FMT_NONE).2 = Ok (img, false).
Proof.
  edestruct (WrapExternalBuffer_returns (H:=reference_helpers) (H0:=Inputs.reference_image)
               (Some Inputs.cached) (Samples.buf Samples.cuda0 4096) FMT_NONE)
    as (img & Hwrap & _); [vm_compute; reflexivity | discriminate |].
  exists img. by rewrite Hwrap.
Defined.

Lemma WrapExternalBufferMany_returns_witness :
  returns (WrapExternalBufferMany (H:=reference_helpers) (H0:=Inputs.reference_image)
             [Inputs.cached]
             [Some (Samples.buf Samples.cuda0 4096); Some (Samples.buf Samples.cuda1 8192)]
             FMT_NONE).2.
Proof.
  apply (WrapExternalBufferMany_returns (H:=reference_helpers) (H0:=Inputs.reference_image)
           [Inputs.cached] [Samples.buf Samples.cuda0 4096; Samples.buf Samples.cuda1 8192]).
  - repeat constructor; eexists; vm_compute; reflexivity.
  - repeat constructor. discriminate.
  - by eexists.
Defined.
